(** * Medicine authenticity back end: ledger contract and reconciliation CLI

    A shallow embedding of

    - [contracts/MedicineAuthenticity.sol], the role-gated ledger that keeps
      one fingerprint and one stage history per product, and
    - the command-line engine ([addProduct], [verifyProduct], [addStage],
      [getProductHistory]) that writes a product to the ledger and to the
      relational [products] table and later recomputes and compares the
      fingerprint,

    together with the run-time pieces the engine relies on: keccak256, the
    ABI encoding of a tuple of strings, and the JavaScript [Date] operations
    [toISOString], [Date.parse], [getFullYear] and [setFullYear].

    Strings are byte strings (the UTF-8 bytes the ABI coder hashes), machine
    integers are [Z], the Solidity mapping is a [gmap] read with the struct's
    zero value as default, thrown errors are an explicit outcome of a small
    state-and-exception monad over the ledger, the table and the console. *)

From Stdlib Require Import ZArith Lia Bool List.
From Stdlib Require Import Strings.Byte Strings.Ascii Strings.String.
From stdpp Require Import base option list strings pretty gmap.

Local Open Scope Z_scope.

(* ===================================================================== *)
(** * Part I: definitions                                                 *)
(* ===================================================================== *)

(** ** Bytes, big-endian words and hexadecimal text *)

Module Bytes.

Definition byteZ (b : byte) : Z := Z.of_N (Byte.to_N b).

Definition byte_of_Z (z : Z) : byte :=
  match Byte.of_N (Z.to_N (z mod 256)) with
  | Some b => b
  | None => x00
  end.

(** [be_bytes k n]: the [k] low-order bytes of [n], most significant
    first (the layout of a [uint256] slot for [k = 32]). *)
Fixpoint be_bytes (k : nat) (n : Z) : list byte :=
  match k with
  | O => []
  | S k' => be_bytes k' (n / 256) ++ [byte_of_Z n]
  end.


Definition hexdigit (n : Z) : ascii :=
  nth (Z.to_nat n) (list_ascii_of_string "0123456789abcdef") "0"%char.

(** ethers' [hexlify]: "0x" followed by two lower-case digits per byte. *)
Definition hexlify (bs : list Z) : string :=
  "0x" +:+ string_of_list_ascii
             (flat_map (fun b => [hexdigit (b / 16); hexdigit (b mod 16)]) bs).

End Bytes.

(** ** keccak256

    The Keccak-f[1600] permutation on 25 lanes of 64 bits, rate 136 bytes,
    multi-rate padding 0x01 .. 0x80 (the original Keccak padding used by
    Ethereum), 32 bytes of output. *)

Module Keccak.

Definition mask64 : Z := 18446744073709551615.

Definition rotl64 (x n : Z) : Z :=
  Z.land (Z.lor (Z.shiftl x n) (Z.shiftr x (64 - n))) mask64.

Definition not64 (x : Z) : Z := Z.lxor x mask64.

Definition lane (a : list Z) (i : nat) : Z := nth i a 0.

Definition RC : list Z :=
  [0x0000000000000001; 0x0000000000008082; 0x800000000000808a;
   0x8000000080008000; 0x000000000000808b; 0x0000000080000001;
   0x8000000080008081; 0x8000000000008009; 0x000000000000008a;
   0x0000000000000088; 0x0000000080008009; 0x000000008000000a;
   0x000000008000808b; 0x800000000000008b; 0x8000000000008089;
   0x8000000000008003; 0x8000000000008002; 0x8000000000000080;
   0x000000000000800a; 0x800000008000000a; 0x8000000080008081;
   0x8000000000008080; 0x0000000080000001; 0x8000000080008008].

(** Rotation offsets, lane [x + 5 * y] at position [x + 5 * y]. *)
Definition rho_offsets : list Z :=
  [ 0;  1; 62; 28; 27;
   36; 44;  6; 55; 20;
    3; 10; 43; 25; 39;
   41; 45; 15; 21;  8;
   18;  2; 61; 56; 14].

Definition idx : list nat := seq 0 25.

Definition theta (a : list Z) : list Z :=
  let C x := Z.lxor (lane a x)
               (Z.lxor (lane a (x + 5))
                  (Z.lxor (lane a (x + 10))
                     (Z.lxor (lane a (x + 15)) (lane a (x + 20))))) in
  let c := map C (seq 0 5) in
  let D x := Z.lxor (lane c ((x + 4) mod 5))
               (rotl64 (lane c ((x + 1) mod 5)) 1) in
  let d := map D (seq 0 5) in
  map (fun i => Z.lxor (lane a i) (lane d (i mod 5))) idx.

(** B[y, 2x+3y] = rot(A[x, y], r[x, y]), read from the target side. *)
Definition rho_pi (a : list Z) : list Z :=
  map (fun j =>
         let X := (j mod 5)%nat in
         let Y := (j / 5)%nat in
         let x := ((X + 3 * Y) mod 5)%nat in
         let src := (x + 5 * X)%nat in
         rotl64 (lane a src) (nth src rho_offsets 0)) idx.

Definition chi (b : list Z) : list Z :=
  map (fun j =>
         let x := (j mod 5)%nat in
         let row := (5 * (j / 5))%nat in
         Z.lxor (lane b j)
           (Z.land (not64 (lane b (((x + 1) mod 5) + row)))
                   (lane b (((x + 2) mod 5) + row)))) idx.

Definition iota (rc : Z) (a : list Z) : list Z :=
  match a with
  | [] => []
  | a0 :: rest => Z.lxor a0 rc :: rest
  end.

Definition round (a : list Z) (rc : Z) : list Z :=
  iota rc (chi (rho_pi (theta a))).

Definition keccak_f (a : list Z) : list Z := fold_left round RC a.

Definition rate : nat := 136.

Fixpoint le_word (bs : list Z) : Z :=
  match bs with
  | [] => 0
  | b :: r => Z.lor b (Z.shiftl (le_word r) 8)
  end.

Fixpoint chunks (fuel n : nat) (l : list Z) : list (list Z) :=
  match fuel with
  | O => []
  | S f =>
      match l with
      | [] => []
      | _ => take n l :: chunks f n (drop n l)
      end
  end.

Definition pad (m : list Z) : list Z :=
  let q := (rate - (length m mod rate))%nat in
  if (q =? 1)%nat then m ++ [0x81]
  else m ++ [0x01] ++ repeat 0 (q - 2) ++ [0x80].

Definition absorb (st block : list Z) : list Z :=
  let lanes := map le_word (chunks 17 8 block) ++ repeat 0 8 in
  keccak_f (map (fun i => Z.lxor (lane st i) (lane lanes i)) idx).

Definition le_bytes (n : nat) (w : Z) : list Z :=
  map (fun i => Z.land (Z.shiftr w (8 * Z.of_nat i)) 255) (seq 0 n).

Definition digest (m : list byte) : list Z :=
  let p := pad (map Bytes.byteZ m) in
  let st := fold_left absorb (chunks (length p) rate p) (repeat 0 25) in
  flat_map (le_bytes 8) (take 4 st).

End Keccak.

(** ** The ethers helpers used by the engine *)

Module Ethers.

(** [ethers.keccak256(data)]: the digest as a 66-character hex string. *)
Definition keccak256 (data : list byte) : string :=
  Bytes.hexlify (Keccak.digest data).

Definition word32 (n : Z) : list byte := Bytes.be_bytes 32 n.

(** Right padding with zero bytes to a multiple of 32. *)
Definition pad32 (bs : list byte) : list byte :=
  bs ++ repeat x00 ((32 - length bs mod 32) mod 32)%nat.

(** A dynamic [string]: its byte length in one slot, then its bytes. *)
Definition enc_string (s : string) : list byte :=
  let bs := list_byte_of_string s in
  word32 (Z.of_nat (length bs)) ++ pad32 bs.

(** The head of a tuple of dynamic values: one offset per component,
    counted from the start of the tuple. *)
Fixpoint heads (off : Z) (tails : list (list byte)) : list byte :=
  match tails with
  | [] => []
  | t :: r => word32 off ++ heads (off + Z.of_nat (length t)) r
  end.

(** [abiCoder.encode(["string", ..., "string"], values)]. *)
Definition encode_strings (values : list string) : list byte :=
  let tails := map enc_string values in
  heads (32 * Z.of_nat (length values)) tails ++ concat tails.


End Ethers.

(** The fingerprint both [addProduct] and [verifyProduct] compute:
    [ethers.keccak256(abiCoder.encode(["string" x 5], [...]))]. *)
Definition fingerprint
    (productID productType batchNumber mfgDateStr expiryDateStr : string)
    : string :=
  Ethers.keccak256
    (Ethers.encode_strings
       [productID; productType; batchNumber; mfgDateStr; expiryDateStr]).


(** ** JavaScript [Date]

    A time value is a number of milliseconds since the epoch; a [Date]
    object holds a time value or NaN, here [option Z] with [None] for NaN.
    The calendar follows the proleptic Gregorian rules of ECMAScript
    (Day, TimeWithinDay, YearFromTime, MonthFromTime, DateFromTime, MakeDay,
    MakeTime, MakeDate, TimeClip). *)

Module JSDate.

Definition msPerDay : Z := 86400000.
Definition maxTime : Z := 8640000000000000.

Definition Day (t : Z) : Z := t / msPerDay.
Definition TimeWithinDay (t : Z) : Z := t mod msPerDay.

(** Year, month (1..12) and day of month of a day number. *)
Definition civil_from_days (z : Z) : Z * Z * Z :=
  let z := z + 719468 in
  let era := z / 146097 in
  let doe := z mod 146097 in
  let yoe := (doe - doe / 1460 + doe / 36524 - doe / 146096) / 365 in
  let y := yoe + era * 400 in
  let doy := doe - (365 * yoe + yoe / 4 - yoe / 100) in
  let mp := (5 * doy + 2) / 153 in
  let d := doy - (153 * mp + 2) / 5 + 1 in
  let m := if mp <? 10 then mp + 3 else mp - 9 in
  (if m <=? 2 then y + 1 else y, m, d).

(** Day number of year [y], month [m] (1..12), day of month [d]. *)
Definition days_from_civil (y m d : Z) : Z :=
  let y := if m <=? 2 then y - 1 else y in
  let era := y / 400 in
  let yoe := y mod 400 in
  let doy := (153 * (if 2 <? m then m - 3 else m + 9) + 2) / 5 + d - 1 in
  let doe := yoe * 365 + yoe / 4 - yoe / 100 + doy in
  era * 146097 + doe - 719468.

Definition YearFromTime (t : Z) : Z := (civil_from_days (Day t)).1.1.
(** 0 = January, as in ECMAScript. *)
Definition MonthFromTime (t : Z) : Z := (civil_from_days (Day t)).1.2 - 1.
Definition DateFromTime (t : Z) : Z := (civil_from_days (Day t)).2.
Definition HourFromTime (t : Z) : Z := (t / 3600000) mod 24.
Definition MinFromTime (t : Z) : Z := (t / 60000) mod 60.
Definition SecFromTime (t : Z) : Z := (t / 1000) mod 60.
Definition msFromTime (t : Z) : Z := t mod 1000.

Definition MakeTime (hour min sec ms : Z) : Z :=
  hour * 3600000 + min * 60000 + sec * 1000 + ms.
Definition MakeDay (year month date : Z) : Z :=
  days_from_civil (year + month / 12) (month mod 12 + 1) 1 + date - 1.
Definition MakeDate (day time : Z) : Z := day * msPerDay + time.

Definition TimeClip (t : Z) : option Z :=
  if Z.abs t <=? maxTime then Some t else None.

Definition InLeapYear (y : Z) : bool :=
  (y mod 4 =? 0) && (negb (y mod 100 =? 0) || (y mod 400 =? 0)).

Definition DaysInMonth (y m : Z) : Z :=
  if m =? 2 then (if InLeapYear y then 29 else 28)
  else if (m =? 4) || (m =? 6) || (m =? 9) || (m =? 11) then 30
  else 31.

(** ECMAScript's day number of the first day of year [y]. *)
Definition DayFromYear (y : Z) : Z :=
  365 * (y - 1970) + (y - 1969) / 4 - (y - 1901) / 100 + (y - 1601) / 400.

(** Days from the epoch to 1 March of year [y], the start of the year that
    [civil_from_days] counts in. *)
Definition march1 (y : Z) : Z :=
  (y / 400) * 146097 + (y mod 400) * 365 + (y mod 400) / 4 - (y mod 400) / 100
  - 719468.

(** The calendar facts about one position [doe] in the 400-year cycle of
    146097 days that [civil_from_days] and [days_from_civil] rely on: the
    month and the day are in range and the day count is recovered. *)
Definition cycle_day_ok (doe : Z) : bool :=
  let yoe := (doe - doe / 1460 + doe / 36524 - doe / 146096) / 365 in
  let doy := doe - (365 * yoe + yoe / 4 - yoe / 100) in
  let mp := (5 * doy + 2) / 153 in
  let d := doy - (153 * mp + 2) / 5 + 1 in
  let m := if mp <? 10 then mp + 3 else mp - 9 in
  (0 <=? yoe) && (yoe <=? 399) && (1 <=? m) && (m <=? 12) && (1 <=? d)
  && (d <=? DaysInMonth (if m <=? 2 then yoe + 1 else yoe) m)
  && (yoe * 365 + yoe / 4 - yoe / 100
      + (153 * (if 2 <? m then m - 3 else m + 9) + 2) / 5 + d - 1 =? doe).

(** [check] holds at 0, 1, ..., [n - 1]. *)
Definition all_below (check : Z -> bool) (n : positive) : bool :=
  (Pos.iter (fun st : bool * Z => (st.1 && check st.2, st.2 + 1)) (true, 0) n).1.

(** *** Decimal fields *)

Definition digit (d : Z) : ascii := ascii_of_nat (48 + Z.to_nat d).

Definition digit_val (c : ascii) : option Z :=
  let n := nat_of_ascii c in
  if ((48 <=? n) && (n <=? 57))%nat then Some (Z.of_nat n - 48) else None.

(** [pad k n]: [n] in exactly [k] decimal digits, zero padded. *)
Fixpoint pad (k : nat) (n : Z) : string :=
  match k with
  | O => ""
  | S k' => String (digit (n / 10 ^ Z.of_nat k')) (pad k' (n mod 10 ^ Z.of_nat k'))
  end.

(** Reads exactly [k] decimal digits. *)
Fixpoint parse_num (k : nat) (acc : Z) (s : string) : option (Z * string) :=
  match k with
  | O => Some (acc, s)
  | S k' =>
      match s with
      | String c r =>
          match digit_val c with
          | Some d => parse_num k' (acc * 10 + d) r
          | None => None
          end
      | EmptyString => None
      end
  end.

Definition expect (c : ascii) (s : string) : option string :=
  match s with
  | String c' r => if Ascii.eqb c c' then Some r else None
  | EmptyString => None
  end.

(** *** [Date.prototype.toISOString]

    Four-digit year for 0..9999, otherwise a sign and six digits. *)

Definition year_string (y : Z) : string :=
  if (0 <=? y) && (y <=? 9999) then pad 4 y
  else if y <? 0 then String "-" (pad 6 (- y))
  else String "+" (pad 6 y).

Definition iso_string (t : Z) : string :=
  year_string (YearFromTime t) +:+
  String "-" (pad 2 (MonthFromTime t + 1) +:+
  String "-" (pad 2 (DateFromTime t) +:+
  String "T" (pad 2 (HourFromTime t) +:+
  String ":" (pad 2 (MinFromTime t) +:+
  String ":" (pad 2 (SecFromTime t) +:+
  String "." (pad 3 (msFromTime t) +:+ "Z")))))).

(** *** [Date.parse]

    [parse_iso] recognises the complete date-time form that [toISOString]
    emits, with every field in range; it returns the time value before
    clipping. *)

Definition parse_year (s : string) : option (Z * string) :=
  match s with
  | String c r =>
      if Ascii.eqb c "+" then parse_num 6 0 r
      else if Ascii.eqb c "-" then
        match parse_num 6 0 r with
        | Some (n, r') => if n =? 0 then None else Some (- n, r')
        | None => None
        end
      else parse_num 4 0 s
  | EmptyString => None
  end.

Definition parse_iso (s : string) : option Z :=
  '(y, s) ← parse_year s;
  s ← expect "-" s;
  '(mo, s) ← parse_num 2 0 s;
  s ← expect "-" s;
  '(d, s) ← parse_num 2 0 s;
  s ← expect "T" s;
  '(h, s) ← parse_num 2 0 s;
  s ← expect ":" s;
  '(mi, s) ← parse_num 2 0 s;
  s ← expect ":" s;
  '(sec, s) ← parse_num 2 0 s;
  s ← expect "." s;
  '(ms, s) ← parse_num 3 0 s;
  s ← expect "Z" s;
  match s with
  | EmptyString =>
      if (1 <=? mo) && (mo <=? 12) && (1 <=? d) && (d <=? DaysInMonth y mo)
         && (h <=? 23) && (mi <=? 59) && (sec <=? 59)
      then Some (MakeDate (MakeDay y (mo - 1) d) (MakeTime h mi sec ms))
      else None
  | String _ _ => None
  end.

(** The host-dependent parts of [Date]: the local time zone adjustment and
    what [Date.parse] does with text outside the form above (shorter ISO
    forms, offsets, and the engine's legacy formats). *)
Record Host := {
  LocalTZA : Z -> bool -> Z;
  parse_other : string -> option Z
}.

Definition LocalTime (h : Host) (t : Z) : Z := t + LocalTZA h t true.
Definition UTC (h : Host) (t : Z) : Z := t - LocalTZA h t false.

(** [new Date(text)]. *)
Definition parse (h : Host) (s : string) : option Z :=
  match parse_iso s with
  | Some t => TimeClip t
  | None => s' ← parse_other h s; TimeClip s'
  end.

(** [date.getFullYear()]; NaN for an invalid date. *)
Definition getFullYear (h : Host) (date : option Z) : option Z :=
  t ← date; Some (YearFromTime (LocalTime h t)).

(** [date.setFullYear(year)]: the new time value of [date]. *)
Definition setFullYear (h : Host) (date : option Z) (year : option Z)
    : option Z :=
  match year with
  | None => None
  | Some y =>
      let t := match date with
               | None => 0
               | Some t => LocalTime h t
               end in
      let newDate :=
        MakeDate (MakeDay y (MonthFromTime t) (DateFromTime t))
                 (TimeWithinDay t) in
      TimeClip (UTC h newDate)
  end.

End JSDate.

(** ** The ledger: [contract MedicineAuthenticity is AccessControl]

    A call either returns or reverts; a reverted call leaves no trace in
    the state, so a transaction's effect is the state of an [Ok] and
    nothing otherwise.  [onlyRole], [hasRole], [getRoleAdmin], [grantRole],
    [_grantRole] and [_setRoleAdmin] are the inherited OpenZeppelin
    [AccessControl] members the contract uses. *)

Module MedicineAuthenticity.

Definition address : Type := Z.
Definition bytes32 : Type := Z.

Definition DEFAULT_ADMIN_ROLE : bytes32 := 0.

(** [keccak256("ADMIN_ROLE")] as a 256-bit number. *)
Definition ADMIN_ROLE : bytes32 :=
  Eval vm_compute in
    fold_left (fun acc b => acc * 256 + b)
      (Keccak.digest (list_byte_of_string "ADMIN_ROLE")) 0.

Record Stage := {
  stageName : string;
  authenticator : address;
  timestamp : Z
}.

Record Product := {
  productID : string;
  productHash : string;
  stages : list Stage;
  exists_ : bool
}.

Inductive Event :=
| ProductAdded (productID productHash : string)
| StageAdded (productID stageName : string) (authenticator : address)
| RoleGranted (role : bytes32) (account sender : address)
| RoleAdminChanged (role previousAdminRole newAdminRole : bytes32).

Record State := {
  products : gmap string Product;
  roles : gset (bytes32 * address);
  roleAdmin : gmap bytes32 bytes32;
  events : list Event
}.

(** [msg.sender] and [block.timestamp] of the call. *)
Record Msg := {
  sender : address;
  block_timestamp : Z
}.

Inductive Revert :=
| AccessControlUnauthorizedAccount (account : address) (neededRole : bytes32)
| RequireFailed (reason : string).

Inductive result (A : Type) :=
| Ok (a : A)
| Reverted (r : Revert).
Arguments Ok {A} a.
Arguments Reverted {A} r.

(** The zero value every key of a Solidity mapping starts with. *)
Definition zero_product : Product :=
  {| productID := ""; productHash := ""; stages := []; exists_ := false |}.

(** [products[_productID]]. *)
Definition product_at (st : State) (_productID : string) : Product :=
  default zero_product (products st !! _productID).

Definition set_products (st : State) (m : gmap string Product) : State :=
  {| products := m; roles := roles st; roleAdmin := roleAdmin st;
     events := events st |}.

Definition emit (e : Event) (st : State) : State :=
  {| products := products st; roles := roles st; roleAdmin := roleAdmin st;
     events := events st ++ [e] |}.

Definition hasRole (st : State) (role : bytes32) (account : address) : bool :=
  bool_decide ((role, account) ∈ roles st).

Definition getRoleAdmin (st : State) (role : bytes32) : bytes32 :=
  default DEFAULT_ADMIN_ROLE (roleAdmin st !! role).

Definition _grantRole (msg : Msg) (role : bytes32) (account : address)
    (st : State) : State :=
  if hasRole st role account then st
  else emit (RoleGranted role account (sender msg))
         {| products := products st;
            roles := {[ (role, account) ]} ∪ roles st;
            roleAdmin := roleAdmin st;
            events := events st |}.

Definition _setRoleAdmin (role adminRole : bytes32) (st : State) : State :=
  emit (RoleAdminChanged role (getRoleAdmin st role) adminRole)
    {| products := products st;
       roles := roles st;
       roleAdmin := <[ role := adminRole ]> (roleAdmin st);
       events := events st |}.

(** The modifier: the body runs only for a holder of [role]. *)
Definition onlyRole {A} (role : bytes32) (msg : Msg) (st : State)
    (body : result A) : result A :=
  if hasRole st role (sender msg) then body
  else Reverted (AccessControlUnauthorizedAccount (sender msg) role).

Definition require {A} (cond : bool) (reason : string) (rest : result A)
    : result A :=
  if cond then rest else Reverted (RequireFailed reason).

Definition empty_state : State :=
  {| products := ∅; roles := ∅; roleAdmin := ∅; events := [] |}.

Definition constructor (msg : Msg) : State :=
  _setRoleAdmin ADMIN_ROLE DEFAULT_ADMIN_ROLE
    (_grantRole msg ADMIN_ROLE (sender msg)
       (_grantRole msg DEFAULT_ADMIN_ROLE (sender msg) empty_state)).

Definition addProduct (msg : Msg) (_productID _productHash : string)
    (st : State) : result State :=
  onlyRole ADMIN_ROLE msg st
    (require (0 <? String.length _productID)%nat "Product ID cannot be empty"
    (require (0 <? String.length _productHash)%nat "Product hash cannot be empty"
    (require (negb (exists_ (product_at st _productID))) "Product already exists"
       (let p := product_at st _productID in
        let p := {| productID := _productID; productHash := productHash p;
                    stages := stages p; exists_ := exists_ p |} in
        let p := {| productID := productID p; productHash := _productHash;
                    stages := stages p; exists_ := exists_ p |} in
        let p := {| productID := productID p; productHash := productHash p;
                    stages := stages p; exists_ := true |} in
        Ok (emit (ProductAdded _productID _productHash)
              (set_products st (<[ _productID := p ]> (products st)))))))).

Definition addStage (msg : Msg) (_productID _stageName : string)
    (st : State) : result State :=
  onlyRole ADMIN_ROLE msg st
    (require (0 <? String.length _stageName)%nat "Stage name cannot be empty"
    (require (exists_ (product_at st _productID)) "Product does not exist"
       (let p := product_at st _productID in
        let p := {| productID := productID p; productHash := productHash p;
                    stages := stages p ++
                              [ {| stageName := _stageName;
                                   authenticator := sender msg;
                                   timestamp := block_timestamp msg |} ];
                    exists_ := exists_ p |} in
        Ok (emit (StageAdded _productID _stageName (sender msg))
              (set_products st (<[ _productID := p ]> (products st))))))).

Definition getProductHash (st : State) (_productID : string) : result string :=
  require (exists_ (product_at st _productID)) "Product does not exist"
    (Ok (productHash (product_at st _productID))).

Definition getProductHistory (st : State) (_productID : string)
    : result (list Stage) :=
  require (exists_ (product_at st _productID)) "Product does not exist"
    (Ok (stages (product_at st _productID))).

Definition productExists (st : State) (_productID : string) : result bool :=
  Ok (exists_ (product_at st _productID)).

Definition grantRole (msg : Msg) (role : bytes32) (account : address)
    (st : State) : result State :=
  onlyRole (getRoleAdmin st role) msg st (Ok (_grantRole msg role account st)).

(** *** Transactions and executions *)

Inductive Call :=
| CallAddProduct (_productID _productHash : string)
| CallAddStage (_productID _stageName : string)
| CallGrantRole (role : bytes32) (account : address).

Definition call (st : State) (tx : Msg * Call) : result State :=
  match tx.2 with
  | CallAddProduct pid h => addProduct tx.1 pid h st
  | CallAddStage pid n => addStage tx.1 pid n st
  | CallGrantRole r a => grantRole tx.1 r a st
  end.

(** A reverted transaction changes nothing. *)
Definition exec (st : State) (tx : Msg * Call) : State :=
  match call st tx with
  | Ok st' => st'
  | Reverted _ => st
  end.

Definition run (st : State) (txs : list (Msg * Call)) : State :=
  fold_left exec txs st.

Definition succeeds (st : State) (tx : Msg * Call) : bool :=
  match call st tx with
  | Ok _ => true
  | Reverted _ => false
  end.

(** The stage events the successful [addStage] transactions on
    [_productID] record, in the order the transactions are applied. *)
Fixpoint applied_stages (_productID : string) (st : State)
    (txs : list (Msg * Call)) : list Stage :=
  match txs with
  | [] => []
  | tx :: rest =>
      (match tx.2 with
       | CallAddStage pid n =>
           if String.eqb pid _productID && succeeds st tx
           then [ {| stageName := n; authenticator := sender tx.1;
                     timestamp := block_timestamp tx.1 |} ]
           else []
       | _ => []
       end) ++ applied_stages _productID (exec st tx) rest
  end.

(** Some transaction of the execution registered [_productID]. *)
Fixpoint was_registered (_productID : string) (st : State)
    (txs : list (Msg * Call)) : bool :=
  match txs with
  | [] => false
  | tx :: rest =>
      (match tx.2 with
       | CallAddProduct pid _ => String.eqb pid _productID && succeeds st tx
       | _ => false
       end) || was_registered _productID (exec st tx) rest
  end.

(** Block timestamps never go back along a chain. *)
Fixpoint chain_time_ok (t0 : Z) (txs : list (Msg * Call)) : Prop :=
  match txs with
  | [] => True
  | tx :: rest => t0 <= block_timestamp tx.1 /\
                  chain_time_ok (block_timestamp tx.1) rest
  end.

Fixpoint nondecreasing (ts : list Z) : Prop :=
  match ts with
  | [] => True
  | t :: rest => match rest with
                 | [] => True
                 | t' :: _ => t <= t'
                 end /\ nondecreasing rest
  end.

End MedicineAuthenticity.

(** ** The metadata store: the [products] table behind [db.query] *)

Module Store.

(** One row of [products]; every column is text. *)
Record Row := {
  product_id : string;
  product_type : string;
  batch_number : string;
  manufacturing_date : string;
  expiry_date : string;
  product_hash : string
}.

(** Modelled from the spec: the [db] module (the connection pool and the
    database behind it) is not part of the sources; section 4.3 gives its
    contract, a keyed get that returns the latest committed rows.
    [SELECT * FROM products WHERE product_id = $1]. *)
Definition select (productID : string) (tbl : list Row) : list Row :=
  List.filter (fun r => String.eqb (product_id r) productID) tbl.

(** Modelled from the spec: the [db] module is not part of the sources;
    section 4.3: [Insert] fails with a conflict if the product id is
    already present ([product_id] is the primary key), and otherwise the
    row is committed as given.  [INSERT INTO products ... VALUES ...]. *)
Definition insert (row : Row) (tbl : list Row) : option (list Row) :=
  if existsb (fun r => String.eqb (product_id r) (product_id row)) tbl
  then None
  else Some (tbl ++ [row]).

End Store.

(** ** The engine: the command-line module *)

Module Cli.

Module L := MedicineAuthenticity.

(** What a [throw] carries. *)
Inductive JsError :=
| Error (msg : string)            (* [new Error(msg)], and a failed
                                     request to the node or the database *)
| RangeError (msg : string)       (* thrown by [toISOString] *)
| CallException (r : L.Revert).   (* ethers' error for a reverted call *)

(** [error.message]. *)
Definition message (e : JsError) : string :=
  match e with
  | Error m => m
  | RangeError m => m
  | CallException (L.RequireFailed reason) =>
      "execution reverted: " +:+ reason
  | CallException (L.AccessControlUnauthorizedAccount _ _) =>
      "execution reverted (unknown custom error)"
  end.

(** The places where the engine leaves the process. *)
Inductive Boundary :=
| RpcProductExists
| RpcAddProduct
| RpcAddStage
| RpcWait
| RpcGetProductHash
| RpcGetProductHistory
| RpcAdminRole
| RpcGrantRole
| DbInsert
| DbSelect.

Global Instance Boundary_eq_dec : EqDecision Boundary.
Proof. solve_decision. Defined.

(** What one command run gets from outside: the signing wallet, the time
    of the block its transaction lands in, the clock, the host's [Date]
    behaviour, the text form of an address and the address a text stands
    for ([ethers.isAddress] holds where there is one), and for each boundary
    the message of the failure the transport raises there, if any. *)
Record Env := {
  wallet : L.address;
  block_timestamp : Z;
  now : Z;
  host : JSDate.Host;
  show_address : L.address -> string;
  parse_address : string -> option L.address;
  fault : Boundary -> option string
}.

Record World := {
  ledger : L.State;
  table : list Store.Row;
  console : list string;
  trace : list (Boundary * bool)
}.

Inductive Outcome (A : Type) :=
| Return (a : A)
| Throw (e : JsError).
Arguments Return {A} a.
Arguments Throw {A} e.

Definition M (A : Type) : Type := World -> Outcome A * World.

Definition ret {A} (a : A) : M A := fun w => (Return a, w).
Definition throw {A} (e : JsError) : M A := fun w => (Throw e, w).
Definition bind {A B} (m : M A) (k : A -> M B) : M B :=
  fun w => match m w with
           | (Return a, w') => k a w'
           | (Throw e, w') => (Throw e, w')
           end.
(** [try { body } catch (error) { handler }]. *)
Definition try_catch {A} (body : M A) (handler : JsError -> M A) : M A :=
  fun w => match body w with
           | (Return a, w') => (Return a, w')
           | (Throw e, w') => handler e w'
           end.

Notation "x <- m ;; k" := (bind m (fun x => k))
  (at level 100, m at next level, right associativity).
Notation "m ;; k" := (bind m (fun _ => k))
  (at level 100, right associativity).

Fixpoint mapM {A B} (f : A -> M B) (l : list A) : M (list B) :=
  match l with
  | [] => ret []
  | a :: r => b <- f a ;; bs <- mapM f r ;; ret (b :: bs)
  end.

Definition console_log (line : string) : M unit :=
  fun w => (Return tt,
            {| ledger := ledger w; table := table w;
               console := console w ++ [line]; trace := trace w |}).
Definition console_error := console_log.

Definition called (b : Boundary) (ok : bool) : M unit :=
  fun w => (Return tt,
            {| ledger := ledger w; table := table w; console := console w;
               trace := trace w ++ [(b, ok)] |}).

Definition set_ledger (st : L.State) : M unit :=
  fun w => (Return tt,
            {| ledger := st; table := table w; console := console w;
               trace := trace w |}).

Definition set_table (tbl : list Store.Row) : M unit :=
  fun w => (Return tt,
            {| ledger := ledger w; table := tbl; console := console w;
               trace := trace w |}).

(** A request that the transport may fail before it reaches the other
    side. *)
Definition request {A} (env : Env) (b : Boundary) (body : M A) : M A :=
  match fault env b with
  | Some m => called b false ;; throw (Error m)
  | None => body
  end.

Definition msg_of (env : Env) : L.Msg :=
  {| L.sender := wallet env; L.block_timestamp := block_timestamp env |}.

(** [await contract.view(...)]. *)
Definition view {A} (env : Env) (b : Boundary) (f : L.State -> L.result A)
    : M A :=
  request env b
    (fun w => match f (ledger w) with
              | L.Ok a => (called b true ;; ret a) w
              | L.Reverted r => (called b false ;; throw (CallException r)) w
              end).

(** [await contract.method(...)] for a state-changing method: the call is
    simulated and sent, and the ledger applies it. *)
Definition send (env : Env) (b : Boundary)
    (f : L.Msg -> L.State -> L.result L.State) : M unit :=
  request env b
    (fun w => match f (msg_of env) (ledger w) with
              | L.Ok st' => (set_ledger st' ;; called b true) w
              | L.Reverted r => (called b false ;; throw (CallException r)) w
              end).

(** [await tx.wait()]. *)
Definition wait (env : Env) : M unit :=
  request env RpcWait (called RpcWait true).

Definition db_insert (env : Env) (row : Store.Row) : M unit :=
  request env DbInsert
    (fun w => match Store.insert row (table w) with
              | Some tbl => (set_table tbl ;; called DbInsert true) w
              | None =>
                  (called DbInsert false ;;
                   throw (Error "duplicate key value violates unique constraint")) w
              end).

Definition db_select (env : Env) (productID : string) : M (list Store.Row) :=
  request env DbSelect
    (fun w => (called DbSelect true ;; ret (Store.select productID (table w))) w).

(** [!s] for a string. *)
Definition falsy (s : string) : bool := String.eqb s "".

(** [s.includes(sub)]. *)
Fixpoint includes (sub s : string) : bool :=
  String.prefix sub s ||
  match s with
  | EmptyString => false
  | String _ r => includes sub r
  end.

(** [new Date()]. *)
Definition Date_now (env : Env) : option Z := JSDate.TimeClip (now env).

(** [date.toISOString()]. *)
Definition toISOString (date : option Z) : M string :=
  match date with
  | Some t => ret (JSDate.iso_string t)
  | None => throw (RangeError "Invalid time value")
  end.

Definition grantAdminRole (env : Env) (address : string) : M unit :=
  try_catch
    (match parse_address env address with
     | None => throw (Error ("Invalid Ethereum address: " +:+ address))
     | Some account =>
         adminRole <- view env RpcAdminRole (fun _ => L.Ok L.ADMIN_ROLE) ;;
         send env RpcGrantRole (fun msg => L.grantRole msg adminRole account) ;;
         wait env ;;
         console_log ("✅ Granted ADMIN_ROLE to " +:+ address)
     end)
    (fun error =>
       console_error ("❌ Failed to grant admin role: " +:+ message error) ;;
       throw error).

Record Added := {
  added_productID : string;
  added_productHash : string
}.

Definition addProduct (env : Env) (productID productType batchNumber : string)
    : M Added :=
  try_catch
    (if falsy productID || falsy productType || falsy batchNumber
     then throw (Error "Product ID, Type, and batch number are required")
     else
       let manufacturingDate := Date_now env in
       let expiryDate :=
         JSDate.setFullYear (host env) manufacturingDate
           (y ← JSDate.getFullYear (host env) manufacturingDate; Some (y + 2)) in
       mfgDateStr <- toISOString manufacturingDate ;;
       expiryDateStr <- toISOString expiryDate ;;
       let productHash :=
         fingerprint productID productType batchNumber mfgDateStr expiryDateStr in
       try_catch
         (exists_ <- view env RpcProductExists
                       (fun st => L.productExists st productID) ;;
          if exists_ : bool
          then throw (Error ("Product " +:+ productID +:+
                             " already exists on blockchain"))
          else ret tt)
         (fun error =>
            if negb (includes "Product" (message error))
            then throw error
            else ret tt) ;;
       console_log ("Adding product " +:+ productID +:+ " to blockchain...") ;;
       send env RpcAddProduct
         (fun msg => L.addProduct msg productID productHash) ;;
       wait env ;;
       console_log ("✅ Added product " +:+ productID +:+ " with hash " +:+
                    productHash +:+ " to blockchain") ;;
       db_insert env
         {| Store.product_id := productID;
            Store.product_type := productType;
            Store.batch_number := batchNumber;
            Store.manufacturing_date := mfgDateStr;
            Store.expiry_date := expiryDateStr;
            Store.product_hash := productHash |} ;;
       console_log ("✅ Added product " +:+ productID +:+ " to database") ;;
       ret {| added_productID := productID;
              added_productHash := productHash |})
    (fun error =>
       console_error ("❌ Failed to add product: " +:+ message error) ;;
       throw error).

Record VerificationResult := {
  productID : string;
  isAuthentic : bool;
  databaseHash : string;
  blockchainHash : string;
  metadata : Store.Row
}.

Definition verifyProduct (env : Env) (productID : string)
    : M VerificationResult :=
  try_catch
    (if falsy productID
     then throw (Error "Product ID is required")
     else
       rows <- db_select env productID ;;
       match rows with
       | [] => throw (Error ("Product " +:+ productID +:+
                             " not found in database"))
       | metadata :: _ =>
           blockchainHash <- view env RpcGetProductHash
                               (fun st => L.getProductHash st productID) ;;
           mfg <- toISOString
                    (JSDate.parse (host env) (Store.manufacturing_date metadata)) ;;
           expiry <- toISOString
                       (JSDate.parse (host env) (Store.expiry_date metadata)) ;;
           let calculatedHash :=
             fingerprint (Store.product_id metadata)
               (Store.product_type metadata) (Store.batch_number metadata)
               mfg expiry in
           let isAuthentic := String.eqb calculatedHash blockchainHash in
           let verificationResult :=
             {| productID := productID;
                isAuthentic := isAuthentic;
                databaseHash := calculatedHash;
                blockchainHash := blockchainHash;
                metadata := metadata |} in
           (if isAuthentic
            then console_log ("✅ Product " +:+ productID +:+ " is authentic")
            else
              console_log ("❌ Product " +:+ productID +:+
                           " authenticity could not be verified❗") ;;
              console_log ("Database hash: " +:+ calculatedHash) ;;
              console_log ("Blockchain hash: " +:+ blockchainHash)) ;;
           ret verificationResult
       end)
    (fun error =>
       console_error ("❌ Verification failed: " +:+ message error) ;;
       throw error).

Definition dquote : string := String "034"%char "".

Definition addStage (env : Env) (productID stageName : string)
    : M (string * string) :=
  try_catch
    (if falsy productID || falsy stageName
     then throw (Error "Product ID and stage name are required")
     else
       send env RpcAddStage (fun msg => L.addStage msg productID stageName) ;;
       wait env ;;
       console_log ("✅ Added stage " +:+ dquote +:+ stageName +:+ dquote +:+
                    " to product " +:+ productID) ;;
       ret (productID, stageName))
    (fun error =>
       console_error ("❌ Failed to add stage: " +:+ message error) ;;
       throw error).

Record FormattedStage := {
  stageName : string;
  authenticator : L.address;
  timestamp : string
}.

Definition getProductHistory (env : Env) (productID : string)
    : M (list FormattedStage) :=
  try_catch
    (if falsy productID
     then throw (Error "Product ID is required")
     else
       stages <- view env RpcGetProductHistory
                   (fun st => L.getProductHistory st productID) ;;
       formattedStages <-
         mapM (fun stage =>
                 ts <- toISOString (JSDate.TimeClip (L.timestamp stage * 1000)) ;;
                 ret {| stageName := L.stageName stage;
                        authenticator := L.authenticator stage;
                        timestamp := ts |}) stages ;;
       console_log ("📋 History for product " +:+ productID +:+ ":") ;;
       mapM (fun '(index, stage) =>
               console_log ("  " +:+ pretty (index + 1)%nat +:+ ". " +:+
                            stageName stage +:+ " - Authenticated by " +:+
                            show_address env (authenticator stage) +:+
                            " at " +:+ timestamp stage))
            (combine (seq 0 (length formattedStages)) formattedStages) ;;
       ret formattedStages)
    (fun error =>
       console_error ("❌ Failed to get product history: " +:+ message error) ;;
       throw error).

(** The command line: [process.argv] already split into a command and its
    arguments, a missing argument being the empty text. *)
Inductive Command :=
| CmdAddProduct (productID productType batchNumber : string)
| CmdVerify (productID : string)
| CmdGrantAdmin (address : string)
| CmdAddStage (productID stageName : string)
| CmdGetHistory (productID : string)
| CmdOther.

Definition usage : string :=
  "
📋 Available commands:
  addProduct <id> <type> <batch>     - Add a new product
  verify <id>                        - Verify product authenticity
  grantAdmin <address>               - Grant admin role to address
  addStage <id> <stageName>          - Add a stage to product lifecycle
  getHistory <id>                    - Get product history
        ".

(** [main]; the value is the exit status of the process. *)
Definition main (env : Env) (cmd : Command) : M Z :=
  try_catch
    (match cmd with
     | CmdAddProduct a b c => addProduct env a b c ;; ret 0
     | CmdVerify a => verifyProduct env a ;; ret 0
     | CmdGrantAdmin a => grantAdminRole env a ;; ret 0
     | CmdAddStage a b => addStage env a b ;; ret 0
     | CmdGetHistory a => getProductHistory env a ;; ret 0
     | CmdOther => console_log usage ;; ret 0
     end)
    (fun error =>
       console_error ("❌ Error in main: " +:+ message error) ;;
       ret 1).

(** A sequence of command runs, each in its own environment. *)
Definition session (w : World) (runs : list (Env * Command)) : World :=
  fold_left (fun w r => (main r.1 r.2 w).2) runs w.

(** *** Observations used in the statements below *)

(** The boundary calls a run added to the trace. *)
Definition trace_since (w w' : World) : list (Boundary * bool) :=
  drop (length (trace w)) (trace w').

(** [w'] comes after [w]: its ledger is the ledger of [w] after some
    transactions, its table the table of [w] with rows added at the end. *)
Definition extends (w w' : World) : Prop :=
  (exists txs, ledger w' = L.run (ledger w) txs) /\
  (exists rows, table w' = table w ++ rows).

(** Two rows that agree on every column except [product_hash]. *)
Definition same_but_hash (r1 r2 : Store.Row) : Prop :=
  Store.product_id r1 = Store.product_id r2 /\
  Store.product_type r1 = Store.product_type r2 /\
  Store.batch_number r1 = Store.batch_number r2 /\
  Store.manufacturing_date r1 = Store.manufacturing_date r2 /\
  Store.expiry_date r1 = Store.expiry_date r2.

(** Two verification outcomes that differ at most in the [product_hash]
    column of the record they carry. *)
Definition same_verdict (o1 o2 : Outcome VerificationResult) : Prop :=
  match o1, o2 with
  | Return v1, Return v2 =>
      productID v1 = productID v2 /\
      isAuthentic v1 = isAuthentic v2 /\
      databaseHash v1 = databaseHash v2 /\
      blockchainHash v1 = blockchainHash v2 /\
      same_but_hash (metadata v1) (metadata v2)
  | Throw e1, Throw e2 => e1 = e2
  | _, _ => False
  end.

(** The expiry date [addProduct] derives from the clock. *)
Definition expiryDate (env : Env) : option Z :=
  JSDate.setFullYear (host env) (Date_now env)
    (y ← JSDate.getFullYear (host env) (Date_now env); Some (y + 2)).

(** The row [addProduct] inserts for a product registered at [tm] with
    expiry [te]. *)
Definition row_of (productID productType batchNumber : string) (tm te : Z)
    : Store.Row :=
  {| Store.product_id := productID;
     Store.product_type := productType;
     Store.batch_number := batchNumber;
     Store.manufacturing_date := JSDate.iso_string tm;
     Store.expiry_date := JSDate.iso_string te;
     Store.product_hash :=
       fingerprint productID productType batchNumber
         (JSDate.iso_string tm) (JSDate.iso_string te) |}.

(** The run left the product on the ledger and not in the table. *)
Definition partial_commit (productID : string) (w' : World) : Prop :=
  L.exists_ (L.product_at (ledger w') productID) = true /\
  Store.select productID (table w') = [].

(** A failed [addProduct] tells its caller whether it stopped between the
    two writes: some test on the thrown error holds exactly for the runs in
    which the ledger write was applied and the insert failed. *)
Definition surfaces_partial_commit : Prop :=
  exists is_partial : JsError -> bool,
    forall env productID productType batchNumber w e,
      let run := addProduct env productID productType batchNumber w in
      run.1 = Throw e ->
      (is_partial e = true <->
       (RpcAddProduct, true) ∈ trace_since w run.2 /\
       (DbInsert, false) ∈ trace_since w run.2).

End Cli.

(** ** A concrete deployment

    One deployer and wallet, UTC as the local zone, no legacy date formats,
    no transport failures; the registration and the two stages of the
    README walk-through. *)

Module Scenario.

Import Cli.

Definition deployer : L.address := 0xf39Fd6e51aad88F6F4ce6aB8827279cffFb92266.
Definition stranger : L.address := 0x70997970C51812dc3A010C7d01b50e0d17dc79C8.

Definition utc : JSDate.Host :=
  {| JSDate.LocalTZA := fun _ _ => 0; JSDate.parse_other := fun _ => None |}.

Definition env0 : Env :=
  {| wallet := deployer;
     block_timestamp := 1700000001;
     now := 1700000000000;
     host := utc;
     show_address := fun _ => "0xf39Fd6e51aad88F6F4ce6aB8827279cffFb92266";
     parse_address := fun _ => Some stranger;
     fault := fun _ => None |}.

(** The same run with one boundary failing with [m]. *)
Definition failing (b : Boundary) (m : string) (env : Env) : Env :=
  {| wallet := wallet env; block_timestamp := block_timestamp env;
     now := now env; host := host env; show_address := show_address env;
     parse_address := parse_address env;
     fault := fun b' => if decide (b = b') then Some m else fault env b' |}.

(** The same run signed by another wallet. *)
Definition signed_by (a : L.address) (env : Env) : Env :=
  {| wallet := a; block_timestamp := block_timestamp env;
     now := now env; host := host env; show_address := show_address env;
     parse_address := parse_address env;
     fault := fault env |}.

Definition genesis : L.State :=
  L.constructor {| L.sender := deployer; L.block_timestamp := 1700000000 |}.

Definition w0 : World :=
  {| ledger := genesis; table := []; console := []; trace := [] |}.

(** After [addProduct P1 Aspirin B001]. *)
Definition w1 : World := (addProduct env0 "P1" "Aspirin" "B001" w0).2.

(** The table of [w] with the [product_type] of every row of [productID]
    overwritten, as an edit made directly in the database. *)
Definition tamper_type (productID newType : string) (w : World) : World :=
  {| ledger := ledger w;
     table := map (fun r =>
                     if String.eqb (Store.product_id r) productID
                     then {| Store.product_id := Store.product_id r;
                             Store.product_type := newType;
                             Store.batch_number := Store.batch_number r;
                             Store.manufacturing_date := Store.manufacturing_date r;
                             Store.expiry_date := Store.expiry_date r;
                             Store.product_hash := Store.product_hash r |}
                     else r) (table w);
     console := console w;
     trace := trace w |}.

(** The table of [w] with the [product_hash] of every row overwritten. *)
Definition tamper_hash (newHash : string) (w : World) : World :=
  {| ledger := ledger w;
     table := map (fun r =>
                     {| Store.product_id := Store.product_id r;
                        Store.product_type := Store.product_type r;
                        Store.batch_number := Store.batch_number r;
                        Store.manufacturing_date := Store.manufacturing_date r;
                        Store.expiry_date := Store.expiry_date r;
                        Store.product_hash := newHash |}) (table w);
     console := console w;
     trace := trace w |}.

(** The README walk-through as ledger transactions, one block second
    apart, and a second product without stages. *)
Definition walkthrough : list (L.Msg * L.Call) :=
  [ ({| L.sender := deployer; L.block_timestamp := 1700000001 |},
     L.CallAddProduct "P1"
       "0x5d1e60d365a571414309bc21c97e4d93ba790d2bd7ea630a57888d7681efdc16");
    ({| L.sender := deployer; L.block_timestamp := 1700000002 |},
     L.CallAddStage "P1" "Packaged");
    ({| L.sender := stranger; L.block_timestamp := 1700000003 |},
     L.CallAddStage "P1" "Dropped");
    ({| L.sender := deployer; L.block_timestamp := 1700000004 |},
     L.CallAddProduct "P2" "0x00");
    ({| L.sender := deployer; L.block_timestamp := 1700000004 |},
     L.CallAddStage "P1" "Shipped") ].

End Scenario.

(** ** Further observations on the ledger and the engine *)

Module Ledger.

Import MedicineAuthenticity.

(** The product a transaction is about, if any. *)
Definition target (c : Call) : option string :=
  match c with
  | CallAddProduct pid _ => Some pid
  | CallAddStage pid _ => Some pid
  | CallGrantRole _ _ => None
  end.

(** Whether a transaction is a [grantRole]. *)
Definition grants (c : Call) : bool :=
  match c with
  | CallGrantRole _ _ => true
  | _ => false
  end.

(** What the contract's [require]s establish for the entry of one key: a
    registered entry carries its own key as [productID], key and hash are
    not empty, no stage name is empty; an unregistered entry is still the
    zero value. *)
Definition entry_ok (st : State) (_productID : string) : Prop :=
  let p := product_at st _productID in
  if exists_ p
  then productID p = _productID /\ _productID <> "" /\ productHash p <> "" /\
       Forall (fun s => stageName s <> "") (stages p)
  else p = zero_product.

(** The hashes announced for [_productID] by [ProductAdded] events. *)
Definition added_log (_productID : string) (evs : list Event) : list string :=
  flat_map (fun e => match e with
                     | ProductAdded pid h =>
                         if String.eqb pid _productID then [h] else []
                     | _ => []
                     end) evs.

(** The stages announced for [_productID] by [StageAdded] events. *)
Definition stage_log (_productID : string) (evs : list Event)
    : list (string * address) :=
  flat_map (fun e => match e with
                     | StageAdded pid n a =>
                         if String.eqb pid _productID then [(n, a)] else []
                     | _ => []
                     end) evs.

End Ledger.

Module Engine.

Import Cli.

(** [env] with the transport made to work at boundary [b]. *)
Definition healthy (b : Boundary) (env : Env) : Env :=
  {| wallet := wallet env; block_timestamp := block_timestamp env;
     now := now env; host := host env; show_address := show_address env;
     parse_address := parse_address env;
     fault := fun b' => if decide (b = b') then None else fault env b' |}.

(** The entry [getProductHistory] builds for one stage whose timestamp
    [Date] can hold. *)
Definition formatted (stage : L.Stage) : FormattedStage :=
  {| stageName := L.stageName stage;
     authenticator := L.authenticator stage;
     timestamp := JSDate.iso_string (L.timestamp stage * 1000) |}.

(** The timestamp of [stage], in milliseconds, is a time value. *)
Definition printable (stage : L.Stage) : Prop :=
  Z.abs (L.timestamp stage * 1000) <= JSDate.maxTime.

(** No two rows share a [product_id]. *)
Definition keys_unique (tbl : list Store.Row) : Prop :=
  NoDup (map Store.product_id tbl).

(** A host whose local time is UTC shifted by a fixed [offset]. *)
Definition fixed_offset (h : JSDate.Host) (offset : Z) : Prop :=
  forall t b, JSDate.LocalTZA h t b = offset.

(** A lower-case hexadecimal digit. *)
Definition is_hex (c : ascii) : bool :=
  existsb (Ascii.eqb c) (list_ascii_of_string "0123456789abcdef").

(** A row as [addProduct] writes it, with the ledger holding the digest
    of its columns: a non-empty id, both dates printed by [toISOString],
    and [product_hash] the fingerprint the ledger answers for the id. *)
Definition row_backed (st : L.State) (r : Store.Row) : Prop :=
  Store.product_id r <> "" /\
  L.getProductHash st (Store.product_id r) = L.Ok (Store.product_hash r) /\
  exists tm te,
    Z.abs tm <= JSDate.maxTime /\ Z.abs te <= JSDate.maxTime /\
    r = row_of (Store.product_id r) (Store.product_type r)
          (Store.batch_number r) tm te.

(** The table and the ledger agree: keys are unique and every row is
    backed. *)
Definition consistent (w : World) : Prop :=
  keys_unique (table w) /\ Forall (row_backed (ledger w)) (table w).

(** Two rows that agree on id, type and batch and whose date columns
    [Date] reads as the same instants, whatever their text. *)
Definition same_instants (h : JSDate.Host) (r1 r2 : Store.Row) : Prop :=
  Store.product_id r1 = Store.product_id r2 /\
  Store.product_type r1 = Store.product_type r2 /\
  Store.batch_number r1 = Store.batch_number r2 /\
  JSDate.parse h (Store.manufacturing_date r1)
    = JSDate.parse h (Store.manufacturing_date r2) /\
  JSDate.parse h (Store.expiry_date r1)
    = JSDate.parse h (Store.expiry_date r2).

(** Two verification outcomes with the same verdict and digests, or the
    same error. *)
Definition same_digests (o1 o2 : Outcome VerificationResult) : Prop :=
  match o1, o2 with
  | Return v1, Return v2 =>
      isAuthentic v1 = isAuthentic v2 /\
      databaseHash v1 = databaseHash v2 /\
      blockchainHash v1 = blockchainHash v2
  | Throw e1, Throw e2 => e1 = e2
  | _, _ => False
  end.

End Engine.

(* ===================================================================== *)
(** * Part II: properties                                                 *)
(* ===================================================================== *)

(** ** The hash function on known inputs *)

Example keccak256_empty :
  Ethers.keccak256 [] =
  "0xc5d2460186f7233c927e7db2dcc703c0e500b653ca82273b7bfad8045d85a470".
Proof. vm_compute. reflexivity. Qed.

Example keccak256_abc :
  Ethers.keccak256 (list_byte_of_string "abc") =
  "0x4e03657aea45a94fc7d47ba826c8d667c0d1e6e33a64a036ec44f58fa12d6c45".
Proof. vm_compute. reflexivity. Qed.

Example ADMIN_ROLE_value :
  MedicineAuthenticity.ADMIN_ROLE =
  0xa49807205ce4d355092ef5a8a18f56e8913cf4a201fbe287825b095693c21775.
Proof. reflexivity. Qed.

(** One string: the offset of its tail, its length, its bytes padded. *)
Example encode_one_string :
  map Bytes.byteZ (Ethers.encode_strings ["a"]) =
  repeat 0 31 ++ [32] ++ repeat 0 31 ++ [1] ++ [97] ++ repeat 0 31.
Proof. vm_compute. reflexivity. Qed.

(** ** Words and the string encoding *)

Section Encoding.

Import Bytes Ethers.













End Encoding.

(** ** The hexadecimal text of a digest *)

Section Digests.








End Digests.

(** ** The calendar and the ISO text form of a time value *)

Section DateFacts.

Import JSDate.

Lemma iter_check_spec (check : Z -> bool) (n : nat) :
  let r := Nat.iter n (fun st : bool * Z => (st.1 && check st.2, st.2 + 1))
             (true, 0) in
  r.2 = Z.of_nat n /\
  (r.1 = true -> forall z, 0 <= z < Z.of_nat n -> check z = true).
Proof.
  induction n as [|n [IH1 IH2]].
  - simpl. split; [reflexivity|]. intros _ z Hz. lia.
  - cbv zeta. rewrite Nat2Z.inj_succ, Nat.iter_succ. cbn [fst snd].
    split; [rewrite IH1; lia|].
    intros H z Hz. apply andb_prop in H as [H0 H1].
    destruct (Z.eq_dec z (Z.of_nat n)) as [->|Hne].
    + rewrite <- IH1. exact H1.
    + apply IH2; [exact H0|lia].
Qed.

Lemma all_below_spec check p :
  all_below check p = true -> forall z, 0 <= z < Z.pos p -> check z = true.
Proof.
  unfold all_below. rewrite Pos2Nat.inj_iter. intros H z Hz.
  apply (proj2 (iter_check_spec check (Pos.to_nat p)) H).
  rewrite positive_nat_Z. exact Hz.
Qed.

Lemma cycle_ok_true : all_below cycle_day_ok 146097 = true.
Proof. vm_compute. reflexivity. Qed.

Lemma cycle_day_ok_all doe : 0 <= doe < 146097 -> cycle_day_ok doe = true.
Proof. exact (all_below_spec cycle_day_ok 146097 cycle_ok_true doe). Qed.

Lemma InLeapYear_shift y k : InLeapYear (y + k * 400) = InLeapYear y.
Proof.
  unfold InLeapYear.
  replace ((y + k * 400) mod 4) with (y mod 4)
    by (replace (y + k * 400) with (y + (k * 100) * 4) by lia;
        now rewrite Z.mod_add by lia).
  replace ((y + k * 400) mod 100) with (y mod 100)
    by (replace (y + k * 400) with (y + (k * 4) * 100) by lia;
        now rewrite Z.mod_add by lia).
  replace ((y + k * 400) mod 400) with (y mod 400)
    by (now rewrite Z.mod_add by lia).
  reflexivity.
Qed.

Lemma DaysInMonth_shift y k m : DaysInMonth (y + k * 400) m = DaysInMonth y m.
Proof. unfold DaysInMonth. rewrite InLeapYear_shift. reflexivity. Qed.

(** The calendar date of a day number is a valid date, and it is the date
    of that day number only. *)
Lemma civil_from_days_spec z :
  let '(y, m, d) := civil_from_days z in
  1 <= m <= 12 /\ 1 <= d <= DaysInMonth y m /\ days_from_civil y m d = z.
Proof.
  unfold civil_from_days.
  set (era := (z + 719468) / 146097).
  set (doe := (z + 719468) mod 146097).
  assert (Hz : z + 719468 = 146097 * era + doe)
    by (apply Z.div_mod; lia).
  assert (Hdoe : 0 <= doe < 146097) by (apply Z.mod_pos_bound; lia).
  pose proof (cycle_day_ok_all doe Hdoe) as Hc. unfold cycle_day_ok in Hc.
  set (yoe := (doe - doe / 1460 + doe / 36524 - doe / 146096) / 365) in *.
  set (doy := doe - (365 * yoe + yoe / 4 - yoe / 100)) in *.
  set (mp := (5 * doy + 2) / 153) in *.
  set (d := doy - (153 * mp + 2) / 5 + 1) in *.
  set (m := if mp <? 10 then mp + 3 else mp - 9) in *.
  repeat (apply andb_prop in Hc as [Hc ?]).
  assert (Hy : (if m <=? 2 then yoe + era * 400 + 1 else yoe + era * 400)
               = (if m <=? 2 then yoe + 1 else yoe) + era * 400)
    by (destruct (m <=? 2); lia).
  rewrite Hy, DaysInMonth_shift.
  split; [lia|]. split; [lia|].
  unfold days_from_civil.
  replace (if m <=? 2
           then (if m <=? 2 then yoe + 1 else yoe) + era * 400 - 1
           else (if m <=? 2 then yoe + 1 else yoe) + era * 400)
    with (yoe + era * 400) by (destruct (m <=? 2); lia).
  rewrite Z.div_add, Z.mod_add by lia.
  rewrite Z.div_small, Z.mod_small by lia.
  lia.
Qed.

Lemma days_from_civil_day y m d :
  days_from_civil y m d = days_from_civil y m 1 + d - 1.
Proof. unfold days_from_civil. lia. Qed.

Lemma MakeDay_civil y m d :
  1 <= m <= 12 -> MakeDay y (m - 1) d = days_from_civil y m d.
Proof.
  intros Hm. unfold MakeDay.
  rewrite Z.div_small, Z.mod_small by lia.
  rewrite (days_from_civil_day y m d).
  replace (y + 0) with y by lia. replace (m - 1 + 1) with m by lia. lia.
Qed.

(** The fields of a time value are in range and rebuild it. *)
Lemma time_fields t :
  0 <= HourFromTime t <= 23 /\ 0 <= MinFromTime t <= 59 /\
  0 <= SecFromTime t <= 59 /\ 0 <= msFromTime t <= 999 /\
  MakeDate (Day t)
    (MakeTime (HourFromTime t) (MinFromTime t) (SecFromTime t) (msFromTime t))
  = t.
Proof.
  unfold HourFromTime, MinFromTime, SecFromTime, msFromTime, MakeDate,
    MakeTime, Day, msPerDay.
  replace (t / 86400000) with (t / 1000 / 60 / 60 / 24)
    by (rewrite !Z.div_div by lia; reflexivity).
  replace (t / 3600000) with (t / 1000 / 60 / 60)
    by (rewrite !Z.div_div by lia; reflexivity).
  replace (t / 60000) with (t / 1000 / 60)
    by (rewrite !Z.div_div by lia; reflexivity).
  pose proof (Z.div_mod t 1000 ltac:(lia)).
  pose proof (Z.div_mod (t / 1000) 60 ltac:(lia)).
  pose proof (Z.div_mod (t / 1000 / 60) 60 ltac:(lia)).
  pose proof (Z.div_mod (t / 1000 / 60 / 60) 24 ltac:(lia)).
  pose proof (Z.mod_pos_bound t 1000 ltac:(lia)).
  pose proof (Z.mod_pos_bound (t / 1000) 60 ltac:(lia)).
  pose proof (Z.mod_pos_bound (t / 1000 / 60) 60 ltac:(lia)).
  pose proof (Z.mod_pos_bound (t / 1000 / 60 / 60) 24 ltac:(lia)).
  lia.
Qed.

Lemma year_bounds t :
  Z.abs t <= maxTime -> -280000 <= YearFromTime t <= 280000.
Proof.
  intros Ht. unfold YearFromTime, civil_from_days, Day, maxTime, msPerDay in *.
  cbn [fst snd].
  set (z := t / 86400000).
  assert (Hz : -100000000 <= z <= 100000000).
  { subst z. split.
    - apply Z.div_le_lower_bound; lia.
    - apply Z.div_le_upper_bound; lia. }
  set (era := (z + 719468) / 146097).
  set (doe := (z + 719468) mod 146097).
  assert (Hd : z + 719468 = 146097 * era + doe) by (apply Z.div_mod; lia).
  assert (Hdoe : 0 <= doe < 146097) by (apply Z.mod_pos_bound; lia).
  pose proof (cycle_day_ok_all doe Hdoe) as Hc. unfold cycle_day_ok in Hc.
  set (yoe := (doe - doe / 1460 + doe / 36524 - doe / 146096) / 365) in *.
  repeat (apply andb_prop in Hc as [Hc ?]).
  match goal with |- context [if ?c then _ else _] => destruct c end; lia.
Qed.

Lemma digit_val_digit d : 0 <= d <= 9 -> digit_val (digit d) = Some d.
Proof.
  intros H.
  assert (E : d = 0 \/ d = 1 \/ d = 2 \/ d = 3 \/ d = 4 \/ d = 5 \/ d = 6
              \/ d = 7 \/ d = 8 \/ d = 9) by lia.
  repeat (destruct E as [->|E]; [reflexivity|]). subst. reflexivity.
Qed.

Lemma digit_not_sign d :
  0 <= d <= 9 ->
  Ascii.eqb (digit d) "+" = false /\ Ascii.eqb (digit d) "-" = false.
Proof.
  intros H.
  assert (E : d = 0 \/ d = 1 \/ d = 2 \/ d = 3 \/ d = 4 \/ d = 5 \/ d = 6
              \/ d = 7 \/ d = 8 \/ d = 9) by lia.
  repeat (destruct E as [->|E]; [split; reflexivity|]). subst. split; reflexivity.
Qed.

Lemma pow10_pos k : 0 < 10 ^ Z.of_nat k.
Proof. apply Z.pow_pos_nonneg; lia. Qed.

Lemma lead_digit_range k n :
  0 <= n < 10 ^ Z.of_nat (S k) -> 0 <= n / 10 ^ Z.of_nat k <= 9.
Proof.
  intros H. pose proof (pow10_pos k).
  rewrite Nat2Z.inj_succ, Z.pow_succ_r in H by lia. split.
  - apply Z.div_pos; lia.
  - assert (n / 10 ^ Z.of_nat k < 10); [|lia].
    apply Z.div_lt_upper_bound; lia.
Qed.

Lemma append_cons c s r : String c s +:+ r = String c (s +:+ r).
Proof. reflexivity. Qed.

Lemma some_pair_eq (a b : Z) (r : string) : a = b -> Some (a, r) = Some (b, r).
Proof. intros ->. reflexivity. Qed.

Lemma parse_num_pad k n acc rest :
  0 <= n < 10 ^ Z.of_nat k ->
  parse_num k acc (pad k n +:+ rest) = Some (acc * 10 ^ Z.of_nat k + n, rest).
Proof.
  revert n acc. induction k as [|k IH]; intros n acc H.
  - simpl in *. f_equal. f_equal. lia.
  - pose proof (pow10_pos k) as Hp.
    pose proof (lead_digit_range k n H) as Hd.
    cbn [pad]. rewrite append_cons. cbn [parse_num].
    rewrite (digit_val_digit _ Hd).
    rewrite IH by (apply Z.mod_pos_bound; lia).
    apply some_pair_eq.
    rewrite Nat2Z.inj_succ, Z.pow_succ_r by lia.
    pose proof (Z.div_mod n (10 ^ Z.of_nat k) ltac:(lia)). nia.
Qed.

Lemma parse_year_string y rest :
  -999999 <= y <= 999999 ->
  parse_year (year_string y +:+ rest) = Some (y, rest).
Proof.
  intros Hy. unfold year_string.
  destruct ((0 <=? y) && (y <=? 9999)) eqn:E4.
  - apply andb_prop in E4 as [H0 H1].
    assert (Hr : 0 <= y < 10 ^ Z.of_nat 4) by (change (10 ^ Z.of_nat 4) with 10000; lia).
    pose proof (parse_num_pad 4 y 0 rest Hr) as P.
    pose proof (lead_digit_range 3 y Hr) as Hd.
    destruct (digit_not_sign _ Hd) as [Np Nm].
    unfold parse_year. 
    change (pad 4 y) with (String (digit (y / 10 ^ Z.of_nat 3)) (pad 3 (y mod 10 ^ Z.of_nat 3))) in *.
    rewrite append_cons in *. cbv beta iota. rewrite Np, Nm, P.
    reflexivity.
  - destruct (y <? 0) eqn:En.
    + rewrite append_cons. cbn [parse_year].
      change (Ascii.eqb "-" "+") with false. change (Ascii.eqb "-" "-") with true.
      cbv iota.
      rewrite parse_num_pad by (change (10 ^ Z.of_nat 6) with 1000000; lia).
      destruct (0 * 10 ^ Z.of_nat 6 + - y =? 0) eqn:E0; [lia|].
      apply some_pair_eq. lia.
    + rewrite append_cons. cbn [parse_year].
      change (Ascii.eqb "+" "+") with true. cbv iota.
      rewrite parse_num_pad by (change (10 ^ Z.of_nat 6) with 1000000; lia).
      apply some_pair_eq. lia.
Qed.


Lemma parse_num_pad0 k n rest :
  0 <= n < 10 ^ Z.of_nat k -> parse_num k 0 (pad k n +:+ rest) = Some (n, rest).
Proof. intros H. rewrite parse_num_pad by exact H. apply some_pair_eq. lia. Qed.

Lemma expect_same c r : expect c (String c r) = Some r.
Proof. unfold expect. rewrite Ascii.eqb_refl. reflexivity. Qed.

(** [Date.parse] reads back what [toISOString] wrote. *)
Lemma parse_iso_iso_string t :
  Z.abs t <= maxTime -> parse_iso (iso_string t) = Some t.
Proof.
  intros Ht. pose proof (year_bounds t Ht) as Hy.
  pose proof (civil_from_days_spec (Day t)) as Hc.
  pose proof (time_fields t) as (Hh & Hmi & Hs & Hms & Hrebuild).
  unfold iso_string, parse_iso, YearFromTime, MonthFromTime, DateFromTime in *.
  destruct (civil_from_days (Day t)) as [[y m] d]. cbn [fst snd] in *.
  destruct Hc as (Hm & Hd & Hdays).
  assert (Hd31 : d <= 31).
  { unfold DaysInMonth in Hd.
    repeat match type of Hd with context [if ?c then _ else _] => destruct c end;
      lia. }
  replace (m - 1 + 1) with m by lia.
  rewrite parse_year_string by lia. cbn [mbind option_bind].
  repeat (first
    [ rewrite expect_same
    | rewrite parse_num_pad0
        by (first [ change (10 ^ Z.of_nat 2) with 100
                  | change (10 ^ Z.of_nat 3) with 1000 ]; lia) ];
    cbn [mbind option_bind]).
  rewrite (proj2 (Z.leb_le 1 m)), (proj2 (Z.leb_le m 12)),
    (proj2 (Z.leb_le 1 d)), (proj2 (Z.leb_le d (DaysInMonth y m))),
    (proj2 (Z.leb_le (HourFromTime t) 23)),
    (proj2 (Z.leb_le (MinFromTime t) 59)),
    (proj2 (Z.leb_le (SecFromTime t) 59)) by lia.
  cbn [andb]. rewrite MakeDay_civil, Hdays, Hrebuild by lia. reflexivity.
Qed.

Lemma TimeClip_in_range t : Z.abs t <= maxTime -> TimeClip t = Some t.
Proof.
  intros H. unfold TimeClip. rewrite (proj2 (Z.leb_le _ _)) by exact H.
  reflexivity.
Qed.

Lemma TimeClip_Some t t' : TimeClip t = Some t' -> t' = t /\ Z.abs t <= maxTime.
Proof.
  unfold TimeClip. destruct (Z.abs t <=? maxTime) eqn:E; [|discriminate].
  intros [= <-]. split; [reflexivity|]. apply Z.leb_le. exact E.
Qed.

Lemma parse_iso_string h t :
  Z.abs t <= maxTime -> parse h (iso_string t) = Some t.
Proof.
  intros H. unfold parse. rewrite parse_iso_iso_string by exact H.
  apply TimeClip_in_range. exact H.
Qed.


(** *** The calendar against ECMAScript's definition and known dates *)

Lemma DayFromYear_march y : DayFromYear y = march1 (y - 1) + 306.
Proof.
  unfold DayFromYear, march1.
  pose proof (Z.div_mod (y - 1) 400 ltac:(lia)) as E.
  pose proof (Z.mod_pos_bound (y - 1) 400 ltac:(lia)) as B.
  set (era := (y - 1) / 400) in *. set (yoe := (y - 1) mod 400) in *.
  replace (y - 1969) with (yoe + (100 * era - 492) * 4) by lia.
  replace (y - 1901) with (yoe + (4 * era - 19) * 100) by lia.
  replace (y - 1601) with (yoe + (era - 4) * 400) by lia.
  rewrite !Z.div_add by lia. rewrite (Z.div_small yoe 400) by lia. lia.
Qed.

Lemma march1_step y : 365 <= march1 y - march1 (y - 1) <= 366.
Proof.
  unfold march1.
  pose proof (Z.div_mod y 400 ltac:(lia)) as E.
  pose proof (Z.mod_pos_bound y 400 ltac:(lia)) as B.
  set (era := y / 400) in *. set (yoe := y mod 400) in *.
  destruct (Z.eq_dec yoe 0) as [Z0|NZ].
  - replace (y - 1) with (399 + (era - 1) * 400) by lia.
    rewrite Z.div_add, Z.mod_add by lia. rewrite Z0.
    change (399 / 400) with 0. change (399 mod 400) with 399.
    change (399 / 4) with 99. change (399 / 100) with 3.
    change (0 / 4) with 0. change (0 / 100) with 0. lia.
  - replace (y - 1) with ((yoe - 1) + era * 400) by lia.
    rewrite Z.div_add, Z.mod_add by lia.
    rewrite (Z.div_small (yoe - 1)), (Z.mod_small (yoe - 1)) by lia.
    pose proof (Z.div_mod yoe 4 ltac:(lia)).
    pose proof (Z.mod_pos_bound yoe 4 ltac:(lia)).
    pose proof (Z.div_mod (yoe - 1) 4 ltac:(lia)).
    pose proof (Z.mod_pos_bound (yoe - 1) 4 ltac:(lia)).
    pose proof (Z.div_mod yoe 100 ltac:(lia)).
    pose proof (Z.mod_pos_bound yoe 100 ltac:(lia)).
    pose proof (Z.div_mod (yoe - 1) 100 ltac:(lia)).
    pose proof (Z.mod_pos_bound (yoe - 1) 100 ltac:(lia)).
    lia.
Qed.

Lemma days_from_civil_march y m d :
  days_from_civil y m d =
  march1 (if m <=? 2 then y - 1 else y)
  + (153 * (if 2 <? m then m - 3 else m + 9) + 2) / 5 + d - 1.
Proof. unfold days_from_civil, march1. lia. Qed.

(** [YearFromTime] is the year ECMAScript defines: the one whose first day
    is the last first-of-year not after [Day t]. *)
Lemma YearFromTime_spec t :
  DayFromYear (YearFromTime t) <= Day t < DayFromYear (YearFromTime t + 1).
Proof.
  pose proof (civil_from_days_spec (Day t)) as H. unfold YearFromTime.
  destruct (civil_from_days (Day t)) as [[y m] d]. cbn [fst snd].
  destruct H as (Hm & Hd & <-).
  rewrite !DayFromYear_march, days_from_civil_march.
  replace (y + 1 - 1) with y by lia.
  pose proof (march1_step y) as Hs.
  assert (Hd31 : d <= 31).
  { unfold DaysInMonth in Hd.
    repeat match type of Hd with context [if ?c then _ else _] => destruct c end;
      lia. }
  assert (Hfeb : m = 2 -> d <= 29).
  { intros ->. unfold DaysInMonth in Hd. cbn in Hd.
    destruct (InLeapYear y); lia. }
  assert (E : m = 1 \/ m = 2 \/ m = 3 \/ m = 4 \/ m = 5 \/ m = 6 \/ m = 7
              \/ m = 8 \/ m = 9 \/ m = 10 \/ m = 11 \/ m = 12) by lia.
  assert (Hmonth :
    forall k, m = k ->
      let lo := (k <=? 2) in let hi := (2 <? k) in
      let off := (153 * (if hi then k - 3 else k + 9) + 2) / 5 in
      (lo = true -> 306 <= off /\ off + 31 <= 365 + 31) ->
      (lo = true -> k = 1 -> off = 306) ->
      (lo = true -> k = 2 -> off = 337) ->
      (lo = false -> 0 <= off /\ off + 31 <= 306) ->
      march1 (y - 1) + 306
      <= march1 (if lo then y - 1 else y) + off + d - 1 < march1 y + 306).
  { intros k Hk lo hi off H1 H2 H3 H4. destruct lo eqn:El.
    - specialize (H1 eq_refl). subst lo.
      assert (k = 1 \/ k = 2) as [K|K] by (apply Z.leb_le in El; lia).
      + rewrite (H2 eq_refl K). lia.
      + rewrite (H3 eq_refl K). specialize (Hfeb (eq_trans Hk K)). lia.
    - specialize (H4 eq_refl). lia. }
  clear Hd.
  repeat (destruct E as [E|E];
          [rewrite E; apply (Hmonth _ E); vm_compute; intros; try discriminate;
           try (split; discriminate); reflexivity|]).
  rewrite E; apply (Hmonth _ E); vm_compute; intros; try discriminate;
    try (split; discriminate); reflexivity.
Qed.

Example iso_epoch : iso_string 0 = "1970-01-01T00:00:00.000Z".
Proof. vm_compute. reflexivity. Qed.

Example iso_before_epoch : iso_string (-1) = "1969-12-31T23:59:59.999Z".
Proof. vm_compute. reflexivity. Qed.

Example iso_2023 : iso_string 1700000000000 = "2023-11-14T22:13:20.000Z".
Proof. vm_compute. reflexivity. Qed.

Example iso_latest : iso_string maxTime = "+275760-09-13T00:00:00.000Z".
Proof. vm_compute. reflexivity. Qed.

Example iso_earliest : iso_string (- maxTime) = "-271821-04-20T00:00:00.000Z".
Proof. vm_compute. reflexivity. Qed.

Example parse_leap_day :
  parse_iso "2024-02-29T12:00:00.000Z" = Some 1709208000000 /\
  parse_iso "2023-02-29T12:00:00.000Z" = None.
Proof. split; vm_compute; reflexivity. Qed.

(** Two years after a leap day, in UTC: 1 March. *)
Example setFullYear_leap_day :
  option_map iso_string
    (setFullYear {| LocalTZA := fun _ _ => 0; parse_other := fun _ => None |}
       (Some 1709208000000) (Some 2026))
  = Some "2026-03-01T12:00:00.000Z".
Proof. vm_compute. reflexivity. Qed.

End DateFacts.

(** ** The ledger, call by call *)

Section LedgerFacts.

Import MedicineAuthenticity.

Lemma product_at_insert st pid p q :
  product_at (set_products st (<[ pid := p ]> (products st))) q =
  if decide (pid = q) then p else product_at st q.
Proof.
  unfold product_at, set_products. cbn [products].
  rewrite lookup_insert. destruct (decide (pid = q)); reflexivity.
Qed.

Lemma product_at_emit e st q : product_at (emit e st) q = product_at st q.
Proof. reflexivity. Qed.

Lemma nonempty_string s : (0 <? String.length s)%nat = true <-> s <> "".
Proof.
  destruct s; simpl; split; intros H; try congruence; try discriminate; reflexivity.
Qed.

(** What a successful [addProduct] did. *)
Lemma addProduct_Ok msg pid h st st' :
  addProduct msg pid h st = Ok st' ->
  hasRole st ADMIN_ROLE (sender msg) = true /\ pid <> "" /\ h <> "" /\
  exists_ (product_at st pid) = false /\
  product_at st' pid =
    {| productID := pid; productHash := h;
       stages := stages (product_at st pid); exists_ := true |} /\
  (forall q, q <> pid -> product_at st' q = product_at st q) /\
  roles st' = roles st /\
  events st' = events st ++ [ProductAdded pid h].
Proof.
  unfold addProduct, onlyRole, require.
  destruct (hasRole st ADMIN_ROLE (sender msg)); [|discriminate].
  destruct (0 <? String.length pid)%nat eqn:E1; [|discriminate].
  destruct (0 <? String.length h)%nat eqn:E2; [|discriminate].
  destruct (exists_ (product_at st pid)) eqn:E3; [discriminate|].
  cbn [negb productID productHash stages exists_]. intros [= <-].
  apply nonempty_string in E1, E2.
  repeat split; try assumption.
  - rewrite product_at_emit, product_at_insert.
    destruct (decide (pid = pid)); [reflexivity|contradiction].
  - intros q Hq. rewrite product_at_emit, product_at_insert.
    destruct (decide (pid = q)); [congruence|reflexivity].
Qed.

Lemma addStage_Ok msg pid n st st' :
  addStage msg pid n st = Ok st' ->
  hasRole st ADMIN_ROLE (sender msg) = true /\ n <> "" /\
  exists_ (product_at st pid) = true /\
  product_at st' pid =
    {| productID := productID (product_at st pid);
       productHash := productHash (product_at st pid);
       stages := stages (product_at st pid) ++
                 [ {| stageName := n; authenticator := sender msg;
                      timestamp := block_timestamp msg |} ];
       exists_ := exists_ (product_at st pid) |} /\
  (forall q, q <> pid -> product_at st' q = product_at st q) /\
  roles st' = roles st /\
  events st' = events st ++ [StageAdded pid n (sender msg)].
Proof.
  unfold addStage, onlyRole, require.
  destruct (hasRole st ADMIN_ROLE (sender msg)); [|discriminate].
  destruct (0 <? String.length n)%nat eqn:E1; [|discriminate].
  destruct (exists_ (product_at st pid)) eqn:E3; [|discriminate].
  intros [= <-]. apply nonempty_string in E1.
  repeat split; try assumption.
  - rewrite product_at_emit, product_at_insert.
    destruct (decide (pid = pid)); [|contradiction]. rewrite ?E3. reflexivity.
  - intros q Hq. rewrite product_at_emit, product_at_insert.
    destruct (decide (pid = q)); [congruence|reflexivity].
Qed.

Lemma grantRole_Ok msg r a st st' :
  grantRole msg r a st = Ok st' -> products st' = products st.
Proof.
  unfold grantRole, onlyRole, _grantRole.
  destruct (hasRole st (getRoleAdmin st r) (sender msg)); [|discriminate].
  intros [= <-]. destruct (hasRole st r a); reflexivity.
Qed.

Lemma unauthorized_addProduct msg pid h st :
  hasRole st ADMIN_ROLE (sender msg) = false ->
  addProduct msg pid h st =
  Reverted (AccessControlUnauthorizedAccount (sender msg) ADMIN_ROLE).
Proof. intros H. unfold addProduct, onlyRole. rewrite H. reflexivity. Qed.

Lemma unauthorized_addStage msg pid n st :
  hasRole st ADMIN_ROLE (sender msg) = false ->
  addStage msg pid n st =
  Reverted (AccessControlUnauthorizedAccount (sender msg) ADMIN_ROLE).
Proof. intros H. unfold addStage, onlyRole. rewrite H. reflexivity. Qed.

Lemma run_cons st tx txs : run st (tx :: txs) = run (exec st tx) txs.
Proof. reflexivity. Qed.

Lemma eqb_decide (a b : string) : String.eqb a b = bool_decide (a = b).
Proof.
  destruct (String.eqb_spec a b) as [->|N].
  - rewrite bool_decide_eq_true_2; reflexivity.
  - rewrite bool_decide_eq_false_2; [reflexivity|exact N].
Qed.

(** One transaction appends at most its own stage, and only to its own
    product. *)
Lemma exec_stages st tx pid :
  stages (product_at (exec st tx) pid) =
  stages (product_at st pid) ++
  match tx.2 with
  | CallAddStage q n =>
      if String.eqb q pid && succeeds st tx
      then [ {| stageName := n; authenticator := sender tx.1;
                timestamp := block_timestamp tx.1 |} ]
      else []
  | _ => []
  end.
Proof.
  unfold exec, succeeds. destruct tx as [msg [q h|q n|r a]]; cbn [call fst snd].
  - rewrite app_nil_r. destruct (addProduct msg q h st) as [st'|] eqn:E; [|reflexivity].
    apply addProduct_Ok in E as (_ & _ & _ & _ & Hp & Ho & _).
    destruct (decide (pid = q)) as [->|N]; [rewrite Hp|rewrite Ho by exact N]; reflexivity.
  - destruct (addStage msg q n st) as [st'|] eqn:E.
    + apply addStage_Ok in E as (_ & _ & _ & Hp & Ho & _).
      rewrite andb_true_r, eqb_decide.
      destruct (decide (q = pid)) as [->|N].
      * rewrite bool_decide_eq_true_2, Hp by reflexivity. reflexivity.
      * rewrite bool_decide_eq_false_2, Ho, app_nil_r by congruence. reflexivity.
    + rewrite andb_false_r, app_nil_r. reflexivity.
  - rewrite app_nil_r. destruct (grantRole msg r a st) as [st'|] eqn:E; [|reflexivity].
    apply grantRole_Ok in E. unfold product_at. rewrite E. reflexivity.
Qed.

Lemma run_stages txs st pid :
  stages (product_at (run st txs) pid) =
  stages (product_at st pid) ++ applied_stages pid st txs.
Proof.
  revert st. induction txs as [|tx txs IH]; intros st.
  - simpl. rewrite app_nil_r. reflexivity.
  - rewrite run_cons, IH, exec_stages. cbn [applied_stages].
    rewrite <- app_assoc. reflexivity.
Qed.

Lemma exec_exists st tx pid :
  exists_ (product_at (exec st tx) pid) =
  exists_ (product_at st pid) ||
  match tx.2 with
  | CallAddProduct q _ => String.eqb q pid && succeeds st tx
  | _ => false
  end.
Proof.
  unfold exec, succeeds. destruct tx as [msg [q h|q n|r a]]; cbn [call fst snd].
  - destruct (addProduct msg q h st) as [st'|] eqn:E.
    + apply addProduct_Ok in E as (_ & _ & _ & Hn & Hp & Ho & _).
      rewrite andb_true_r, eqb_decide.
      destruct (decide (q = pid)) as [->|N].
      * rewrite bool_decide_eq_true_2, Hp, orb_true_r by reflexivity. reflexivity.
      * rewrite bool_decide_eq_false_2, Ho, orb_false_r by congruence. reflexivity.
    + rewrite andb_false_r, orb_false_r. reflexivity.
  - rewrite orb_false_r. destruct (addStage msg q n st) as [st'|] eqn:E; [|reflexivity].
    apply addStage_Ok in E as (_ & _ & _ & Hp & Ho & _).
    destruct (decide (pid = q)) as [->|N]; [rewrite Hp|rewrite Ho by exact N]; reflexivity.
  - rewrite orb_false_r. destruct (grantRole msg r a st) as [st'|] eqn:E; [|reflexivity].
    apply grantRole_Ok in E. unfold product_at. rewrite E. reflexivity.
Qed.

Lemma run_exists txs st pid :
  exists_ (product_at (run st txs) pid) =
  exists_ (product_at st pid) || was_registered pid st txs.
Proof.
  revert st. induction txs as [|tx txs IH]; intros st.
  - simpl. rewrite orb_false_r. reflexivity.
  - rewrite run_cons, IH, exec_exists. cbn [was_registered].
    rewrite orb_assoc. reflexivity.
Qed.

Lemma constructor_products msg pid : product_at (constructor msg) pid = zero_product.
Proof.
  unfold constructor, _setRoleAdmin, _grantRole, product_at.
  repeat match goal with |- context [if ?c then _ else _] => destruct c end;
    reflexivity.
Qed.

Lemma applied_stages_time pid txs : forall st t0,
  chain_time_ok t0 txs ->
  Forall (fun s => t0 <= timestamp s) (applied_stages pid st txs) /\
  nondecreasing (map timestamp (applied_stages pid st txs)).
Proof.
  induction txs as [|tx txs IH]; intros st t0 H.
  - simpl. split; constructor.
  - destruct H as [H0 H1]. cbn [applied_stages].
    destruct (IH (exec st tx) _ H1) as [IHa IHb].
    assert (IHa' : Forall (fun s => t0 <= timestamp s)
                     (applied_stages pid (exec st tx) txs)).
    { eapply Forall_impl; [exact IHa|]. intros s Hs. simpl in Hs. lia. }
    destruct (tx.2) as [q h|q n|r a]; cbn [app]; try (split; assumption).
    destruct (String.eqb q pid && succeeds st tx); cbn [app]; [|split; assumption].
    split.
    + constructor; [simpl; exact H0|exact IHa'].
    + cbn [map nondecreasing timestamp]. split; [|exact IHb].
      destruct (applied_stages pid (exec st tx) txs) as [|s' r'] eqn:E; [exact I|].
      cbn [map]. inversion IHa; subst. assumption.
Qed.

End LedgerFacts.

(** ** Proof automation for engine runs *)

(** Symbolic execution of an engine run: unfold the monad, then split on
    every test the run makes, innermost first. *)
Ltac cli_eval H :=
  cbv beta iota zeta delta
    [Cli.main Cli.grantAdminRole Cli.addProduct Cli.verifyProduct Cli.addStage
     Cli.try_catch Cli.bind Cli.ret Cli.throw Cli.request Cli.view Cli.send
     Cli.wait Cli.db_insert Cli.db_select Cli.console_log Cli.console_error
     Cli.called Cli.set_ledger Cli.set_table Cli.toISOString
     MedicineAuthenticity.productExists Cli.expiryDate] in H;
  cbn [Cli.ledger Cli.table Cli.console Cli.trace] in H.

Ltac step_in H :=
  match type of H with
  | context [match ?x with _ => _ end] =>
      lazymatch x with
      | context [match _ with _ => _ end] => fail
      | _ => destruct x eqn:?
      end
  end.

Ltac cli_step H :=
  step_in H; cbn [Cli.ledger Cli.table Cli.console Cli.trace] in H;
  try discriminate.

Ltac cli_run H := cli_eval H; repeat cli_step H.

(** Normalises [trace_since w w'] once [trace w'] is an explicit extension
    of [trace w]. *)
Ltac trace_norm :=
  unfold Cli.trace_since;
  cbn [fst snd Cli.ledger Cli.table Cli.console Cli.trace];
  rewrite <- ?app_assoc; cbn [app];
  rewrite ?drop_app_length, ?drop_all.

(** Splits [E : explicit list = pre ++ x :: post] into the possible
    positions of [x]. *)
Ltac split_trace E pre :=
  repeat (destruct pre as [|? pre]; cbn [app] in E;
          [ try discriminate E; try (injection E as ? ?; subst)
          | first [ discriminate E | injection E as ? E; subst ] ]).

Ltac in_list := rewrite ?elem_of_cons; auto 10.
Ltac not_in_list :=
  rewrite ?elem_of_cons, ?elem_of_nil; intros ?; intuition discriminate.

(** ** Runs of the engine *)

Section CliFacts.

Import Cli.

Lemma includes_Product productID :
  includes "Product"
    ("Product " +:+ productID +:+ " already exists on blockchain") = true.
Proof. reflexivity. Qed.

Lemma falsy_false s : falsy s = false <-> s <> "".
Proof.
  unfold falsy. destruct (String.eqb_spec s ""); split; congruence.
Qed.

Lemma valid_inputs a b c :
  falsy a || falsy b || falsy c = false -> a <> "" /\ b <> "" /\ c <> "".
Proof.
  intros H. apply orb_false_elim in H as [H Hc].
  apply orb_false_elim in H as [Ha Hb].
  rewrite !falsy_false in *. auto.
Qed.

Lemma fingerprint_nonempty a b c d e : fingerprint a b c d e <> "".
Proof. unfold fingerprint, Ethers.keccak256, Bytes.hexlify. discriminate. Qed.

(** What a successful [addProduct] did. *)
Lemma addProduct_Return env productID productType batchNumber w r w' :
  addProduct env productID productType batchNumber w = (Return r, w') ->
  exists tm te,
    Date_now env = Some tm /\ expiryDate env = Some te /\
    productID <> "" /\
    r = {| added_productID := productID;
           added_productHash := Store.product_hash
                                  (row_of productID productType batchNumber tm te) |} /\
    L.addProduct (msg_of env) productID
      (Store.product_hash (row_of productID productType batchNumber tm te))
      (ledger w) = L.Ok (ledger w') /\
    Store.insert (row_of productID productType batchNumber tm te) (table w)
      = Some (table w').
Proof.
  intros H. unfold expiryDate. cli_run H;
    injection H as <- <-;
    apply valid_inputs in Heqb as (Hp & _ & _);
    eexists _, _; cbn [ledger table]; repeat split; eauto.
Qed.

Lemma select_app pid t1 t2 :
  Store.select pid (t1 ++ t2) = Store.select pid t1 ++ Store.select pid t2.
Proof. unfold Store.select. apply List.filter_app. Qed.

Lemma select_absent pid tbl :
  existsb (fun r => String.eqb (Store.product_id r) pid) tbl = false ->
  Store.select pid tbl = [].
Proof.
  unfold Store.select. induction tbl as [|r tbl IH]; [reflexivity|].
  cbn [existsb List.filter]. intros H. apply orb_false_elim in H as [H1 H2].
  rewrite H1. auto.
Qed.

(** After an insert the new row is the one a keyed read returns. *)
Lemma insert_select row tbl tbl' :
  Store.insert row tbl = Some tbl' ->
  Store.select (Store.product_id row) tbl' = [row] /\
  Store.select (Store.product_id row) tbl = [] /\
  tbl' = tbl ++ [row].
Proof.
  unfold Store.insert.
  destruct (existsb _ tbl) eqn:E; [discriminate|]. intros [= <-].
  rewrite select_app, (select_absent _ _ E). repeat split.
  unfold Store.select. cbn [List.filter]. rewrite String.eqb_refl. reflexivity.
Qed.

(** A run of [verifyProduct] that reaches the comparison. *)
Lemma verifyProduct_run env productID w row rest h tm te :
  productID <> "" ->
  fault env DbSelect = None -> fault env RpcGetProductHash = None ->
  Store.select productID (table w) = row :: rest ->
  L.getProductHash (ledger w) productID = L.Ok h ->
  JSDate.parse (host env) (Store.manufacturing_date row) = Some tm ->
  JSDate.parse (host env) (Store.expiry_date row) = Some te ->
  let d := fingerprint (Store.product_id row) (Store.product_type row)
             (Store.batch_number row)
             (JSDate.iso_string tm) (JSDate.iso_string te) in
  exists w',
    verifyProduct env productID w =
    (Return {| productID := productID; isAuthentic := String.eqb d h;
               databaseHash := d; blockchainHash := h; metadata := row |}, w')
    /\ ledger w' = ledger w /\ table w' = table w.
Proof.
  intros Hp Hf1 Hf2 Hs Hh Hm He d. apply falsy_false in Hp.
  destruct (verifyProduct env productID w) as [o w'] eqn:V.
  cli_eval V. rewrite Hp, Hf1 in V. cbn [ledger table console trace] in V.
  rewrite Hs, Hf2 in V. cbn [ledger table console trace] in V.
  rewrite Hh in V. cbn [ledger table console trace] in V.
  rewrite Hm, He in V. fold d in V.
  exists w'. destruct (String.eqb d h); injection V as <- <-; auto.
Qed.

End CliFacts.

(** ** Verification verdicts *)

Section Verification.

Import Cli.


Lemma setFullYear_Some h d y te :
  JSDate.setFullYear h d y = Some te -> Z.abs te <= JSDate.maxTime.
Proof.
  unfold JSDate.setFullYear. destruct y as [y|]; [|discriminate].
  intros H. apply TimeClip_Some in H as [-> H]. exact H.
Qed.

Lemma getProductHash_registered st pid p :
  L.product_at st pid = p -> L.exists_ p = true ->
  L.getProductHash st pid = L.Ok (L.productHash p).
Proof.
  intros <- H. unfold L.getProductHash, L.require. rewrite H. reflexivity.
Qed.

(** C2. When the row of a registered product no longer hashes to the ledger's
    digest, [verifyProduct] still returns: the result carries
    [isAuthentic = false], both digests and the row as read. *)
Theorem tampered_row_reported_not_thrown
    env productID w row rest ledgerHash tm te :
  productID <> "" ->
  fault env DbSelect = None ->
  fault env RpcGetProductHash = None ->
  Store.select productID (table w) = row :: rest ->
  L.getProductHash (ledger w) productID = L.Ok ledgerHash ->
  JSDate.parse (host env) (Store.manufacturing_date row) = Some tm ->
  JSDate.parse (host env) (Store.expiry_date row) = Some te ->
  fingerprint (Store.product_id row) (Store.product_type row)
    (Store.batch_number row) (JSDate.iso_string tm) (JSDate.iso_string te)
    <> ledgerHash ->
  (verifyProduct env productID w).1 =
  Return {| productID := productID;
            isAuthentic := false;
            databaseHash :=
              fingerprint (Store.product_id row) (Store.product_type row)
                (Store.batch_number row)
                (JSDate.iso_string tm) (JSDate.iso_string te);
            blockchainHash := ledgerHash;
            metadata := row |}.
Proof.
  intros Hp Hf1 Hf2 Hs Hh Hm He Hne.
  destruct (verifyProduct_run env productID w row rest ledgerHash tm te
              Hp Hf1 Hf2 Hs Hh Hm He) as (w' & V & _).
  rewrite V. cbn [fst].
  apply String.eqb_neq in Hne. rewrite Hne. reflexivity.
Qed.

(** Where the comparison is not reached: a date column that [Date] cannot
    read makes [toISOString] throw, and [verifyProduct] with it. *)
Lemma unreadable_date_throws env productID w row rest h :
  productID <> "" ->
  fault env DbSelect = None -> fault env RpcGetProductHash = None ->
  Store.select productID (table w) = row :: rest ->
  L.getProductHash (ledger w) productID = L.Ok h ->
  JSDate.parse (host env) (Store.manufacturing_date row) = None ->
  (verifyProduct env productID w).1 = Throw (RangeError "Invalid time value").
Proof.
  intros Hp Hf1 Hf2 Hs Hh Hm. apply falsy_false in Hp.
  destruct (verifyProduct env productID w) as [o w'] eqn:V.
  cli_eval V. rewrite Hp, Hf1 in V. cbn [ledger table console trace] in V.
  rewrite Hs, Hf2 in V. cbn [ledger table console trace] in V.
  rewrite Hh in V. cbn [ledger table console trace] in V.
  rewrite Hm in V. injection V as <- _. reflexivity.
Qed.

Lemma select_same_but_hash pid t1 t2 :
  Forall2 same_but_hash t1 t2 ->
  Forall2 same_but_hash (Store.select pid t1) (Store.select pid t2).
Proof.
  induction 1 as [|r1 r2 t1 t2 Hr Ht IH]; [constructor|].
  unfold Store.select in *. cbn [List.filter].
  destruct Hr as (Hid & Hrest). rewrite <- Hid.
  destruct (String.eqb (Store.product_id r1) pid);
    [constructor; [split; assumption|exact IH]|exact IH].
Qed.

(** C10. The [product_hash] column plays no part in the verdict: two tables
    that differ only in that column give the same [isAuthentic], the same
    two digests, or the same error. *)
Theorem verdict_ignores_stored_hash env productID w1 w2 :
  ledger w1 = ledger w2 ->
  Forall2 same_but_hash (table w1) (table w2) ->
  same_verdict (verifyProduct env productID w1).1
               (verifyProduct env productID w2).1.
Proof.
  intros Hl Ht.
  pose proof (select_same_but_hash productID _ _ Ht) as Hs.
  destruct (verifyProduct env productID w1) as [o1 w1'] eqn:V1.
  destruct (verifyProduct env productID w2) as [o2 w2'] eqn:V2.
  cli_eval V1. cli_eval V2. cbn [fst].
  destruct (falsy productID);
    [injection V1 as <- _; injection V2 as <- _; reflexivity|].
  destruct (fault env DbSelect);
    [injection V1 as <- _; injection V2 as <- _; reflexivity|].
  cbn [ledger table console trace] in V1, V2.
  inversion Hs as [E1 E2|r1 r2 l1 l2 Hr Hrest E1 E2];
    rewrite <- E1 in V1; rewrite <- E2 in V2.
  { injection V1 as <- _; injection V2 as <- _; reflexivity. }
  destruct Hr as (Hid & Hty & Hb & Hm & He).
  rewrite <- ?Hid, <- ?Hty, <- ?Hb, <- ?Hm, <- ?He, <- ?Hl in V2.
  repeat (step_in V1; cbn [ledger table console trace] in V1, V2);
    injection V1 as <- _; injection V2 as <- _;
    cbn [same_verdict Cli.productID isAuthentic databaseHash blockchainHash metadata];
    repeat split; auto.
Qed.

End Verification.

(** ** The two writes of a registration *)

Section Registration.

Import Cli.


(** C6. In every run of [addProduct] the insert into the table comes after
    a ledger write that was applied and awaited; when the ledger write or
    the wait for it fails, the run throws, no insert is attempted and the
    table is as before. *)
Theorem ledger_write_before_store_write
    env productID productType batchNumber w :
  let run := addProduct env productID productType batchNumber w in
  let new := trace_since w run.2 in
  (forall pre ok post,
      new = pre ++ (DbInsert, ok) :: post ->
      (RpcAddProduct, true) ∈ pre /\ (RpcWait, true) ∈ pre) /\
  ((RpcAddProduct, false) ∈ new \/ (RpcWait, false) ∈ new ->
     (forall ok, (DbInsert, ok) ∉ new) /\
     table run.2 = table w /\
     exists e, run.1 = Throw e).
Proof.
  cbv zeta.
  destruct (addProduct env productID productType batchNumber w) as [o w'] eqn:H.
  cli_run H; injection H as <- <-; trace_norm.
  all: split;
    [ intros pre ok post E; split_trace E pre; split; in_list
    | intros [Hin|Hin]; revert Hin; rewrite ?elem_of_cons, ?elem_of_nil;
      intros Hin;
      try (exfalso; intuition discriminate);
      (split; [intros ok; not_in_list|split; [reflexivity|eauto]]) ].
Qed.


Lemma addProduct_duplicate msg pid h st :
  L.hasRole st L.ADMIN_ROLE (L.sender msg) = true ->
  pid <> "" -> h <> "" ->
  L.exists_ (L.product_at st pid) = true ->
  L.addProduct msg pid h st = L.Reverted (L.RequireFailed "Product already exists").
Proof.
  intros Hr Hp Hh He. unfold L.addProduct, L.onlyRole, L.require.
  apply nonempty_string in Hp, Hh. rewrite Hr, Hp, Hh, He. reflexivity.
Qed.

Lemma falsy_inputs a b c :
  a <> "" -> b <> "" -> c <> "" -> falsy a || falsy b || falsy c = false.
Proof. intros Ha Hb Hc. apply falsy_false in Ha, Hb, Hc. rewrite Ha, Hb, Hc. reflexivity. Qed.

(** C4, what the code does instead.  For a product that is already on the
    ledger, [addProduct] does not stop at its existence check: the error the
    check throws is caught by the check's own handler, whose test for the
    word Product it passes, so the run goes on to the ledger write, and it
    is the contract that rejects the duplicate.  Ledger and table stay as
    they were. *)
Theorem duplicate_reaches_ledger_write
    env productID productType batchNumber w tm te :
  productID <> "" -> productType <> "" -> batchNumber <> "" ->
  Date_now env = Some tm -> expiryDate env = Some te ->
  fault env RpcProductExists = None -> fault env RpcAddProduct = None ->
  L.hasRole (ledger w) L.ADMIN_ROLE (wallet env) = true ->
  L.productExists (ledger w) productID = L.Ok true ->
  let run := addProduct env productID productType batchNumber w in
  run.1 = Throw (CallException (L.RequireFailed "Product already exists")) /\
  trace_since w run.2 = [(RpcProductExists, true); (RpcAddProduct, false)] /\
  ledger run.2 = ledger w /\ table run.2 = table w.
Proof.
  intros Hp Hty Hb Hnow Hexp Hf1 Hf2 Hrole Hex. cbv zeta.
  pose proof (falsy_inputs _ _ _ Hp Hty Hb) as Hin.
  unfold L.productExists in Hex. injection Hex as Hex.
  unfold expiryDate in Hexp. rewrite Hnow in Hexp.
  destruct (addProduct env productID productType batchNumber w) as [o w'] eqn:H.
  cli_eval H. rewrite Hin, Hnow, Hexp, Hf1 in H.
  cbn [ledger table console trace] in H. rewrite Hex in H.
  cbn [message] in H. rewrite includes_Product in H. cbn [negb] in H.
  rewrite Hf2 in H. cbn [ledger table console trace] in H.
  rewrite (addProduct_duplicate (msg_of env) productID _ (ledger w) Hrole Hp
             (fingerprint_nonempty _ _ _ _ _) Hex) in H.
  injection H as <- <-. trace_norm. auto.
Qed.

(** C5, as the code has it.  When the ledger write was applied and the
    insert then fails, [addProduct] rethrows the insert's own error as it
    is, after logging it with the prefix used for every failure; the ledger
    keeps the product with its fingerprint and the table is unchanged.  No
    error of its own marks this case. *)
Theorem store_failure_propagated_unchanged
    env productID productType batchNumber w :
  let run := addProduct env productID productType batchNumber w in
  (RpcAddProduct, true) ∈ trace_since w run.2 ->
  (DbInsert, false) ∈ trace_since w run.2 ->
  exists m,
    run.1 = Throw (Error m) /\
    (fault env DbInsert = Some m \/
     fault env DbInsert = None /\
     m = "duplicate key value violates unique constraint") /\
    L.exists_ (L.product_at (ledger run.2) productID) = true /\
    (exists h, L.getProductHash (ledger run.2) productID = L.Ok h /\
               L.ProductAdded productID h ∈ L.events (ledger run.2)) /\
    table run.2 = table w /\
    last (console run.2) = Some ("❌ Failed to add product: " +:+ m).
Proof.
  cbv zeta.
  destruct (addProduct env productID productType batchNumber w) as [o w'] eqn:H.
  cli_run H; injection H as <- <-; trace_norm;
    rewrite ?elem_of_cons, ?elem_of_nil; intros H1 H2;
    try (exfalso; intuition discriminate).
  all: match goal with
       | Hl : L.addProduct _ _ _ _ = L.Ok _ |- _ =>
           apply addProduct_Ok in Hl as (_ & _ & _ & _ & Hprod & _ & _ & Hev)
       end.
  all: eexists; split; [reflexivity|];
    split; [solve [auto]|];
    split; [rewrite Hprod; reflexivity|];
    split; [eexists; split;
            [apply (getProductHash_registered _ _ _ Hprod); reflexivity
            |rewrite Hev; cbn [L.productHash]; apply elem_of_app; right;
             apply list_elem_of_singleton; reflexivity]|];
    split; [reflexivity|];
    rewrite last_app_cons; reflexivity.
Qed.

End Registration.

(** ** Failures, roles and existence *)

Section Authorization.

Import Cli.


(** C5, as stated, fails: the error a caller gets when the run stops
    between the two writes can be the very error it gets when the ledger
    write itself fails, so no test on the error tells the two apart. *)
Lemma partial_commit_not_distinct : ~ surfaces_partial_commit.
Proof.
  intros [is_partial H].
  pose proof (H (Scenario.failing DbInsert "read ECONNRESET" Scenario.env0)
                "P1" "Aspirin" "B001" Scenario.w0
                (Error "read ECONNRESET")) as Ha.
  pose proof (H (Scenario.failing RpcAddProduct "read ECONNRESET" Scenario.env0)
                "P1" "Aspirin" "B001" Scenario.w0
                (Error "read ECONNRESET")) as Hb.
  cbv zeta in Ha, Hb.
  assert (Ta : trace_since Scenario.w0
                 (addProduct
                    (Scenario.failing DbInsert "read ECONNRESET" Scenario.env0)
                    "P1" "Aspirin" "B001" Scenario.w0).2
               = [(RpcProductExists, true); (RpcAddProduct, true);
                  (RpcWait, true); (DbInsert, false)])
    by (vm_compute; reflexivity).
  assert (Tb : trace_since Scenario.w0
                 (addProduct
                    (Scenario.failing RpcAddProduct "read ECONNRESET" Scenario.env0)
                    "P1" "Aspirin" "B001" Scenario.w0).2
               = [(RpcProductExists, true); (RpcAddProduct, false)])
    by (vm_compute; reflexivity).
  rewrite Ta in Ha. rewrite Tb in Hb.
  assert (Et : is_partial (Error "read ECONNRESET") = true).
  { apply Ha; [vm_compute; reflexivity|]. split; in_list. }
  apply Hb in Et as [Hin _]; [|vm_compute; reflexivity].
  revert Hin. not_in_list.
Qed.

Import MedicineAuthenticity.

(** C7. A caller without [ADMIN_ROLE] gets the access-control revert from
    [addProduct] and from [addStage], whatever the arguments, and the
    transaction leaves the whole state (products, stages, role grants,
    events) as it was. *)
Theorem unauthorized_changes_nothing msg st _productID arg :
  hasRole st ADMIN_ROLE (sender msg) = false ->
  addProduct msg _productID arg st =
    Reverted (AccessControlUnauthorizedAccount (sender msg) ADMIN_ROLE) /\
  addStage msg _productID arg st =
    Reverted (AccessControlUnauthorizedAccount (sender msg) ADMIN_ROLE) /\
  exec st (msg, CallAddProduct _productID arg) = st /\
  exec st (msg, CallAddStage _productID arg) = st.
Proof.
  intros H. unfold exec, call. cbn [fst snd].
  rewrite (unauthorized_addProduct _ _ _ _ H), (unauthorized_addStage _ _ _ _ H).
  auto.
Qed.

(** The same seen from the engine: with a wallet that lacks the role the
    two state-changing commands throw and the ledger is untouched. *)
Lemma unauthorized_wallet env w a b c :
  hasRole (ledger w) ADMIN_ROLE (wallet env) = false ->
  ledger (Cli.addProduct env a b c w).2 = ledger w /\
  ledger (Cli.addStage env a b w).2 = ledger w /\
  (exists e, (Cli.addProduct env a b c w).1 = Throw e) /\
  (exists e, (Cli.addStage env a b w).1 = Throw e).
Proof.
  intros H.
  assert (H1 : forall h, addProduct (msg_of env) a h (ledger w)
                 = Reverted (AccessControlUnauthorizedAccount (wallet env) ADMIN_ROLE))
    by (intros h; apply (unauthorized_addProduct (msg_of env)); exact H).
  assert (H2 : addStage (msg_of env) a b (ledger w)
                 = Reverted (AccessControlUnauthorizedAccount (wallet env) ADMIN_ROLE))
    by (apply (unauthorized_addStage (msg_of env)); exact H).
  destruct (Cli.addProduct env a b c w) as [o1 w1] eqn:E1.
  destruct (Cli.addStage env a b w) as [o2 w2] eqn:E2.
  cbn [fst snd]. repeat split.
  - clear E2. cli_eval E1.
    repeat (step_in E1; cbn [ledger table console trace] in E1;
            rewrite ?H1 in *; try discriminate);
      injection E1 as <- <-; reflexivity.
  - clear E1. cli_eval E2.
    repeat (step_in E2; cbn [ledger table console trace] in E2;
            rewrite ?H2 in *; try discriminate);
      injection E2 as <- <-; reflexivity.
  - clear E2. cli_eval E1.
    repeat (step_in E1; cbn [ledger table console trace] in E1;
            rewrite ?H1 in *; try discriminate);
      injection E1 as <- <-; eauto.
  - clear E1. cli_eval E2.
    repeat (step_in E2; cbn [ledger table console trace] in E2;
            rewrite ?H2 in *; try discriminate);
      injection E2 as <- <-; eauto.
Qed.

(** C9. [productExists] returns for every state and every id, the empty
    one included, and along an execution from deployment it answers
    whether some [addProduct] for that id went through. *)
Theorem productExists_total :
  (forall st _productID, exists b, productExists st _productID = Ok b) /\
  (forall deployment txs _productID,
      productExists (run (constructor deployment) txs) _productID =
      Ok (was_registered _productID (constructor deployment) txs)).
Proof.
  split.
  - intros st pid. eexists. reflexivity.
  - intros d txs pid. unfold productExists.
    rewrite run_exists, constructor_products. reflexivity.
Qed.

End Authorization.

(** ** Stage history and the fingerprint encoding *)

Section History.

Import Cli.



Lemma format_stages (stages : list L.Stage) w fs w' :
  mapM (fun stage =>
          bind (toISOString (JSDate.TimeClip (L.timestamp stage * 1000)))
            (fun ts => ret {| stageName := L.stageName stage;
                              authenticator := L.authenticator stage;
                              timestamp := ts |})) stages w = (Return fs, w') ->
  map stageName fs = map L.stageName stages /\
  map authenticator fs = map L.authenticator stages.
Proof.
  revert w fs w'. induction stages as [|s stages IH]; intros w fs w' H.
  - cbn in H. injection H as <- <-. split; reflexivity.
  - cbn [mapM] in H. unfold bind at 1 2 in H.
    unfold toISOString, ret, throw in H.
    destruct (JSDate.TimeClip (L.timestamp s * 1000)); [|discriminate].
    unfold bind at 1 in H.
    destruct (mapM _ stages w) as [[bs|e] w1] eqn:E; [|discriminate].
    apply IH in E as [E1 E2]. injection H as <- <-.
    cbn [map stageName authenticator]. rewrite E1, E2. split; reflexivity.
Qed.

(** What the engine's [getProductHistory] returns is the ledger's list,
    stage by stage, in the ledger's order. *)
Lemma getProductHistory_Return env productID w fs w' :
  getProductHistory env productID w = (Return fs, w') ->
  exists stages,
    L.getProductHistory (ledger w) productID = L.Ok stages /\
    map stageName fs = map L.stageName stages /\
    map authenticator fs = map L.authenticator stages.
Proof.
  intros H. unfold getProductHistory, try_catch in H.
  destruct (falsy productID).
  { unfold throw, bind, console_error, console_log in H. discriminate. }
  unfold bind at 1 in H. unfold view, request in H.
  destruct (fault env RpcGetProductHistory).
  { unfold throw, bind, called, console_error, console_log in H. discriminate. }
  destruct (L.getProductHistory (ledger w) productID) as [stages|r] eqn:G.
  2:{ unfold throw, bind, called, console_error, console_log in H. discriminate. }
  exists stages. split; [reflexivity|].
  unfold bind at 1, called, ret in H. unfold bind at 1 in H.
  match type of H with
  | context [mapM ?f stages ?w0] =>
      destruct (mapM f stages w0) as [[bs|e] w1] eqn:E
  end.
  2:{ unfold throw, bind, console_error, console_log in H. discriminate. }
  apply format_stages in E.
  unfold bind at 1 in H. unfold console_log at 1 in H. unfold bind at 1 in H.
  match type of H with
  | context [mapM ?f ?l ?w0] =>
      destruct (mapM f l w0) as [[us|e] w2] eqn:E'
  end.
  2:{ unfold throw, bind, console_error, console_log in H. discriminate. }
  unfold ret in H. injection H as <- <-. exact E.
Qed.

Import MedicineAuthenticity.

(** C8. For a product registered along an execution from deployment,
    [getProductHistory] returns exactly the stages that the successful
    [addStage] transactions on it recorded, in the order the transactions
    were applied (so none when there was none); with block timestamps that
    never go back, the recorded timestamps are non-decreasing; and the
    engine's [getProductHistory] returns the same names in the same
    order. *)
Theorem history_in_insertion_order deployment txs _productID :
  chain_time_ok (block_timestamp deployment) txs ->
  was_registered _productID (constructor deployment) txs = true ->
  getProductHistory (run (constructor deployment) txs) _productID =
    Ok (applied_stages _productID (constructor deployment) txs) /\
  nondecreasing
    (map timestamp (applied_stages _productID (constructor deployment) txs)) /\
  (forall env w fs w',
      ledger w = run (constructor deployment) txs ->
      Cli.getProductHistory env _productID w = (Return fs, w') ->
      map Cli.stageName fs =
      map stageName (applied_stages _productID (constructor deployment) txs)).
Proof.
  intros Ht Hr.
  assert (G : getProductHistory (run (constructor deployment) txs) _productID =
              Ok (applied_stages _productID (constructor deployment) txs)).
  { unfold getProductHistory, require.
    rewrite run_exists, Hr, orb_true_r, run_stages, constructor_products.
    reflexivity. }
  split; [exact G|]. split.
  - exact (proj2 (applied_stages_time _ _ _ _ Ht)).
  - intros env w fs w' Hl H.
    apply getProductHistory_Return in H as (stages & Hs & Hn & _).
    rewrite Hl, G in Hs. injection Hs as <-. exact Hn.
Qed.


End History.

(** ** Registration followed by later commands *)

Section Sessions.

Import Cli.



Lemma extends_refl w : extends w w.
Proof.
  split; [exists []; reflexivity|exists []; rewrite app_nil_r; reflexivity].
Qed.

Lemma run_app st t1 t2 : L.run st (t1 ++ t2) = L.run (L.run st t1) t2.
Proof. unfold L.run. apply fold_left_app. Qed.

Lemma extends_trans w1 w2 w3 : extends w1 w2 -> extends w2 w3 -> extends w1 w3.
Proof.
  intros [[t1 L1] [r1 T1]] [[t2 L2] [r2 T2]]. split.
  - exists (t1 ++ t2). rewrite run_app, <- L1. exact L2.
  - exists (r1 ++ r2). rewrite app_assoc, <- T1. exact T2.
Qed.

Lemma extends_same w w' :
  ledger w' = ledger w -> table w' = table w -> extends w w'.
Proof.
  intros El Et. split; [exists []|exists []; rewrite app_nil_r]; assumption.
Qed.

Lemma extends_call w w' tx rows :
  L.call (ledger w) tx = L.Ok (ledger w') -> table w' = table w ++ rows ->
  extends w w'.
Proof.
  intros Hc Ht. split; [|exists rows; exact Ht].
  exists [tx]. cbn. unfold L.exec. rewrite Hc. reflexivity.
Qed.

Lemma insert_app row tbl tbl' :
  Store.insert row tbl = Some tbl' -> tbl' = tbl ++ [row].
Proof. intros H. apply insert_select in H as (_ & _ & H). exact H. Qed.

(** Solves [extends w w'] for the final world of a symbolic run. *)
Ltac solve_extends :=
  cbn [snd];
  first
    [ apply extends_same; reflexivity
    | match goal with
      | Hc : L.addProduct ?m ?p ?h (ledger ?w) = L.Ok ?st |- extends ?w _ =>
          first
            [ match goal with
              | Hi : Store.insert ?r (table w) = Some _ |- _ =>
                  apply (extends_call w _ (m, L.CallAddProduct p h) [r]);
                  [exact Hc|exact (insert_app _ _ _ Hi)]
              end
            | apply (extends_call w _ (m, L.CallAddProduct p h) []);
              [exact Hc|cbn [table]; rewrite app_nil_r; reflexivity] ]
      | Hc : L.addStage ?m ?p ?n (ledger ?w) = L.Ok ?st |- extends ?w _ =>
          apply (extends_call w _ (m, L.CallAddStage p n) []);
          [exact Hc|cbn [table]; rewrite app_nil_r; reflexivity]
      | Hc : L.grantRole ?m ?r ?a (ledger ?w) = L.Ok ?st |- extends ?w _ =>
          apply (extends_call w _ (m, L.CallGrantRole r a) []);
          [exact Hc|cbn [table]; rewrite app_nil_r; reflexivity]
      end ].

Lemma mapM_frame {A B} (f : A -> M B) :
  (forall a w o w', f a w = (o, w') -> ledger w' = ledger w /\ table w' = table w) ->
  forall l w o w',
    mapM f l w = (o, w') -> ledger w' = ledger w /\ table w' = table w.
Proof.
  intros Hf. induction l as [|a l IH]; intros w o w' H.
  - cbn in H. injection H as <- <-. split; reflexivity.
  - cbn [mapM] in H. unfold bind at 1 in H.
    destruct (f a w) as [[b|e] w1] eqn:E1; apply Hf in E1 as [Hl1 Ht1].
    2:{ injection H as <- <-. split; assumption. }
    unfold bind at 1 in H.
    destruct (mapM f l w1) as [[bs|e] w2] eqn:E2; apply IH in E2 as [Hl2 Ht2];
      unfold ret in H; injection H as <- <-; split; congruence.
Qed.

Lemma getProductHistory_frame env productID w o w' :
  getProductHistory env productID w = (o, w') ->
  ledger w' = ledger w /\ table w' = table w.
Proof.
  intros H. unfold getProductHistory, try_catch in H.
  destruct (falsy productID).
  { cbn in H. injection H as <- <-. split; reflexivity. }
  unfold bind at 1 in H. unfold view, request in H.
  destruct (fault env RpcGetProductHistory).
  { cbn in H. injection H as <- <-. split; reflexivity. }
  destruct (L.getProductHistory (ledger w) productID) as [stages|r].
  2:{ cbn in H. injection H as <- <-. split; reflexivity. }
  unfold bind at 1, called, ret in H. unfold bind at 1 in H.
  match type of H with
  | context [mapM ?f stages ?w0] =>
      assert (F1 : forall a wa oa wa', f a wa = (oa, wa') ->
                     ledger wa' = ledger wa /\ table wa' = table wa)
        by (intros a wa oa wa' Ha; unfold bind, toISOString, ret, throw in Ha;
            destruct (JSDate.TimeClip _); injection Ha as <- <-;
            split; reflexivity);
      destruct (mapM f stages w0) as [[bs|e] w1] eqn:E;
      apply (mapM_frame f F1) in E as [Hl1 Ht1]
  end; cbn [ledger table] in Hl1, Ht1.
  2:{ cbn in H. injection H as <- <-. split; assumption. }
  unfold bind at 1 in H. unfold console_log at 1 in H. unfold bind at 1 in H.
  match type of H with
  | context [mapM ?f ?l ?w0] =>
      assert (F2 : forall a wa oa wa', f a wa = (oa, wa') ->
                     ledger wa' = ledger wa /\ table wa' = table wa)
        by (intros [i st] wa oa wa' Ha; unfold console_log in Ha;
            injection Ha as <- <-; split; reflexivity);
      destruct (mapM f l w0) as [[us|e] w2] eqn:E';
      apply (mapM_frame f F2) in E' as [Hl2 Ht2]
  end; cbn [ledger table] in Hl2, Ht2.
  all: cbn in H; injection H as <- <-; cbn [ledger table]; split; congruence.
Qed.

(** Every command run only adds to the ledger and to the table. *)
Lemma main_extends env cmd w : extends w (main env cmd w).2.
Proof.
  destruct cmd as [a b c|a|a|a b|a|].
  6:{ apply extends_same; reflexivity. }
  5:{ unfold main, try_catch. unfold bind at 1.
      destruct (getProductHistory env a w) as [[fs|e] w1] eqn:E;
        apply getProductHistory_frame in E as [Hl Ht];
        apply extends_same; assumption. }
  all: destruct (main env _ w) as [o w'] eqn:H; cli_eval H;
    repeat cli_step H; injection H as <- <-; solve_extends.
Qed.

Lemma session_extends runs w : extends w (session w runs).
Proof.
  revert w. induction runs as [|r runs IH]; intros w; [apply extends_refl|].
  cbn [session fold_left].
  eapply extends_trans; [apply main_extends|apply IH].
Qed.


Lemma getProductHash_Ok st pid h :
  L.getProductHash st pid = L.Ok h <->
  L.exists_ (L.product_at st pid) = true /\
  L.productHash (L.product_at st pid) = h.
Proof.
  unfold L.getProductHash, L.require.
  destruct (L.exists_ (L.product_at st pid)); split.
  - intros [= <-]. auto.
  - intros [_ <-]. reflexivity.
  - discriminate.
  - intros [? _]. discriminate.
Qed.

(** The fingerprint of a registered product never changes. *)
Lemma exec_keeps_hash st tx pid h :
  L.getProductHash st pid = L.Ok h ->
  L.getProductHash (L.exec st tx) pid = L.Ok h.
Proof.
  rewrite !getProductHash_Ok. intros [He Hh]. unfold L.exec.
  destruct tx as [msg [q x|q n|r a]]; cbn [L.call fst snd].
  - destruct (L.addProduct msg q x st) as [st'|] eqn:E; [|auto].
    apply addProduct_Ok in E as (_ & _ & _ & Hn & _ & Ho & _).
    rewrite Ho by congruence. auto.
  - destruct (L.addStage msg q n st) as [st'|] eqn:E; [|auto].
    apply addStage_Ok in E as (_ & _ & _ & Hp & Ho & _).
    destruct (decide (pid = q)) as [->|N]; [rewrite Hp|rewrite Ho by exact N]; auto.
  - destruct (L.grantRole msg r a st) as [st'|] eqn:E; [|auto].
    apply grantRole_Ok in E. unfold L.product_at in *. rewrite E. auto.
Qed.

Lemma run_keeps_hash txs st pid h :
  L.getProductHash st pid = L.Ok h ->
  L.getProductHash (L.run st txs) pid = L.Ok h.
Proof.
  revert st. induction txs as [|tx txs IH]; intros st H; [exact H|].
  rewrite run_cons. apply IH, exec_keeps_hash, H.
Qed.

(** What [extends] keeps of a registered product: its fingerprint on the
    ledger and the row a keyed read returns first. *)
Lemma extends_keeps w w' pid h row rest :
  extends w w' ->
  L.getProductHash (ledger w) pid = L.Ok h ->
  Store.select pid (table w) = row :: rest ->
  L.getProductHash (ledger w') pid = L.Ok h /\
  exists rest', Store.select pid (table w') = row :: rest'.
Proof.
  intros [[txs Hl] [rows Ht]] Hh Hs. split.
  - rewrite Hl. apply run_keeps_hash, Hh.
  - rewrite Ht, select_app, Hs. eexists. reflexivity.
Qed.

(** C1. After a successful [addProduct], and whatever commands are run
    afterwards, [verifyProduct] on the product returns [isAuthentic = true]:
    the digest recomputed from the stored row, with both dates read back
    through [Date] and printed again, is the digest the ledger recorded at
    registration. *)
Theorem register_then_verify_authentic
    env productID productType batchNumber w r w' runs env' :
  addProduct env productID productType batchNumber w = (Return r, w') ->
  fault env' DbSelect = None ->
  fault env' RpcGetProductHash = None ->
  L.getProductHash (ledger (session w' runs)) productID
    = L.Ok (added_productHash r) /\
  exists row w'',
    verifyProduct env' productID (session w' runs) =
    (Return {| productID := productID;
               isAuthentic := true;
               databaseHash := added_productHash r;
               blockchainHash := added_productHash r;
               metadata := row |}, w'').
Proof.
  intros H Hf1 Hf2.
  apply addProduct_Return in H as (tm & te & Hnow & Hexp & Hp & -> & Hl & Hi).
  assert (Htm : Z.abs tm <= JSDate.maxTime).
  { unfold Date_now in Hnow. apply TimeClip_Some in Hnow as [-> Hm]. exact Hm. }
  assert (Hte : Z.abs te <= JSDate.maxTime)
    by (exact (setFullYear_Some _ _ _ _ Hexp)).
  set (row := row_of productID productType batchNumber tm te) in *.
  apply addProduct_Ok in Hl as (_ & _ & _ & _ & Hprod & _).
  assert (Hh : L.getProductHash (ledger w') productID
               = L.Ok (Store.product_hash row))
    by (apply (getProductHash_registered _ _ _ Hprod); reflexivity).
  apply insert_select in Hi as (Hsel & _ & _).
  destruct (extends_keeps _ _ _ _ _ _ (session_extends runs w') Hh Hsel)
    as (Hh' & rest' & Hsel').
  destruct (verifyProduct_run env' productID (session w' runs) row rest'
              (Store.product_hash row) tm te Hp Hf1 Hf2 Hsel' Hh'
              (parse_iso_string _ _ Htm) (parse_iso_string _ _ Hte))
    as (w'' & V & _).
  split; [exact Hh'|]. exists row, w''. rewrite V.
  cbn [added_productHash Store.product_id Store.product_type
       Store.batch_number Store.product_hash row row_of].
  rewrite String.eqb_refl. reflexivity.
Qed.

End Sessions.

(** ** The statements above on the concrete deployment *)

Section Witnesses.

Import Cli Scenario.

Lemma pair_eta {A B} (p : A * B) (a : A) : p.1 = a -> p = (a, p.2).
Proof. intros <-. destruct p; reflexivity. Defined.

(** C1 on the walk-through: P1 is registered, a stage is added, a stranger
    and the owner try further registrations, and P1 still verifies. *)
Lemma register_then_verify_authentic_witness :
  addProduct env0 "P1" "Aspirin" "B001" w0 =
    (Return {| added_productID := "P1";
               added_productHash :=
                 "0x5d1e60d365a571414309bc21c97e4d93ba790d2bd7ea630a57888d7681efdc16" |},
     w1) /\
  exists row w'',
    verifyProduct env0 "P1"
      (session w1 [(env0, CmdAddStage "P1" "Packaged");
                   (signed_by stranger env0, CmdAddProduct "P1" "Placebo" "B999");
                   (env0, CmdAddProduct "P2" "Ibuprofen" "B002")]) =
    (Return {| productID := "P1";
               isAuthentic := true;
               databaseHash :=
                 "0x5d1e60d365a571414309bc21c97e4d93ba790d2bd7ea630a57888d7681efdc16";
               blockchainHash :=
                 "0x5d1e60d365a571414309bc21c97e4d93ba790d2bd7ea630a57888d7681efdc16";
               metadata := row |}, w'').
Proof.
  assert (H : addProduct env0 "P1" "Aspirin" "B001" w0 =
              (Return {| added_productID := "P1";
                         added_productHash :=
                           "0x5d1e60d365a571414309bc21c97e4d93ba790d2bd7ea630a57888d7681efdc16" |},
               w1)).
  { unfold w1.
    refine (pair_eta (addProduct env0 "P1" "Aspirin" "B001" w0) _ _).
    vm_compute. reflexivity. }
  split; [exact H|].
  exact (proj2 (register_then_verify_authentic env0 "P1" "Aspirin" "B001" w0 _ w1
                  _ env0 H eq_refl eq_refl)).
Defined.

(** C2 on the walk-through: the type of P1 is edited to Ibuprofen in the
    table. *)
Lemma tampered_row_reported_not_thrown_witness :
  exists v,
    (verifyProduct env0 "P1" (tamper_type "P1" "Ibuprofen" w1)).1 = Return v /\
    isAuthentic v = false /\
    databaseHash v <> blockchainHash v /\
    Store.product_type (metadata v) = "Ibuprofen".
Proof.
  eexists. split.
  - apply (tampered_row_reported_not_thrown env0 "P1"
             (tamper_type "P1" "Ibuprofen" w1)
             {| Store.product_id := "P1";
                Store.product_type := "Ibuprofen";
                Store.batch_number := "B001";
                Store.manufacturing_date := "2023-11-14T22:13:20.000Z";
                Store.expiry_date := "2025-11-14T22:13:20.000Z";
                Store.product_hash :=
                  "0x5d1e60d365a571414309bc21c97e4d93ba790d2bd7ea630a57888d7681efdc16" |}
             []
             "0x5d1e60d365a571414309bc21c97e4d93ba790d2bd7ea630a57888d7681efdc16"
             1700000000000 1763158400000).
    + discriminate.
    + reflexivity.
    + reflexivity.
    + vm_compute. reflexivity.
    + vm_compute. reflexivity.
    + vm_compute. reflexivity.
    + vm_compute. reflexivity.
    + vm_compute. discriminate.
  - cbn [isAuthentic databaseHash blockchainHash metadata Store.product_type].
    split; [reflexivity|]. split; [vm_compute; discriminate|reflexivity].
Defined.


(** C4 on the walk-through: P1 is registered a second time; one entry and
    one row remain. *)
Lemma duplicate_reaches_ledger_write_witness :
  L.productExists (ledger w1) "P1" = L.Ok true /\
  L.hasRole (ledger w1) L.ADMIN_ROLE (wallet env0) = true /\
  length (Store.select "P1" (table (addProduct env0 "P1" "Aspirin" "B001" w1).2))
    = 1%nat /\
  length (List.filter
            (fun e => match e with
                      | L.ProductAdded p _ => String.eqb p "P1"
                      | _ => false
                      end)
            (L.events (ledger (addProduct env0 "P1" "Aspirin" "B001" w1).2)))
    = 1%nat /\
  (addProduct env0 "P1" "Aspirin" "B001" w1).1 =
    Throw (CallException (L.RequireFailed "Product already exists")) /\
  trace_since w1 (addProduct env0 "P1" "Aspirin" "B001" w1).2 =
    [(RpcProductExists, true); (RpcAddProduct, false)] /\
  ledger (addProduct env0 "P1" "Aspirin" "B001" w1).2 = ledger w1 /\
  table (addProduct env0 "P1" "Aspirin" "B001" w1).2 = table w1.
Proof.
  split; [vm_compute; reflexivity|]. split; [vm_compute; reflexivity|].
  split; [vm_compute; reflexivity|]. split; [vm_compute; reflexivity|].
  apply (duplicate_reaches_ledger_write env0 "P1" "Aspirin" "B001" w1
           1700000000000 1763158400000).
  - discriminate.
  - discriminate.
  - discriminate.
  - vm_compute. reflexivity.
  - vm_compute. reflexivity.
  - reflexivity.
  - reflexivity.
  - vm_compute. reflexivity.
  - vm_compute. reflexivity.
Defined.

(** C5 on the walk-through with the database connection reset at the
    insert. *)
Lemma store_failure_propagated_unchanged_witness :
  exists m,
    (addProduct (failing DbInsert "read ECONNRESET" env0)
       "P1" "Aspirin" "B001" w0).1 = Throw (Error m) /\
    (fault (failing DbInsert "read ECONNRESET" env0) DbInsert = Some m \/
     fault (failing DbInsert "read ECONNRESET" env0) DbInsert = None /\
     m = "duplicate key value violates unique constraint") /\
    L.exists_
      (L.product_at
         (ledger (addProduct (failing DbInsert "read ECONNRESET" env0)
                    "P1" "Aspirin" "B001" w0).2) "P1") = true /\
    (exists h,
        L.getProductHash
          (ledger (addProduct (failing DbInsert "read ECONNRESET" env0)
                     "P1" "Aspirin" "B001" w0).2) "P1" = L.Ok h /\
        L.ProductAdded "P1" h ∈
          L.events (ledger (addProduct (failing DbInsert "read ECONNRESET" env0)
                              "P1" "Aspirin" "B001" w0).2)) /\
    table (addProduct (failing DbInsert "read ECONNRESET" env0)
             "P1" "Aspirin" "B001" w0).2 = table w0 /\
    last (console (addProduct (failing DbInsert "read ECONNRESET" env0)
                     "P1" "Aspirin" "B001" w0).2)
    = Some ("❌ Failed to add product: " +:+ m).
Proof.
  assert (T : trace_since w0
                (addProduct (failing DbInsert "read ECONNRESET" env0)
                   "P1" "Aspirin" "B001" w0).2
              = [(RpcProductExists, true); (RpcAddProduct, true);
                 (RpcWait, true); (DbInsert, false)])
    by (vm_compute; reflexivity).
  apply (store_failure_propagated_unchanged
           (failing DbInsert "read ECONNRESET" env0) "P1" "Aspirin" "B001" w0).
  - rewrite T. apply list_elem_of_further, list_elem_of_here.
  - rewrite T. do 3 apply list_elem_of_further. apply list_elem_of_here.
Defined.

(** C6 on the walk-through, once without failure and once with the node
    connection reset at the ledger write. *)
Lemma ledger_write_before_store_write_witness :
  ((RpcAddProduct, true) ∈
     [(RpcProductExists, true); (RpcAddProduct, true); (RpcWait, true)] /\
   (RpcWait, true) ∈
     [(RpcProductExists, true); (RpcAddProduct, true); (RpcWait, true)]) /\
  ((forall ok,
       (DbInsert, ok) ∉
       trace_since w0
         (addProduct (failing RpcAddProduct "read ECONNRESET" env0)
            "P1" "Aspirin" "B001" w0).2) /\
   table (addProduct (failing RpcAddProduct "read ECONNRESET" env0)
            "P1" "Aspirin" "B001" w0).2 = table w0 /\
   exists e,
     (addProduct (failing RpcAddProduct "read ECONNRESET" env0)
        "P1" "Aspirin" "B001" w0).1 = Throw e).
Proof.
  split.
  - apply (proj1 (ledger_write_before_store_write env0 "P1" "Aspirin" "B001" w0)
             _ true []).
    vm_compute. reflexivity.
  - apply (proj2 (ledger_write_before_store_write
                    (failing RpcAddProduct "read ECONNRESET" env0)
                    "P1" "Aspirin" "B001" w0)).
    left.
    assert (T : trace_since w0
                  (addProduct (failing RpcAddProduct "read ECONNRESET" env0)
                     "P1" "Aspirin" "B001" w0).2
                = [(RpcProductExists, true); (RpcAddProduct, false)])
      by (vm_compute; reflexivity).
    rewrite T. apply list_elem_of_further, list_elem_of_here.
Defined.

(** C7 for a wallet that was never granted the role. *)
Lemma unauthorized_changes_nothing_witness :
  L.hasRole genesis L.ADMIN_ROLE stranger = false /\
  L.addProduct {| L.sender := stranger; L.block_timestamp := 1700000001 |}
    "P1" "0x00" genesis =
    L.Reverted (L.AccessControlUnauthorizedAccount stranger L.ADMIN_ROLE) /\
  L.addStage {| L.sender := stranger; L.block_timestamp := 1700000001 |}
    "P1" "0x00" genesis =
    L.Reverted (L.AccessControlUnauthorizedAccount stranger L.ADMIN_ROLE) /\
  L.exec genesis ({| L.sender := stranger; L.block_timestamp := 1700000001 |},
                  L.CallAddProduct "P1" "0x00") = genesis /\
  L.exec genesis ({| L.sender := stranger; L.block_timestamp := 1700000001 |},
                  L.CallAddStage "P1" "0x00") = genesis.
Proof.
  split; [vm_compute; reflexivity|].
  apply (unauthorized_changes_nothing
           {| L.sender := stranger; L.block_timestamp := 1700000001 |}
           genesis "P1" "0x00").
  vm_compute. reflexivity.
Defined.

(** C8 on the walk-through: P1 with two stages by the owner and a rejected
    one by a stranger, P2 without stages. *)
Lemma history_in_insertion_order_witness :
  L.chain_time_ok 1700000000 walkthrough /\
  map L.stageName
    (L.applied_stages "P1"
       (L.constructor {| L.sender := deployer; L.block_timestamp := 1700000000 |})
       walkthrough) = ["Packaged"; "Shipped"] /\
  L.getProductHistory
    (L.run (L.constructor {| L.sender := deployer; L.block_timestamp := 1700000000 |})
       walkthrough) "P1" =
  L.Ok (L.applied_stages "P1"
          (L.constructor {| L.sender := deployer; L.block_timestamp := 1700000000 |})
          walkthrough) /\
  L.nondecreasing
    (map L.timestamp
       (L.applied_stages "P1"
          (L.constructor {| L.sender := deployer; L.block_timestamp := 1700000000 |})
          walkthrough)) /\
  L.getProductHistory
    (L.run (L.constructor {| L.sender := deployer; L.block_timestamp := 1700000000 |})
       walkthrough) "P2" = L.Ok [].
Proof.
  assert (Hc : L.chain_time_ok 1700000000 walkthrough)
    by (cbn; repeat split; lia).
  split; [exact Hc|]. split; [vm_compute; reflexivity|].
  destruct (history_in_insertion_order
              {| L.sender := deployer; L.block_timestamp := 1700000000 |}
              walkthrough "P1" Hc ltac:(vm_compute; reflexivity))
    as (H1 & H2 & _).
  destruct (history_in_insertion_order
              {| L.sender := deployer; L.block_timestamp := 1700000000 |}
              walkthrough "P2" Hc ltac:(vm_compute; reflexivity))
    as (H3 & _ & _).
  split; [exact H1|]. split; [exact H2|].
  rewrite H3. vm_compute. reflexivity.
Defined.

Lemma tamper_hash_ledger h w : ledger w = ledger (tamper_hash h w).
Proof. reflexivity. Defined.

Lemma tamper_hash_table h w :
  Forall2 same_but_hash (table w) (table (tamper_hash h w)).
Proof.
  unfold tamper_hash. cbn [table].
  induction (table w) as [|r t IH]; cbn [map]; constructor;
    [repeat split|exact IH].
Defined.

(** C10 on the walk-through with the stored hash of every row overwritten. *)
Lemma verdict_ignores_stored_hash_witness :
  ledger w1 = ledger (tamper_hash "0xdeadbeef" w1) /\
  Forall2 same_but_hash (table w1) (table (tamper_hash "0xdeadbeef" w1)) /\
  same_verdict (verifyProduct env0 "P1" w1).1
               (verifyProduct env0 "P1" (tamper_hash "0xdeadbeef" w1)).1.
Proof.
  split; [exact (tamper_hash_ledger "0xdeadbeef" w1)|].
  split; [exact (tamper_hash_table "0xdeadbeef" w1)|].
  exact (verdict_ignores_stored_hash env0 "P1" w1 (tamper_hash "0xdeadbeef" w1)
           (tamper_hash_ledger "0xdeadbeef" w1)
           (tamper_hash_table "0xdeadbeef" w1)).
Defined.

End Witnesses.

(* ===================================================================== *)
(** * Part III: further properties of the contract and the engine        *)
(* ===================================================================== *)

Section LedgerLifecycle.
Import MedicineAuthenticity Ledger.

Lemma ADMIN_ROLE_not_default : ADMIN_ROLE <> DEFAULT_ADMIN_ROLE.
Proof. discriminate. Qed.

Lemma constructor_roles d a :
  hasRole (constructor d) ADMIN_ROLE a = bool_decide (a = sender d) /\
  hasRole (constructor d) DEFAULT_ADMIN_ROLE a = bool_decide (a = sender d) /\
  getRoleAdmin (constructor d) ADMIN_ROLE = DEFAULT_ADMIN_ROLE.
Proof.
  unfold constructor, _setRoleAdmin, _grantRole, emit, hasRole, getRoleAdmin,
    empty_state.
  cbn [roles roleAdmin products events].
  rewrite (bool_decide_eq_false_2 ((DEFAULT_ADMIN_ROLE, sender d) ∈ (∅ : gset (bytes32 * address))))
    by set_solver.
  cbn [roles roleAdmin products events].
  rewrite (bool_decide_eq_false_2 ((ADMIN_ROLE, sender d) ∈ _)).
  2:{ pose proof ADMIN_ROLE_not_default. set_solver. }
  cbn [roles roleAdmin products events].
  pose proof ADMIN_ROLE_not_default.
  repeat split; apply bool_decide_ext; set_solver.
Qed.

(** X1. On a freshly deployed contract the deployer, and nobody else, passes
    the role check of [addProduct] and [addStage]; a registration by the
    deployer with a non-empty id and hash goes through and is readable at
    once. *)
Theorem fresh_contract_admits_deployer_only deployment msg _productID _productHash :
  _productID <> "" -> _productHash <> "" ->
  (sender msg = sender deployment ->
     exists st',
       addProduct msg _productID _productHash (constructor deployment) = Ok st' /\
       getProductHash st' _productID = Ok _productHash /\
       getProductHistory st' _productID = Ok [] /\
       productExists st' _productID = Ok true) /\
  (sender msg <> sender deployment ->
     addProduct msg _productID _productHash (constructor deployment) =
       Reverted (AccessControlUnauthorizedAccount (sender msg) ADMIN_ROLE) /\
     addStage msg _productID _productHash (constructor deployment) =
       Reverted (AccessControlUnauthorizedAccount (sender msg) ADMIN_ROLE)).
Proof.
  intros Hp Hh.
  destruct (constructor_roles deployment (sender msg)) as (Ha & _ & _).
  split; intros Hs.
  - rewrite bool_decide_eq_true_2 in Ha by exact Hs.
    destruct (addProduct msg _productID _productHash (constructor deployment))
      as [st'|r] eqn:E.
    + exists st'. split; [reflexivity|].
      apply addProduct_Ok in E as (_ & _ & _ & _ & Hprod & _).
      unfold getProductHash, getProductHistory, productExists, require.
      rewrite Hprod, constructor_products. cbn. auto.
    + exfalso. unfold addProduct, onlyRole, require in E.
      apply nonempty_string in Hp, Hh.
      rewrite Ha, Hp, Hh, constructor_products in E. discriminate.
  - rewrite bool_decide_eq_false_2 in Ha by exact Hs.
    split; [apply unauthorized_addProduct|apply unauthorized_addStage]; exact Ha.
Qed.

(** X2. Once a product is registered its fingerprint is fixed: whatever
    transactions follow, [getProductHash] returns the same value, the
    product still exists, and every further [addProduct] for it reverts. *)
Theorem registered_fingerprint_is_final st txs _productID h :
  getProductHash st _productID = Ok h ->
  getProductHash (run st txs) _productID = Ok h /\
  productExists (run st txs) _productID = Ok true /\
  forall msg h', exists r,
    addProduct msg _productID h' (run st txs) = Reverted r.
Proof.
  intros H. pose proof (run_keeps_hash txs st _productID h H) as Hr.
  split; [exact Hr|].
  apply getProductHash_Ok in Hr as [He _].
  split; [unfold productExists; rewrite He; reflexivity|].
  intros msg h'. unfold addProduct, onlyRole, require. rewrite He.
  cbn [negb].
  repeat match goal with |- context [if ?c then _ else _] => destruct c end;
    eexists; reflexivity.
Qed.

(** X3. The stage history only grows at its end: a successful [addStage]
    returns the old history followed by the one new stage, stamped with the
    sender and the block time, and after any transactions the old history
    is still the beginning of the new one. *)
Theorem history_is_append_only st _productID old :
  getProductHistory st _productID = Ok old ->
  (forall msg _stageName st',
      addStage msg _productID _stageName st = Ok st' ->
      getProductHistory st' _productID =
      Ok (old ++ [ {| stageName := _stageName; authenticator := sender msg;
                      timestamp := block_timestamp msg |} ])) /\
  (forall txs, exists more,
      getProductHistory (run st txs) _productID = Ok (old ++ more)).
Proof.
  intros H. unfold getProductHistory, require in H.
  destruct (exists_ (product_at st _productID)) eqn:He; [|discriminate].
  injection H as <-. split.
  - intros msg n st' E.
    apply addStage_Ok in E as (_ & _ & _ & Hp & _).
    unfold getProductHistory, require. rewrite Hp. cbn [exists_ stages].
    rewrite He. reflexivity.
  - intros txs. exists (applied_stages _productID st txs).
    unfold getProductHistory, require.
    rewrite run_exists, He, run_stages. reflexivity.
Qed.

Lemma exec_other st tx q :
  target tx.2 <> Some q -> product_at (exec st tx) q = product_at st q.
Proof.
  unfold exec. destruct tx as [msg [p h|p n|r a]]; cbn [call fst snd target];
    intros Hq.
  - destruct (addProduct msg p h st) as [st'|] eqn:E; [|reflexivity].
    apply addProduct_Ok in E as (_ & _ & _ & _ & _ & Ho & _).
    apply Ho. congruence.
  - destruct (addStage msg p n st) as [st'|] eqn:E; [|reflexivity].
    apply addStage_Ok in E as (_ & _ & _ & _ & Ho & _).
    apply Ho. congruence.
  - destruct (grantRole msg r a st) as [st'|] eqn:E; [|reflexivity].
    apply grantRole_Ok in E. unfold product_at. rewrite E. reflexivity.
Qed.

(** X4. Transactions about other products, and role grants, leave a
    product's entry exactly as it was: its existence, its fingerprint and
    its history. *)
Theorem other_transactions_leave_product st txs _productID :
  Forall (fun tx => target tx.2 <> Some _productID) txs ->
  product_at (run st txs) _productID = product_at st _productID /\
  getProductHash (run st txs) _productID = getProductHash st _productID /\
  getProductHistory (run st txs) _productID = getProductHistory st _productID /\
  productExists (run st txs) _productID = productExists st _productID.
Proof.
  intros H.
  assert (E : product_at (run st txs) _productID = product_at st _productID).
  { revert st. induction H as [|tx txs Htx _ IH]; intros st; [reflexivity|].
    rewrite run_cons, IH. apply exec_other, Htx. }
  unfold getProductHash, getProductHistory, productExists. rewrite E. auto.
Qed.

End LedgerLifecycle.

Section LedgerInvariants.
Import MedicineAuthenticity Ledger.

Lemma exec_entry_ok st tx pid : entry_ok st pid -> entry_ok (exec st tx) pid.
Proof.
  unfold entry_ok, exec. cbv zeta.
  destruct tx as [msg [p h|p n|r a]]; cbn [call fst snd]; intros H.
  - destruct (addProduct msg p h st) as [st'|] eqn:E; [|exact H].
    apply addProduct_Ok in E as (_ & Hp & Hh & Hn & Hprod & Ho & _).
    destruct (decide (pid = p)) as [->|N].
    + rewrite Hprod. cbn [exists_ productID productHash stages].
      rewrite Hn in H. rewrite H. cbn [stages]. repeat split; auto.
    + rewrite Ho by exact N. exact H.
  - destruct (addStage msg p n st) as [st'|] eqn:E; [|exact H].
    apply addStage_Ok in E as (_ & Hn & He & Hprod & Ho & _).
    destruct (decide (pid = p)) as [->|N].
    + rewrite Hprod. cbn [exists_ productID productHash stages].
      rewrite He in *. destruct H as (H1 & H2 & H3 & H4).
      repeat split; auto. apply Forall_app. split; [exact H4|].
      constructor; [exact Hn|constructor].
    + rewrite Ho by exact N. exact H.
  - destruct (grantRole msg r a st) as [st'|] eqn:E; [|exact H].
    apply grantRole_Ok in E. unfold product_at in *. rewrite E. exact H.
Qed.

(** X5. In every state reached from deployment, each registered entry
    carries its own key as [productID], with a non-empty key, a non-empty
    hash and no empty stage name, and each unregistered entry is the zero
    value: no stage is ever recorded for a product that does not exist. *)
Theorem reachable_entries_well_formed deployment txs _productID :
  entry_ok (run (constructor deployment) txs) _productID.
Proof.
  assert (G : forall st, entry_ok st _productID ->
                         entry_ok (run st txs) _productID).
  { induction txs as [|tx txs IH]; intros st H; [exact H|].
    rewrite run_cons. apply IH, exec_entry_ok, H. }
  apply G. unfold entry_ok. rewrite constructor_products. reflexivity.
Qed.

Lemma grantRole_events msg r a st st' pid :
  grantRole msg r a st = Ok st' ->
  added_log pid (events st') = added_log pid (events st) /\
  stage_log pid (events st') = stage_log pid (events st).
Proof.
  unfold grantRole, onlyRole, _grantRole, emit.
  destruct (hasRole st (getRoleAdmin st r) (sender msg)); [|discriminate].
  intros [= <-]. destruct (hasRole st r a); [split; reflexivity|].
  cbn [events]. unfold added_log, stage_log.
  rewrite !flat_map_app. cbn. rewrite !app_nil_r. split; reflexivity.
Qed.

Lemma constructor_logs d pid :
  added_log pid (events (constructor d)) = [] /\
  stage_log pid (events (constructor d)) = [].
Proof.
  unfold constructor, _setRoleAdmin, _grantRole, emit, empty_state.
  repeat match goal with |- context [if ?c then _ else _] => destruct c end;
    split; reflexivity.
Qed.

Lemma exec_logs st tx pid :
  let p := product_at st pid in
  let p' := product_at (exec st tx) pid in
  (added_log pid (events st) = (if exists_ p then [productHash p] else []) ->
   added_log pid (events (exec st tx)) =
     (if exists_ p' then [productHash p'] else [])) /\
  (stage_log pid (events st) =
     map (fun s => (stageName s, authenticator s)) (stages p) ->
   stage_log pid (events (exec st tx)) =
     map (fun s => (stageName s, authenticator s)) (stages p')).
Proof.
  cbv zeta. unfold exec.
  destruct tx as [msg [q h|q n|r a]]; cbn [call fst snd].
  - destruct (addProduct msg q h st) as [st'|] eqn:E; [|auto].
    apply addProduct_Ok in E as (_ & _ & _ & Hn & Hprod & Ho & _ & Hev).
    rewrite Hev. unfold added_log, stage_log. rewrite !flat_map_app.
    cbn [flat_map]. rewrite !app_nil_r.
    destruct (String.eqb_spec q pid) as [->|N].
    + rewrite Hprod, Hn. cbn [exists_ productHash stages].
      split; intros H; rewrite H; reflexivity.
    + rewrite Ho by congruence. rewrite !app_nil_r. auto.
  - destruct (addStage msg q n st) as [st'|] eqn:E; [|auto].
    apply addStage_Ok in E as (_ & _ & He & Hprod & Ho & _ & Hev).
    rewrite Hev. unfold added_log, stage_log. rewrite !flat_map_app.
    cbn [flat_map]. rewrite !app_nil_r.
    destruct (String.eqb_spec q pid) as [->|N].
    + rewrite Hprod. cbn [exists_ productHash stages].
      split; intros H; rewrite H; [reflexivity|].
      rewrite map_app. reflexivity.
    + rewrite Ho by congruence. rewrite !app_nil_r. auto.
  - destruct (grantRole msg r a st) as [st'|] eqn:E; [|auto].
    destruct (grantRole_events _ _ _ _ _ pid E) as [E1 E2].
    apply grantRole_Ok in E. unfold product_at. rewrite E, E1, E2. auto.
Qed.

(** X6. The event log agrees with storage in every state reached from
    deployment: a product has exactly one [ProductAdded] event, carrying its
    stored hash, if it is registered and none otherwise, and its
    [StageAdded] events are its stored stages, name and authenticator, in
    the same order. *)
Theorem event_log_mirrors_storage deployment txs _productID :
  let st := run (constructor deployment) txs in
  added_log _productID (events st) =
    (if exists_ (product_at st _productID)
     then [productHash (product_at st _productID)] else []) /\
  stage_log _productID (events st) =
    map (fun s => (stageName s, authenticator s))
        (stages (product_at st _productID)).
Proof.
  cbv zeta.
  assert (G : forall st,
    (added_log _productID (events st) =
       (if exists_ (product_at st _productID)
        then [productHash (product_at st _productID)] else []) /\
     stage_log _productID (events st) =
       map (fun s => (stageName s, authenticator s))
           (stages (product_at st _productID))) ->
    (added_log _productID (events (run st txs)) =
       (if exists_ (product_at (run st txs) _productID)
        then [productHash (product_at (run st txs) _productID)] else []) /\
     stage_log _productID (events (run st txs)) =
       map (fun s => (stageName s, authenticator s))
           (stages (product_at (run st txs) _productID)))).
  { induction txs as [|tx txs IH]; intros st H; [exact H|].
    rewrite run_cons. apply IH.
    destruct (exec_logs st tx _productID) as [L1 L2].
    destruct H as [H1 H2]. split; [apply L1, H1|apply L2, H2]. }
  apply G. destruct (constructor_logs deployment _productID) as [-> ->].
  rewrite constructor_products. split; reflexivity.
Qed.

End LedgerInvariants.

Section EngineErrors.
Import Cli Engine.

(** X7. Each command checks its arguments first: with an empty argument it
    throws its own error, and it has then made no request to the ledger or
    the database and changed neither. *)
Theorem empty_arguments_rejected_locally env w :
  (forall a b c,
      a = "" \/ b = "" \/ c = "" ->
      let run := addProduct env a b c w in
      run.1 = Throw (Error "Product ID, Type, and batch number are required") /\
      trace run.2 = trace w /\ ledger run.2 = ledger w /\ table run.2 = table w) /\
  (let run := verifyProduct env "" w in
   run.1 = Throw (Error "Product ID is required") /\
   trace run.2 = trace w /\ ledger run.2 = ledger w /\ table run.2 = table w) /\
  (forall a b,
      a = "" \/ b = "" ->
      let run := addStage env a b w in
      run.1 = Throw (Error "Product ID and stage name are required") /\
      trace run.2 = trace w /\ ledger run.2 = ledger w /\ table run.2 = table w) /\
  (let run := getProductHistory env "" w in
   run.1 = Throw (Error "Product ID is required") /\
   trace run.2 = trace w /\ ledger run.2 = ledger w /\ table run.2 = table w).
Proof.
  split; [|split; [|split]].
  - intros a b c H. cbv zeta.
    assert (F : falsy a || falsy b || falsy c = true).
    { unfold falsy. destruct H as [-> | [-> | ->] ]; cbn;
        rewrite ?orb_true_r; reflexivity. }
    unfold addProduct, try_catch. rewrite F. cbn. auto.
  - cbn. auto.
  - intros a b H. cbv zeta.
    assert (F : falsy a || falsy b = true).
    { unfold falsy. destruct H as [-> | ->]; cbn; rewrite ?orb_true_r; reflexivity. }
    unfold addStage, try_catch. rewrite F. cbn. auto.
  - cbn. auto.
Qed.

Lemma verifyProduct_frame env productID w o w' :
  verifyProduct env productID w = (o, w') ->
  ledger w' = ledger w /\ table w' = table w.
Proof.
  intros H. cli_run H; injection H as <- <-; split; reflexivity.
Qed.

(** X8. [verifyProduct] and [getProductHistory] only read: whatever they
    return or throw, the ledger and the table are as before. *)
Theorem queries_change_nothing env productID w :
  ledger (verifyProduct env productID w).2 = ledger w /\
  table (verifyProduct env productID w).2 = table w /\
  ledger (getProductHistory env productID w).2 = ledger w /\
  table (getProductHistory env productID w).2 = table w.
Proof.
  destruct (verifyProduct env productID w) as [o1 w1] eqn:E1.
  destruct (getProductHistory env productID w) as [o2 w2] eqn:E2.
  apply verifyProduct_frame in E1 as [? ?].
  apply getProductHistory_frame in E2 as [? ?]. cbn [snd]. auto.
Qed.

(** X9. A product that is missing: without a row for it [verifyProduct]
    throws its own not-found error after the one database read and never
    asks the ledger; with a row but no ledger entry it throws the
    contract's revert; and [getProductHistory] throws the contract's revert
    for an unregistered product. *)
Theorem missing_product_reported env productID w :
  productID <> "" ->
  (fault env DbSelect = None ->
   Store.select productID (table w) = [] ->
   let run := verifyProduct env productID w in
   run.1 = Throw (Error ("Product " +:+ productID +:+ " not found in database")) /\
   trace_since w run.2 = [(DbSelect, true)]) /\
  (fault env DbSelect = None -> fault env RpcGetProductHash = None ->
   Store.select productID (table w) <> [] ->
   L.productExists (ledger w) productID = L.Ok false ->
   let run := verifyProduct env productID w in
   run.1 = Throw (CallException (L.RequireFailed "Product does not exist")) /\
   trace_since w run.2 = [(DbSelect, true); (RpcGetProductHash, false)]) /\
  (fault env RpcGetProductHistory = None ->
   L.productExists (ledger w) productID = L.Ok false ->
   let run := getProductHistory env productID w in
   run.1 = Throw (CallException (L.RequireFailed "Product does not exist")) /\
   trace_since w run.2 = [(RpcGetProductHistory, false)]).
Proof.
  intros Hp. apply falsy_false in Hp. split; [|split].
  - intros Hf Hs. cbv zeta.
    destruct (verifyProduct env productID w) as [o w'] eqn:V.
    cli_eval V. rewrite Hp, Hf in V. cbn [ledger table console trace] in V.
    rewrite Hs in V. injection V as <- <-. trace_norm. split; reflexivity.
  - intros Hf1 Hf2 Hs He. cbv zeta.
    unfold L.productExists in He. injection He as He.
    destruct (verifyProduct env productID w) as [o w'] eqn:V.
    cli_eval V. rewrite Hp, Hf1 in V. cbn [ledger table console trace] in V.
    destruct (Store.select productID (table w)) as [|row rest]; [congruence|].
    rewrite Hf2 in V. cbn [ledger table console trace] in V.
    unfold L.getProductHash, L.require in V. rewrite He in V.
    injection V as <- <-. trace_norm. split; reflexivity.
  - intros Hf He. cbv zeta.
    unfold L.productExists in He. injection He as He.
    destruct (getProductHistory env productID w) as [o w'] eqn:G.
    unfold getProductHistory, try_catch in G. rewrite Hp in G.
    unfold bind at 1 in G. unfold view, request in G. rewrite Hf in G.
    unfold L.getProductHistory, L.require in G. rewrite He in G.
    cbv [called throw bind console_error console_log] in G.
    injection G as <- <-. trace_norm. split; reflexivity.
Qed.

(** X10. [addProduct] writes to the table only as its last effect: a run
    that throws leaves the table as it was, a run that returns has added
    exactly one row at the end, keyed by the product id and holding the
    returned hash, and the ledger then answers that same hash. *)
Theorem table_written_only_on_success
    env productID productType batchNumber w :
  let run := addProduct env productID productType batchNumber w in
  (forall e, run.1 = Throw e -> table run.2 = table w) /\
  (forall r, run.1 = Return r ->
     exists row,
       table run.2 = table w ++ [row] /\
       Store.product_id row = productID /\
       Store.product_type row = productType /\
       Store.batch_number row = batchNumber /\
       Store.product_hash row = added_productHash r /\
       Store.select productID (table w) = [] /\
       L.getProductHash (ledger run.2) productID = L.Ok (added_productHash r)).
Proof.
  cbv zeta.
  destruct (addProduct env productID productType batchNumber w) as [o w'] eqn:H.
  cbn [fst snd]. split.
  - intros e ->. cli_run H; injection H as <- <-; reflexivity.
  - intros r ->.
    apply addProduct_Return in H as (tm & te & _ & _ & _ & -> & Hl & Hi).
    exists (row_of productID productType batchNumber tm te).
    apply insert_select in Hi as (_ & Hs & ->).
    apply addProduct_Ok in Hl as (_ & _ & _ & _ & Hprod & _).
    repeat split; try reflexivity; try exact Hs.
    apply (getProductHash_registered _ _ _ Hprod). reflexivity.
Qed.

End EngineErrors.

Section ExistenceCheck.
Import Cli Engine.

(** X11. A failure of the existence check itself: when its message does not
    contain the word Product, [addProduct] rethrows it and attempts no
    write; when it does, the failure is ignored and the run ends exactly as
    it would have with a working check, whatever the check would have
    answered. *)
Theorem existence_check_failure_filtered
    env productID productType batchNumber w m tm te :
  fault env RpcProductExists = Some m ->
  productID <> "" -> productType <> "" -> batchNumber <> "" ->
  Date_now env = Some tm -> expiryDate env = Some te ->
  let run := addProduct env productID productType batchNumber w in
  let run' := addProduct (healthy RpcProductExists env)
                productID productType batchNumber w in
  (includes "Product" m = false ->
     run.1 = Throw (Error m) /\
     trace_since w run.2 = [(RpcProductExists, false)] /\
     ledger run.2 = ledger w /\ table run.2 = table w) /\
  (includes "Product" m = true ->
     run.1 = run'.1 /\ ledger run.2 = ledger run'.2 /\
     table run.2 = table run'.2 /\ console run.2 = console run'.2).
Proof.
  intros Hf Hp Hty Hb Hnow Hexp. cbv zeta.
  pose proof (falsy_inputs _ _ _ Hp Hty Hb) as Hin.
  unfold expiryDate in Hexp. rewrite Hnow in Hexp.
  destruct (addProduct env productID productType batchNumber w)
    as [o w1] eqn:H.
  destruct (addProduct (healthy RpcProductExists env)
              productID productType batchNumber w) as [o' w2] eqn:H'.
  cli_eval H. cli_eval H'.
  cbn [fault healthy host now wallet block_timestamp decide
       Boundary_eq_dec] in H'.
  unfold Date_now, msg_of, healthy in H'.
  cbn [fault healthy host now wallet block_timestamp] in H'.
  fold (Date_now env) in H'. fold (msg_of env) in H'.
  rewrite Hin, Hnow, Hexp in H, H'. rewrite Hf in H.
  cbn [message ledger table console trace] in H, H'.
  split; intros Hinc; rewrite Hinc in H; cbn [negb] in H.
  - injection H as <- <-. trace_norm. auto.
  - clear Hf Hinc.
    assert (D : forall b, b <> RpcProductExists ->
                (if decide (RpcProductExists = b) then None else fault env b)
                = fault env b)
      by (intros b Hb'; destruct (decide (RpcProductExists = b)); congruence).
    destruct (decide (RpcProductExists = RpcProductExists)); [|congruence].
    rewrite !D in H' by discriminate.
    cbn [ledger table console trace] in H'.
    destruct (L.exists_ (L.product_at (ledger w) productID)).
    + cbn [message] in H'. rewrite includes_Product in H'. cbn [negb] in H'.
      cbn [ledger table console trace] in H'.
      repeat (step_in H; cbn [ledger table console trace] in H, H');
        injection H as <- <-; injection H' as <- <-; auto.
    + cbn [ledger table console trace] in H'.
      repeat (step_in H; cbn [ledger table console trace] in H, H');
        injection H as <- <-; injection H' as <- <-; auto.
Qed.

End ExistenceCheck.

Section HistoryFormat.
Import Cli Engine.

Lemma mapM_cons {A B} (f : A -> M B) a r w :
  mapM f (a :: r) w =
  match f a w with
  | (Return b, w1) =>
      match mapM f r w1 with
      | (Return bs, w2) => (Return (b :: bs), w2)
      | (Throw e, w2) => (Throw e, w2)
      end
  | (Throw e, w1) => (Throw e, w1)
  end.
Proof.
  cbn [mapM]. unfold bind, ret. destruct (f a w) as [[b|e] w1]; reflexivity.
Qed.

Lemma format_stage_eq (s : L.Stage) w :
  bind (toISOString (JSDate.TimeClip (L.timestamp s * 1000)))
    (fun ts => ret {| stageName := L.stageName s;
                      authenticator := L.authenticator s;
                      timestamp := ts |}) w
  = if Z.abs (L.timestamp s * 1000) <=? JSDate.maxTime
    then (Return (formatted s), w)
    else (Throw (RangeError "Invalid time value"), w).
Proof.
  unfold bind, JSDate.TimeClip.
  destruct (Z.abs (L.timestamp s * 1000) <=? JSDate.maxTime); reflexivity.
Qed.

Lemma mapM_formatted (stages : list L.Stage) w :
  Forall printable stages ->
  mapM (fun stage =>
          bind (toISOString (JSDate.TimeClip (L.timestamp stage * 1000)))
            (fun ts => ret {| stageName := L.stageName stage;
                              authenticator := L.authenticator stage;
                              timestamp := ts |})) stages w
  = (Return (map formatted stages), w).
Proof.
  induction 1 as [|s stages Hs _ IH]; [reflexivity|].
  rewrite mapM_cons, format_stage_eq.
  unfold printable in Hs. apply Z.leb_le in Hs. rewrite Hs, IH. reflexivity.
Qed.

Lemma mapM_unprintable (stages : list L.Stage) w :
  ~ Forall printable stages ->
  mapM (fun stage =>
          bind (toISOString (JSDate.TimeClip (L.timestamp stage * 1000)))
            (fun ts => ret {| stageName := L.stageName stage;
                              authenticator := L.authenticator stage;
                              timestamp := ts |})) stages w
  = (Throw (RangeError "Invalid time value"), w).
Proof.
  induction stages as [|s stages IH]; intros H.
  - exfalso. apply H. constructor.
  - rewrite mapM_cons, format_stage_eq.
    destruct (Z.abs (L.timestamp s * 1000) <=? JSDate.maxTime) eqn:E.
    + rewrite IH; [reflexivity|].
      intros Hf. apply H. constructor; [|exact Hf].
      unfold printable. apply Z.leb_le. exact E.
    + reflexivity.
Qed.

Lemma mapM_returns {A B} (f : A -> M B) :
  (forall a w, exists b w', f a w = (Return b, w')) ->
  forall l w, exists bs w', mapM f l w = (Return bs, w').
Proof.
  intros Hf l. induction l as [|a l IH]; intros w.
  - exists [], w. reflexivity.
  - rewrite mapM_cons. destruct (Hf a w) as (b & w1 & ->).
    destruct (IH w1) as (bs & w2 & ->). eauto.
Qed.

(** X12. [getProductHistory] for a registered product returns one entry per
    recorded stage, in the ledger's order, each with its name, its
    authenticator and its timestamp in seconds printed as an ISO instant;
    if some timestamp is beyond what [Date] can hold it throws a
    [RangeError] instead. *)
Theorem history_entries_formatted env productID w stages :
  productID <> "" ->
  fault env RpcGetProductHistory = None ->
  L.getProductHistory (ledger w) productID = L.Ok stages ->
  (Forall printable stages ->
   (getProductHistory env productID w).1 = Return (map formatted stages)) /\
  (~ Forall printable stages ->
   (getProductHistory env productID w).1 =
   Throw (RangeError "Invalid time value")).
Proof.
  intros Hp Hf Hs. apply falsy_false in Hp.
  destruct (getProductHistory env productID w) as [o w'] eqn:G.
  unfold getProductHistory, try_catch in G. rewrite Hp in G.
  unfold bind at 1 in G. unfold view, request in G. rewrite Hf, Hs in G.
  unfold bind at 1, called, ret in G. unfold bind at 1 in G.
  cbn [fst]. split; intros H.
  - rewrite (mapM_formatted _ _ H) in G.
    unfold bind at 1 in G. unfold console_log at 1 in G.
    unfold bind at 1 in G.
    match type of G with
    | context [mapM ?f ?l ?w0] =>
        assert (F : forall a wa, exists b wa', f a wa = (Return b, wa'))
          by (intros [i st] wa; unfold console_log; eauto);
        destruct (mapM_returns f F l w0) as (us & w1 & E)
    end.
    rewrite E in G. unfold ret in G. injection G as <- _. reflexivity.
  - rewrite (mapM_unprintable _ _ H) in G.
    cbv [throw bind console_error console_log] in G.
    injection G as <- _. reflexivity.
Qed.

End HistoryFormat.

Section StagesAndRoles.
Import Cli Engine.

Lemma addStage_history msg pid n st st' :
  L.addStage msg pid n st = L.Ok st' ->
  L.getProductHistory st pid = L.Ok (L.stages (L.product_at st pid)) /\
  L.getProductHistory st' pid =
  L.Ok (L.stages (L.product_at st pid) ++
        [ {| L.stageName := n; L.authenticator := L.sender msg;
             L.timestamp := L.block_timestamp msg |} ]).
Proof.
  intros H. apply addStage_Ok in H as (_ & _ & He & Hp & _).
  unfold L.getProductHistory, L.require. rewrite Hp, He. cbn. auto.
Qed.

(** X13. The engine's [addStage] never touches the table.  When it returns,
    it made exactly the ledger call and the wait, and the product's history
    on the ledger is the former history followed by one stage that carries
    the given name, the engine's wallet as authenticator and the block's
    timestamp.  When the contract reverts the call, the revert is what the
    caller gets and the ledger is unchanged. *)
Theorem stage_added_with_wallet_and_block_time env productID stageName w :
  let run := addStage env productID stageName w in
  let stage := {| L.stageName := stageName; L.authenticator := wallet env;
                  L.timestamp := block_timestamp env |} in
  table run.2 = table w /\
  (forall r, run.1 = Return r ->
     r = (productID, stageName) /\
     trace_since w run.2 = [(RpcAddStage, true); (RpcWait, true)] /\
     exists old,
       L.getProductHistory (ledger w) productID = L.Ok old /\
       L.getProductHistory (ledger run.2) productID = L.Ok (old ++ [stage])) /\
  (forall r,
     productID <> "" -> stageName <> "" -> fault env RpcAddStage = None ->
     L.addStage (msg_of env) productID stageName (ledger w) = L.Reverted r ->
     run.1 = Throw (CallException r) /\ ledger run.2 = ledger w /\
     trace_since w run.2 = [(RpcAddStage, false)]).
Proof.
  cbv zeta. destruct (addStage env productID stageName w) as [o w'] eqn:H.
  cbn [fst snd]. split; [|split].
  - cli_run H; injection H as <- <-; reflexivity.
  - intros r ->. cli_run H. injection H as <- <-. split; [reflexivity|].
    split; [trace_norm; reflexivity|].
    match goal with
    | Hc : L.addStage _ _ _ _ = L.Ok _ |- _ =>
        apply addStage_history in Hc as [Hold Hnew]
    end.
    eexists. split; [exact Hold|]. cbn [ledger]. exact Hnew.
  - intros r Hp Hn Hf Hr. apply falsy_false in Hp, Hn.
    unfold addStage, try_catch in H. rewrite Hp, Hn in H. cbn [orb] in H.
    unfold bind at 1 in H. unfold send, request in H. rewrite Hf, Hr in H.
    cbv [bind called throw console_error console_log] in H.
    cbn [ledger table console trace] in H.
    injection H as <- <-. split; [reflexivity|]. split; [reflexivity|].
    trace_norm. reflexivity.
Qed.

Lemma grantRole_effect msg r a st st' :
  L.grantRole msg r a st = L.Ok st' ->
  L.hasRole st (L.getRoleAdmin st r) (L.sender msg) = true /\
  L.hasRole st' r a = true /\
  (forall r' a', L.hasRole st r' a' = true -> L.hasRole st' r' a' = true) /\
  L.products st' = L.products st.
Proof.
  unfold L.grantRole, L.onlyRole, L._grantRole.
  destruct (L.hasRole st (L.getRoleAdmin st r) (L.sender msg)); [|discriminate].
  destruct (L.hasRole st r a) eqn:E; intros [= <-].
  - auto.
  - split; [reflexivity|]. unfold L.hasRole, L.emit. cbn [L.roles L.products].
    split; [apply bool_decide_eq_true; set_solver|].
    split; [|reflexivity].
    intros r' a' H'. apply bool_decide_eq_true in H'.
    apply bool_decide_eq_true. set_solver.
Qed.

(** X14. [grantAdminRole]: a text that is not an address is refused with
    the engine's own error before any request is made.  When the command
    returns, the engine's wallet held the role that administers
    [ADMIN_ROLE], the account now holds [ADMIN_ROLE] and may register
    products, nobody lost a role, and no product and no row was touched. *)
Theorem grant_admin_role_effect env address w :
  let run := grantAdminRole env address w in
  table run.2 = table w /\
  L.products (ledger run.2) = L.products (ledger w) /\
  (parse_address env address = None ->
   run.1 = Throw (Error ("Invalid Ethereum address: " +:+ address)) /\
   trace run.2 = trace w /\ ledger run.2 = ledger w) /\
  (forall u, run.1 = Return u ->
   exists account,
     parse_address env address = Some account /\
     L.hasRole (ledger w) (L.getRoleAdmin (ledger w) L.ADMIN_ROLE) (wallet env)
       = true /\
     L.hasRole (ledger run.2) L.ADMIN_ROLE account = true /\
     (forall r a, L.hasRole (ledger w) r a = true ->
                  L.hasRole (ledger run.2) r a = true) /\
     (forall pid h ts,
        pid <> "" -> h <> "" ->
        L.productExists (ledger run.2) pid = L.Ok false ->
        exists st',
          L.addProduct {| L.sender := account; L.block_timestamp := ts |}
            pid h (ledger run.2) = L.Ok st')).
Proof.
  cbv zeta. destruct (grantAdminRole env address w) as [o w'] eqn:H.
  cbn [fst snd]. split; [|split; [|split]].
  - cli_run H; injection H as <- <-; reflexivity.
  - cli_run H; injection H as <- <-; cbn [ledger]; try reflexivity;
      match goal with
      | Hc : L.grantRole _ _ _ _ = L.Ok _ |- _ =>
          apply grantRole_effect in Hc as (_ & _ & _ & Hsame); exact Hsame
      end.
  - intros Hp. unfold grantAdminRole, try_catch in H. rewrite Hp in H.
    cbv [bind throw console_error console_log] in H.
    injection H as <- <-. auto.
  - intros u ->. cli_run H. injection H as _ <-. cbn [ledger].
    match goal with
    | Hc : L.grantRole _ _ _ _ = L.Ok _ |- _ =>
        apply grantRole_effect in Hc as (Ha & Hb & Hkeep & _)
    end.
    eexists. split; [reflexivity|]. split; [exact Ha|]. split; [exact Hb|].
    split; [exact Hkeep|].
    intros pid h ts Hpid Hh He. unfold L.productExists in He.
    injection He as He.
    unfold L.addProduct, L.onlyRole, L.require. cbn [L.sender].
    rewrite Hb, He. cbn [negb].
    apply nonempty_string in Hpid, Hh. rewrite Hpid, Hh. eauto.
Qed.

End StagesAndRoles.

Section EngineInvariant.
Import Cli Engine.

Lemma insert_keys_unique row tbl tbl' :
  keys_unique tbl -> Store.insert row tbl = Some tbl' -> keys_unique tbl'.
Proof.
  unfold keys_unique, Store.insert. intros Hu.
  destruct (existsb _ tbl) eqn:E; [discriminate|]. intros [= <-].
  rewrite map_app. cbn [map]. apply NoDup_app. split; [exact Hu|].
  split; [|apply NoDup_singleton].
  intros x Hx Hin. apply list_elem_of_singleton in Hin. subst x.
  apply list_elem_of_In, in_map_iff in Hx as (r & Hr & Hin).
  assert (Ht : existsb (fun r => String.eqb (Store.product_id r)
                                   (Store.product_id row)) tbl = true).
  { apply existsb_exists. exists r. split; [exact Hin|].
    rewrite Hr. apply String.eqb_refl. }
  congruence.
Qed.

Lemma row_backed_extends w w' r :
  extends w w' -> row_backed (ledger w) r -> row_backed (ledger w') r.
Proof.
  intros [[txs Hl] _] (Hp & Hh & Hr). split; [exact Hp|]. split; [|exact Hr].
  rewrite Hl. apply run_keeps_hash, Hh.
Qed.

Lemma addProduct_step env a b c w :
  let w' := (addProduct env a b c w).2 in
  table w' = table w \/
  exists row, Store.insert row (table w) = Some (table w') /\
              row_backed (ledger w') row.
Proof.
  cbv zeta. destruct (addProduct env a b c w) as [[r|e] w'] eqn:H; cbn [snd].
  - right. apply addProduct_Return in H as (tm & te & Hnow & Hexp & Hp & _ & Hl & Hi).
    exists (row_of a b c tm te). split; [exact Hi|].
    apply addProduct_Ok in Hl as (_ & _ & _ & _ & Hprod & _).
    split; [exact Hp|]. split.
    + apply (getProductHash_registered _ _ _ Hprod). reflexivity.
    + exists tm, te. split.
      { unfold Date_now in Hnow. apply TimeClip_Some in Hnow as [-> Hm]. exact Hm. }
      split; [exact (setFullYear_Some _ _ _ _ Hexp)|reflexivity].
  - left. cli_run H; injection H as <- <-; reflexivity.
Qed.

Lemma main_world {A} (m : M A) w :
  let run := try_catch (m ;; ret 0)
               (fun error =>
                  console_error ("❌ Error in main: " +:+ message error) ;;
                  ret 1) w in
  ledger run.2 = ledger (m w).2 /\ table run.2 = table (m w).2.
Proof.
  cbv zeta. unfold try_catch, bind. destruct (m w) as [[a|e] w1]; cbn; auto.
Qed.

Lemma main_step env cmd w :
  let w' := (main env cmd w).2 in
  table w' = table w \/
  exists row, Store.insert row (table w) = Some (table w') /\
              row_backed (ledger w') row.
Proof.
  cbv zeta. destruct cmd as [a b c|a|a|a b|a|].
  - destruct (main_world (addProduct env a b c) w) as [Hl Ht].
    change (try_catch _ _ w) with (main env (CmdAddProduct a b c) w) in Hl, Ht.
    rewrite Hl, Ht. apply addProduct_step.
  - left. destruct (main_world (verifyProduct env a) w) as [_ Ht].
    change (try_catch _ _ w) with (main env (CmdVerify a) w) in Ht.
    rewrite Ht. destruct (verifyProduct env a w) as [v w1] eqn:E.
    apply verifyProduct_frame in E as [_ E]. exact E.
  - left. destruct (main env _ w) as [o w'] eqn:H.
    cli_run H; injection H as <- <-; reflexivity.
  - left. destruct (main env _ w) as [o w'] eqn:H.
    cli_run H; injection H as <- <-; reflexivity.
  - left. destruct (main_world (getProductHistory env a) w) as [_ Ht].
    change (try_catch _ _ w) with (main env (CmdGetHistory a) w) in Ht.
    rewrite Ht. destruct (getProductHistory env a w) as [v w1] eqn:E.
    apply getProductHistory_frame in E as [_ E]. exact E.
  - left. reflexivity.
Qed.

Lemma main_consistent env cmd w :
  consistent w -> consistent (main env cmd w).2.
Proof.
  intros [Hu Hb]. pose proof (main_extends env cmd w) as He.
  pose proof (main_step env cmd w) as S. cbv zeta in S.
  assert (Hb' : Forall (row_backed (ledger (main env cmd w).2)) (table w)).
  { eapply Forall_impl; [exact Hb|]. intros r. apply row_backed_extends, He. }
  destruct S as [S | (row & Hi & Hr)].
  - split; rewrite S; assumption.
  - split; [exact (insert_keys_unique _ _ _ Hu Hi)|].
    rewrite (insert_app _ _ _ Hi). apply Forall_app. split; [exact Hb'|].
    constructor; [exact Hr|constructor].
Qed.

(** X15. The engine keeps the table and the ledger consistent: if product
    ids are unique in the table and every row is one [addProduct] could
    have written, with the ledger holding its digest, then the same is
    true after any sequence of commands, whichever of them fail. *)
Theorem commands_keep_table_consistent runs w :
  consistent w -> consistent (session w runs).
Proof.
  revert w. induction runs as [|r runs IH]; intros w H; [exact H|].
  cbn [session fold_left]. apply IH, main_consistent, H.
Qed.

Lemma select_In pid tbl row rest :
  Store.select pid tbl = row :: rest ->
  In row tbl /\ Store.product_id row = pid.
Proof.
  unfold Store.select. intros H.
  assert (Hin : In row (List.filter
                          (fun r => String.eqb (Store.product_id r) pid) tbl))
    by (rewrite H; left; reflexivity).
  apply filter_In in Hin as [Hin He]. apply String.eqb_eq in He. auto.
Qed.

Lemma select_unique pid tbl row rest :
  keys_unique tbl -> Store.select pid tbl = row :: rest -> rest = [].
Proof.
  unfold keys_unique, Store.select.
  induction tbl as [|r tbl IH]; cbn [List.filter map]; [discriminate|].
  intros Hu H. apply NoDup_cons in Hu as [Hn Hu].
  destruct (String.eqb (Store.product_id r) pid) eqn:E.
  - injection H as <- <-. apply String.eqb_eq in E.
    destruct (List.filter _ tbl) as [|r' rest'] eqn:F; [reflexivity|].
    exfalso. apply Hn.
    destruct (select_In pid tbl r' rest' F) as [Hin Hid].
    apply list_elem_of_In, in_map_iff. exists r'. split; [congruence|exact Hin].
  - apply IH; assumption.
Qed.

(** X16. In a consistent world every product that has a row verifies as
    authentic: the keyed read returns exactly one row, and [verifyProduct]
    returns it as metadata with [isAuthentic = true] and the stored hash as
    both digests. *)
Theorem consistent_rows_verify_authentic env productID w :
  consistent w ->
  fault env DbSelect = None -> fault env RpcGetProductHash = None ->
  Store.select productID (table w) <> [] ->
  exists row w',
    Store.select productID (table w) = [row] /\
    verifyProduct env productID w =
    (Return {| productID := productID;
               isAuthentic := true;
               databaseHash := Store.product_hash row;
               blockchainHash := Store.product_hash row;
               metadata := row |}, w').
Proof.
  intros [Hu Hb] Hf1 Hf2 Hs.
  destruct (Store.select productID (table w)) as [|row rest] eqn:S;
    [contradiction|].
  pose proof (select_unique _ _ _ _ Hu S) as ->.
  destruct (select_In _ _ _ _ S) as [Hin Hid].
  rewrite List.Forall_forall in Hb. apply Hb in Hin as (Hp & Hh & tm & te & Htm & Hte & Hr).
  rewrite Hid in Hp, Hh.
  destruct (verifyProduct_run env productID w row [] (Store.product_hash row)
              tm te Hp Hf1 Hf2 S Hh) as (w' & V & _).
  { rewrite Hr. cbn [Store.manufacturing_date row_of]. apply parse_iso_string, Htm. }
  { rewrite Hr. cbn [Store.expiry_date row_of]. apply parse_iso_string, Hte. }
  exists row, w'. split; [reflexivity|]. rewrite V.
  assert (Hd : fingerprint (Store.product_id row) (Store.product_type row)
                 (Store.batch_number row) (JSDate.iso_string tm)
                 (JSDate.iso_string te) = Store.product_hash row).
  { transitivity (Store.product_hash
                    (row_of (Store.product_id row) (Store.product_type row)
                       (Store.batch_number row) tm te)); [reflexivity|].
    rewrite <- Hr. reflexivity. }
  rewrite Hd, String.eqb_refl. reflexivity.
Qed.

End EngineInvariant.

Section FingerprintShape.
Import Engine.

Lemma length_0x s : String.length ("0x" +:+ s) = S (S (String.length s)).
Proof. reflexivity. Qed.

Lemma iota_length rc a : length (Keccak.iota rc a) = length a.
Proof. destruct a; reflexivity. Qed.

Lemma round_length a rc : length (Keccak.round a rc) = 25%nat.
Proof.
  unfold Keccak.round. rewrite iota_length. unfold Keccak.chi.
  rewrite length_map. reflexivity.
Qed.

Lemma absorb_length st block : length (Keccak.absorb st block) = 25%nat.
Proof.
  unfold Keccak.absorb, Keccak.keccak_f, Keccak.RC.
  set (a := map _ Keccak.idx).
  cbn [fold_left].
  apply round_length.
Qed.

Lemma absorb_all_length blocks st :
  length st = 25%nat -> length (fold_left Keccak.absorb blocks st) = 25%nat.
Proof.
  revert st. induction blocks as [|b blocks IH]; intros st H; [exact H|].
  cbn [fold_left]. apply IH, absorb_length.
Qed.

Lemma digest_length m : length (Keccak.digest m) = 32%nat.
Proof.
  unfold Keccak.digest.
  set (st := fold_left _ _ _).
  assert (H : length st = 25%nat) by (apply absorb_all_length; reflexivity).
  destruct st as [|a [|b [|c [|d st] ] ] ]; try discriminate H.
  reflexivity.
Qed.

Lemma hexdigit_is_hex n : is_hex (Bytes.hexdigit n) = true.
Proof.
  unfold Bytes.hexdigit.
  destruct (Z.to_nat n) as [|[|[|[|[|[|[|[|[|[|[|[|[|[|[|[|k] ] ] ] ] ] ] ] ] ] ] ] ] ] ] ];
    try reflexivity.
  cbn. destruct k; reflexivity.
Qed.

Lemma string_of_list_length l :
  String.length (string_of_list_ascii l) = length l.
Proof. induction l as [|c l IH]; cbn; [reflexivity|]. rewrite IH. reflexivity. Qed.

Lemma hex_pairs_length (bs : list Z) :
  length (flat_map (fun b => [Bytes.hexdigit (b / 16); Bytes.hexdigit (b mod 16)]) bs)
  = (2 * length bs)%nat.
Proof. induction bs as [|b bs IH]; cbn [flat_map length app]; lia. Qed.

Lemma hex_pairs_hex (bs : list Z) :
  forallb is_hex
    (flat_map (fun b => [Bytes.hexdigit (b / 16); Bytes.hexdigit (b mod 16)]) bs)
  = true.
Proof.
  induction bs as [|b bs IH]; [reflexivity|].
  cbn [flat_map app forallb]. rewrite !hexdigit_is_hex, IH. reflexivity.
Qed.

(** X17. The fingerprint is always the text [0x] followed by 64 lower-case
    hexadecimal digits, 66 characters in all, whatever the five fields
    are: it fits the [product_hash VARCHAR(66)] column and is never the
    empty text the contract refuses. *)
Theorem fingerprint_is_66_hex_characters
    (productID productType batchNumber mfgDateStr expiryDateStr : string) :
  exists digits,
    fingerprint productID productType batchNumber mfgDateStr expiryDateStr
      = "0x" +:+ string_of_list_ascii digits /\
    length digits = 64%nat /\
    forallb is_hex digits = true /\
    String.length
      (fingerprint productID productType batchNumber mfgDateStr expiryDateStr)
      = 66%nat.
Proof.
  unfold fingerprint, Ethers.keccak256, Bytes.hexlify.
  set (bs := Keccak.digest _).
  assert (Hb : length bs = 32%nat) by apply digest_length.
  eexists. split; [reflexivity|].
  split; [rewrite hex_pairs_length, Hb; reflexivity|].
  split; [apply hex_pairs_hex|].
  rewrite length_0x, string_of_list_length, hex_pairs_length, Hb. reflexivity.
Qed.

End FingerprintShape.

Section Instants.
Import Cli Engine.

Lemma select_same_instants h pid t1 t2 :
  Forall2 (same_instants h) t1 t2 ->
  Forall2 (same_instants h) (Store.select pid t1) (Store.select pid t2).
Proof.
  induction 1 as [|r1 r2 t1 t2 Hr Ht IH]; [constructor|].
  unfold Store.select in *. cbn [List.filter].
  destruct Hr as (Hid & Hrest). rewrite <- Hid.
  destruct (String.eqb (Store.product_id r1) pid);
    [constructor; [split; assumption|exact IH]|exact IH].
Qed.

(** X18. [verifyProduct] reads the two date columns through [Date]: two
    tables whose rows agree on id, type and batch and whose date columns
    denote the same instants, however they are written, give the same
    verdict, the same two digests, or the same error. *)
Theorem verdict_depends_on_instants env productID w1 w2 :
  ledger w1 = ledger w2 ->
  Forall2 (same_instants (host env)) (table w1) (table w2) ->
  same_digests (verifyProduct env productID w1).1
               (verifyProduct env productID w2).1.
Proof.
  intros Hl Ht.
  pose proof (select_same_instants _ productID _ _ Ht) as Hs.
  destruct (verifyProduct env productID w1) as [o1 w1'] eqn:V1.
  destruct (verifyProduct env productID w2) as [o2 w2'] eqn:V2.
  cli_eval V1. cli_eval V2. cbn [fst].
  destruct (falsy productID);
    [injection V1 as <- _; injection V2 as <- _; reflexivity|].
  destruct (fault env DbSelect);
    [injection V1 as <- _; injection V2 as <- _; reflexivity|].
  cbn [ledger table console trace] in V1, V2.
  inversion Hs as [E1 E2|r1 r2 l1 l2 Hr Hrest E1 E2];
    rewrite <- E1 in V1; rewrite <- E2 in V2.
  { injection V1 as <- _; injection V2 as <- _; reflexivity. }
  destruct Hr as (Hid & Hty & Hb & Hm & He).
  rewrite <- ?Hid, <- ?Hty, <- ?Hb, <- ?Hm, <- ?He, <- ?Hl in V2.
  repeat (step_in V1; cbn [ledger table console trace] in V1, V2);
    injection V1 as <- _; injection V2 as <- _;
    cbn [same_digests isAuthentic databaseHash blockchainHash];
    repeat split; auto.
Qed.

End Instants.

Section Expiry.
Import Cli Engine JSDate.

Lemma march1_two_years y : 730 <= march1 (y + 1) - march1 (y - 1) <= 731.
Proof.
  unfold march1.
  pose proof (Z.div_mod y 400 ltac:(lia)) as E.
  pose proof (Z.mod_pos_bound y 400 ltac:(lia)) as B.
  set (era := y / 400) in *. set (yoe := y mod 400) in *.
  assert (Hm : forall a k, 0 <= a < 400 ->
                 (a + k * 400) / 400 = k /\ (a + k * 400) mod 400 = a).
  { intros a k Ha. rewrite Z.div_add, Z.mod_add by lia.
    rewrite Z.div_small, Z.mod_small by lia. lia. }
  destruct (Z.eq_dec yoe 0) as [Z0|NZ]; [|destruct (Z.eq_dec yoe 399) as [Z9|NZ9] ].
  - replace (y - 1) with (399 + (era - 1) * 400) by lia.
    replace (y + 1) with (1 + era * 400) by lia.
    destruct (Hm 399 (era - 1) ltac:(lia)) as [-> ->].
    destruct (Hm 1 era ltac:(lia)) as [-> ->].
    change (399 / 4) with 99. change (399 / 100) with 3.
    change (1 / 4) with 0. change (1 / 100) with 0. lia.
  - replace (y - 1) with (398 + era * 400) by lia.
    replace (y + 1) with (0 + (era + 1) * 400) by lia.
    destruct (Hm 398 era ltac:(lia)) as [-> ->].
    destruct (Hm 0 (era + 1) ltac:(lia)) as [-> ->].
    change (398 / 4) with 99. change (398 / 100) with 3.
    change (0 / 4) with 0. change (0 / 100) with 0. lia.
  - replace (y - 1) with ((yoe - 1) + era * 400) by lia.
    replace (y + 1) with ((yoe + 1) + era * 400) by lia.
    destruct (Hm (yoe - 1) era ltac:(lia)) as [-> ->].
    destruct (Hm (yoe + 1) era ltac:(lia)) as [-> ->].
    pose proof (Z.div_mod (yoe + 1) 4 ltac:(lia)).
    pose proof (Z.mod_pos_bound (yoe + 1) 4 ltac:(lia)).
    pose proof (Z.div_mod (yoe - 1) 4 ltac:(lia)).
    pose proof (Z.mod_pos_bound (yoe - 1) 4 ltac:(lia)).
    pose proof (Z.div_mod (yoe + 1) 100 ltac:(lia)).
    pose proof (Z.mod_pos_bound (yoe + 1) 100 ltac:(lia)).
    pose proof (Z.div_mod (yoe - 1) 100 ltac:(lia)).
    pose proof (Z.mod_pos_bound (yoe - 1) 100 ltac:(lia)).
    lia.
Qed.

Lemma two_years_later tl :
  exists days,
    (days = 730 \/ days = 731) /\
    MakeDate (MakeDay (YearFromTime tl + 2) (MonthFromTime tl) (DateFromTime tl))
      (TimeWithinDay tl) = tl + days * msPerDay.
Proof.
  pose proof (civil_from_days_spec (Day tl)) as Hc.
  unfold YearFromTime, MonthFromTime, DateFromTime, MakeDay.
  destruct (civil_from_days (Day tl)) as [[y m] d]. cbn [fst snd].
  destruct Hc as (Hm & Hd & Hday).
  replace ((m - 1) / 12) with 0 by (symmetry; apply Z.div_small; lia).
  replace ((m - 1) mod 12 + 1) with m by (rewrite Z.mod_small by lia; lia).
  replace (y + 2 + 0) with (y + 2) by lia.
  rewrite days_from_civil_march in Hday. rewrite days_from_civil_march.
  assert (Htl : tl = Day tl * msPerDay + TimeWithinDay tl).
  { unfold Day, TimeWithinDay, msPerDay.
    pose proof (Z.div_mod tl 86400000 ltac:(lia)). lia. }
  unfold MakeDate.
  set (y' := if m <=? 2 then y - 1 else y) in *.
  replace (if m <=? 2 then y + 2 - 1 else y + 2) with (y' + 2)
    by (subst y'; destruct (m <=? 2); lia).
  pose proof (march1_two_years (y' + 1)) as H2.
  replace (y' + 1 + 1) with (y' + 2) in H2 by lia.
  replace (y' + 1 - 1) with y' in H2 by lia.
  exists (march1 (y' + 2) - march1 y'). split; [lia|].
  generalize dependent (march1 (y' + 2)). generalize dependent (march1 y').
  generalize dependent (Day tl). generalize dependent (TimeWithinDay tl).
  unfold msPerDay. intros. lia.
Qed.

Lemma expiryDate_eq env tm :
  Date_now env = Some tm ->
  expiryDate env =
  TimeClip
    (UTC (host env)
       (MakeDate
          (MakeDay (YearFromTime (LocalTime (host env) tm) + 2)
             (MonthFromTime (LocalTime (host env) tm))
             (DateFromTime (LocalTime (host env) tm)))
          (TimeWithinDay (LocalTime (host env) tm)))).
Proof. intros H. unfold expiryDate. rewrite H. reflexivity. Qed.

Lemma fixed_LocalTime h offset t :
  fixed_offset h offset -> LocalTime h t = t + offset.
Proof. intros H. unfold LocalTime. rewrite H. reflexivity. Qed.

Lemma fixed_UTC h offset t : fixed_offset h offset -> UTC h t = t - offset.
Proof. intros H. unfold UTC. rewrite H. reflexivity. Qed.

(** X19. On a host whose local time is a fixed offset from UTC, the expiry
    date [addProduct] derives from the clock is the manufacturing instant
    plus a whole number of days, 730 or 731: the same time of day two
    calendar years later. *)
Theorem expiry_is_two_years_later env offset tm te :
  fixed_offset (host env) offset ->
  Date_now env = Some tm ->
  expiryDate env = Some te ->
  exists days, (days = 730 \/ days = 731) /\ te = tm + days * msPerDay.
Proof.
  intros Hoff Hnow Hexp. rewrite (expiryDate_eq _ _ Hnow) in Hexp.
  rewrite (fixed_UTC _ _ _ Hoff), (fixed_LocalTime _ _ _ Hoff) in Hexp.
  destruct (two_years_later (tm + offset)) as (days & Hd & E).
  rewrite E in Hexp. clear E.
  exists days. split; [exact Hd|].
  generalize dependent (days * msPerDay). intros z Hexp.
  apply TimeClip_Some in Hexp as [Hexp _]. lia.
Qed.

End Expiry.

Section RoleInvariants.
Import MedicineAuthenticity Ledger.

(** Every role is held by [owner] only. *)
Lemma exec_sole_holder owner st tx :
  (forall r a, hasRole st r a = true -> a = owner) ->
  (sender tx.1 = owner -> grants tx.2 = false) ->
  forall r a, hasRole (exec st tx) r a = true -> a = owner.
Proof.
  intros Inv Htx r a. unfold exec.
  destruct tx as [msg [p h|p n|r0 a0] ]; cbn [call fst snd grants] in *.
  - destruct (addProduct msg p h st) as [st'|] eqn:E; [|apply Inv].
    apply addProduct_Ok in E as (_ & _ & _ & _ & _ & _ & Hr & _).
    unfold hasRole. rewrite Hr. apply Inv.
  - destruct (addStage msg p n st) as [st'|] eqn:E; [|apply Inv].
    apply addStage_Ok in E as (_ & _ & _ & _ & _ & Hr & _).
    unfold hasRole. rewrite Hr. apply Inv.
  - destruct (grantRole msg r0 a0 st) as [st'|] eqn:E; [|apply Inv].
    exfalso. unfold grantRole, onlyRole in E.
    destruct (hasRole st (getRoleAdmin st r0) (sender msg)) eqn:Hh;
      [|discriminate].
    apply Inv in Hh. apply Htx in Hh. discriminate.
Qed.

(** X20. Write access cannot be taken, only given: as long as the deployer
    sends no [grantRole], no other account ever holds a role, whatever
    transactions the others send, and [addProduct] and [addStage] from any
    other account revert as unauthorized. *)
Theorem no_role_without_deployer_grant deployment txs :
  Forall (fun tx : Msg * Call =>
            sender tx.1 = sender deployment -> grants tx.2 = false) txs ->
  let st := run (constructor deployment) txs in
  (forall role account, hasRole st role account = true ->
                        account = sender deployment) /\
  (forall msg _productID _productHash,
     sender msg <> sender deployment ->
     addProduct msg _productID _productHash st =
       Reverted (AccessControlUnauthorizedAccount (sender msg) ADMIN_ROLE) /\
     addStage msg _productID _productHash st =
       Reverted (AccessControlUnauthorizedAccount (sender msg) ADMIN_ROLE)).
Proof.
  intros H. cbv zeta.
  assert (Inv : forall r a,
            hasRole (run (constructor deployment) txs) r a = true ->
            a = sender deployment).
  { assert (G : forall st,
              (forall r a, hasRole st r a = true -> a = sender deployment) ->
              forall r a, hasRole (run st txs) r a = true ->
                          a = sender deployment).
    { induction H as [|tx txs Htx _ IH]; intros st Hst; [exact Hst|].
      rewrite run_cons. apply IH.
      apply exec_sole_holder; assumption. }
    apply G. intros r a Hr.
    unfold hasRole in Hr. apply bool_decide_eq_true in Hr.
    unfold constructor, _setRoleAdmin, _grantRole, emit, empty_state in Hr.
    cbn [roles roleAdmin products events] in Hr.
    repeat (match type of Hr with
            | context [if ?c then _ else _] => destruct c
            end; cbn [roles roleAdmin products events] in Hr);
      set_solver. }
  split; [exact Inv|].
  intros msg p h Hs.
  assert (Hn : hasRole (run (constructor deployment) txs) ADMIN_ROLE
                 (sender msg) = false).
  { destruct (hasRole _ ADMIN_ROLE (sender msg)) eqn:E; [|reflexivity].
    apply Inv in E. contradiction. }
  split; [apply unauthorized_addProduct|apply unauthorized_addStage]; exact Hn.
Qed.

End RoleInvariants.

Section FurtherWitnesses.

Import Cli Engine Scenario.

(** X1 on the walk-through's deployment: the deployer registers P1, the
    stranger is turned away. *)
Lemma fresh_contract_admits_deployer_only_witness :
  (exists st',
     L.addProduct {| L.sender := deployer; L.block_timestamp := 1700000001 |}
       "P1" "0x01"
       (L.constructor {| L.sender := deployer; L.block_timestamp := 1700000000 |})
     = L.Ok st' /\
     L.getProductHash st' "P1" = L.Ok "0x01" /\
     L.getProductHistory st' "P1" = L.Ok [] /\
     L.productExists st' "P1" = L.Ok true) /\
  L.addProduct {| L.sender := stranger; L.block_timestamp := 1700000001 |}
    "P1" "0x01"
    (L.constructor {| L.sender := deployer; L.block_timestamp := 1700000000 |})
  = L.Reverted (L.AccessControlUnauthorizedAccount stranger L.ADMIN_ROLE) /\
  L.addStage {| L.sender := stranger; L.block_timestamp := 1700000001 |}
    "P1" "0x01"
    (L.constructor {| L.sender := deployer; L.block_timestamp := 1700000000 |})
  = L.Reverted (L.AccessControlUnauthorizedAccount stranger L.ADMIN_ROLE).
Proof.
  split.
  - apply (proj1 (fresh_contract_admits_deployer_only
                    {| L.sender := deployer; L.block_timestamp := 1700000000 |}
                    {| L.sender := deployer; L.block_timestamp := 1700000001 |}
                    "P1" "0x01" ltac:(discriminate) ltac:(discriminate))).
    reflexivity.
  - apply (proj2 (fresh_contract_admits_deployer_only
                    {| L.sender := deployer; L.block_timestamp := 1700000000 |}
                    {| L.sender := stranger; L.block_timestamp := 1700000001 |}
                    "P1" "0x01" ltac:(discriminate) ltac:(discriminate))).
    discriminate.
Defined.

(** X2 on the walk-through: P1 keeps its fingerprint through a stage and a
    second registration attempt. *)
Lemma registered_fingerprint_is_final_witness :
  L.getProductHash (L.run genesis walkthrough) "P1" =
    L.Ok "0x5d1e60d365a571414309bc21c97e4d93ba790d2bd7ea630a57888d7681efdc16" /\
  L.getProductHash
    (L.run (L.run genesis walkthrough)
       [({| L.sender := deployer; L.block_timestamp := 1700000005 |},
         L.CallAddStage "P1" "Delivered");
        ({| L.sender := deployer; L.block_timestamp := 1700000006 |},
         L.CallAddProduct "P1" "0x02")]) "P1" =
    L.Ok "0x5d1e60d365a571414309bc21c97e4d93ba790d2bd7ea630a57888d7681efdc16" /\
  L.productExists
    (L.run (L.run genesis walkthrough)
       [({| L.sender := deployer; L.block_timestamp := 1700000005 |},
         L.CallAddStage "P1" "Delivered");
        ({| L.sender := deployer; L.block_timestamp := 1700000006 |},
         L.CallAddProduct "P1" "0x02")]) "P1" = L.Ok true /\
  forall msg h', exists r,
    L.addProduct msg "P1" h'
      (L.run (L.run genesis walkthrough)
         [({| L.sender := deployer; L.block_timestamp := 1700000005 |},
           L.CallAddStage "P1" "Delivered");
          ({| L.sender := deployer; L.block_timestamp := 1700000006 |},
           L.CallAddProduct "P1" "0x02")]) = L.Reverted r.
Proof.
  assert (H : L.getProductHash (L.run genesis walkthrough) "P1" =
              L.Ok "0x5d1e60d365a571414309bc21c97e4d93ba790d2bd7ea630a57888d7681efdc16")
    by (vm_compute; reflexivity).
  split; [exact H|].
  exact (registered_fingerprint_is_final (L.run genesis walkthrough) _ "P1" _ H).
Defined.

(** X3 on the walk-through: P1 has two stages, a third goes to the end. *)
Lemma history_is_append_only_witness :
  exists old,
    L.getProductHistory (L.run genesis walkthrough) "P1" = L.Ok old /\
    map L.stageName old = ["Packaged"; "Shipped"] /\
    (forall msg _stageName st',
        L.addStage msg "P1" _stageName (L.run genesis walkthrough) = L.Ok st' ->
        L.getProductHistory st' "P1" =
        L.Ok (old ++ [ {| L.stageName := _stageName;
                          L.authenticator := L.sender msg;
                          L.timestamp := L.block_timestamp msg |} ])) /\
    (forall txs, exists more,
        L.getProductHistory (L.run (L.run genesis walkthrough) txs) "P1"
        = L.Ok (old ++ more)).
Proof.
  assert (H : L.getProductHistory (L.run genesis walkthrough) "P1" =
              L.Ok [ {| L.stageName := "Packaged"; L.authenticator := deployer;
                        L.timestamp := 1700000002 |};
                     {| L.stageName := "Shipped"; L.authenticator := deployer;
                        L.timestamp := 1700000004 |} ])
    by (vm_compute; reflexivity).
  eexists. split; [exact H|]. split; [reflexivity|].
  exact (history_is_append_only (L.run genesis walkthrough) "P1" _ H).
Defined.

(** X4 on the walk-through: registering P2 and granting a role leave P1
    alone. *)
Lemma other_transactions_leave_product_witness :
  Forall (fun tx : L.Msg * L.Call => Ledger.target tx.2 <> Some "P1")
    [({| L.sender := deployer; L.block_timestamp := 1700000005 |},
      L.CallAddProduct "P3" "0x03");
     ({| L.sender := deployer; L.block_timestamp := 1700000006 |},
      L.CallGrantRole L.ADMIN_ROLE stranger)] /\
  L.getProductHistory
    (L.run (L.run genesis walkthrough)
       [({| L.sender := deployer; L.block_timestamp := 1700000005 |},
         L.CallAddProduct "P3" "0x03");
        ({| L.sender := deployer; L.block_timestamp := 1700000006 |},
         L.CallGrantRole L.ADMIN_ROLE stranger)]) "P1"
  = L.getProductHistory (L.run genesis walkthrough) "P1".
Proof.
  assert (H : Forall (fun tx : L.Msg * L.Call => Ledger.target tx.2 <> Some "P1")
                [({| L.sender := deployer; L.block_timestamp := 1700000005 |},
                  L.CallAddProduct "P3" "0x03");
                 ({| L.sender := deployer; L.block_timestamp := 1700000006 |},
                  L.CallGrantRole L.ADMIN_ROLE stranger)])
    by (repeat constructor; cbn; discriminate).
  split; [exact H|].
  exact (proj1 (proj2 (proj2
           (other_transactions_leave_product (L.run genesis walkthrough) _ "P1" H)))).
Defined.

(** X7 with a missing batch number. *)
Lemma empty_arguments_rejected_locally_witness :
  (addProduct env0 "P1" "Aspirin" "" w0).1 =
    Throw (Error "Product ID, Type, and batch number are required") /\
  trace (addProduct env0 "P1" "Aspirin" "" w0).2 = trace w0 /\
  ledger (addProduct env0 "P1" "Aspirin" "" w0).2 = ledger w0 /\
  table (addProduct env0 "P1" "Aspirin" "" w0).2 = table w0.
Proof.
  exact (proj1 (empty_arguments_rejected_locally env0 w0) "P1" "Aspirin" ""
           (or_intror (or_intror eq_refl))).
Defined.

(** X9 on the walk-through: P9 was never registered. *)
Lemma missing_product_reported_witness :
  ((verifyProduct env0 "P9" w0).1 =
     Throw (Error ("Product " +:+ "P9" +:+ " not found in database")) /\
   trace_since w0 (verifyProduct env0 "P9" w0).2 = [(DbSelect, true)]) /\
  ((getProductHistory env0 "P9" w0).1 =
     Throw (CallException (L.RequireFailed "Product does not exist")) /\
   trace_since w0 (getProductHistory env0 "P9" w0).2 =
     [(RpcGetProductHistory, false)]).
Proof.
  split.
  - apply (proj1 (missing_product_reported env0 "P9" w0 ltac:(discriminate)));
      reflexivity.
  - apply (proj2 (proj2 (missing_product_reported env0 "P9" w0
                           ltac:(discriminate))));
      [reflexivity|vm_compute; reflexivity].
Defined.

(** X10 on the walk-through: the registration of P1 adds its row, and with
    the database connection reset at the insert the table stays empty. *)
Lemma table_written_only_on_success_witness :
  (exists row,
     table (addProduct env0 "P1" "Aspirin" "B001" w0).2 = table w0 ++ [row] /\
     Store.product_id row = "P1" /\
     Store.product_type row = "Aspirin" /\
     Store.batch_number row = "B001" /\
     Store.product_hash row =
       "0x5d1e60d365a571414309bc21c97e4d93ba790d2bd7ea630a57888d7681efdc16") /\
  table (addProduct (failing DbInsert "read ECONNRESET" env0)
           "P1" "Aspirin" "B001" w0).2 = table w0.
Proof.
  split.
  - destruct (proj2 (table_written_only_on_success env0 "P1" "Aspirin" "B001" w0)
                {| added_productID := "P1";
                   added_productHash :=
                     "0x5d1e60d365a571414309bc21c97e4d93ba790d2bd7ea630a57888d7681efdc16" |}
                ltac:(vm_compute; reflexivity))
      as (row & H1 & H2 & H3 & H4 & H5 & _).
    exists row. auto.
  - apply (proj1 (table_written_only_on_success
                    (failing DbInsert "read ECONNRESET" env0)
                    "P1" "Aspirin" "B001" w0) (Error "read ECONNRESET")).
    vm_compute. reflexivity.
Defined.

(** X11 on the walk-through: a reset connection at the existence check
    stops the registration; a failure whose text contains the word
    Product does not. *)
Lemma existence_check_failure_filtered_witness :
  ((addProduct (failing RpcProductExists "read ECONNRESET" env0)
      "P1" "Aspirin" "B001" w0).1 = Throw (Error "read ECONNRESET") /\
   trace_since w0
     (addProduct (failing RpcProductExists "read ECONNRESET" env0)
        "P1" "Aspirin" "B001" w0).2 = [(RpcProductExists, false)] /\
   ledger (addProduct (failing RpcProductExists "read ECONNRESET" env0)
             "P1" "Aspirin" "B001" w0).2 = ledger w0 /\
   table (addProduct (failing RpcProductExists "read ECONNRESET" env0)
            "P1" "Aspirin" "B001" w0).2 = table w0) /\
  (addProduct (failing RpcProductExists "Product lookup timed out" env0)
     "P1" "Aspirin" "B001" w0).1 =
  (addProduct (healthy RpcProductExists
                 (failing RpcProductExists "Product lookup timed out" env0))
     "P1" "Aspirin" "B001" w0).1.
Proof.
  split.
  - apply (proj1 (existence_check_failure_filtered
                    (failing RpcProductExists "read ECONNRESET" env0)
                    "P1" "Aspirin" "B001" w0 "read ECONNRESET"
                    1700000000000 1763158400000
                    ltac:(vm_compute; reflexivity)
                    ltac:(discriminate) ltac:(discriminate) ltac:(discriminate)
                    ltac:(vm_compute; reflexivity)
                    ltac:(vm_compute; reflexivity))).
    reflexivity.
  - apply (proj2 (existence_check_failure_filtered
                    (failing RpcProductExists "Product lookup timed out" env0)
                    "P1" "Aspirin" "B001" w0 "Product lookup timed out"
                    1700000000000 1763158400000
                    ltac:(vm_compute; reflexivity)
                    ltac:(discriminate) ltac:(discriminate) ltac:(discriminate)
                    ltac:(vm_compute; reflexivity)
                    ltac:(vm_compute; reflexivity))).
    reflexivity.
Defined.

(** X12 on the walk-through's ledger, and on a stage stamped beyond the
    range of [Date]. *)
Lemma history_entries_formatted_witness :
  (getProductHistory env0 "P1"
     {| ledger := L.run genesis walkthrough; table := []; console := [];
        trace := [] |}).1 =
  Return
    (map formatted
       [ {| L.stageName := "Packaged"; L.authenticator := deployer;
            L.timestamp := 1700000002 |};
         {| L.stageName := "Shipped"; L.authenticator := deployer;
            L.timestamp := 1700000004 |} ]) /\
  (getProductHistory env0 "P1"
     {| ledger :=
          L.run genesis
            (walkthrough ++
             [({| L.sender := deployer;
                  L.block_timestamp := 9000000000000000 |},
               L.CallAddStage "P1" "Archived")]);
        table := []; console := []; trace := [] |}).1 =
  Throw (RangeError "Invalid time value").
Proof.
  split.
  - apply (proj1 (history_entries_formatted env0 "P1"
                    {| ledger := L.run genesis walkthrough; table := [];
                       console := []; trace := [] |}
                    [ {| L.stageName := "Packaged"; L.authenticator := deployer;
                         L.timestamp := 1700000002 |};
                      {| L.stageName := "Shipped"; L.authenticator := deployer;
                         L.timestamp := 1700000004 |} ]
                    ltac:(discriminate) eq_refl
                    ltac:(vm_compute; reflexivity))).
    repeat constructor; unfold printable; cbn; discriminate.
  - apply (proj2 (history_entries_formatted env0 "P1"
                    {| ledger :=
                         L.run genesis
                           (walkthrough ++
                            [({| L.sender := deployer;
                                 L.block_timestamp := 9000000000000000 |},
                              L.CallAddStage "P1" "Archived")]);
                       table := []; console := []; trace := [] |}
                    [ {| L.stageName := "Packaged"; L.authenticator := deployer;
                         L.timestamp := 1700000002 |};
                      {| L.stageName := "Shipped"; L.authenticator := deployer;
                         L.timestamp := 1700000004 |};
                      {| L.stageName := "Archived"; L.authenticator := deployer;
                         L.timestamp := 9000000000000000 |} ]
                    ltac:(discriminate) eq_refl
                    ltac:(vm_compute; reflexivity))).
    intros H. inversion H as [|? ? _ Ha]. inversion Ha as [|? ? _ Hb].
    inversion Hb as [|? ? Hc _]. vm_compute in Hc. exact (Hc eq_refl).
Defined.

(** X13 on the walk-through: a stage is added to P1 and a stage for an
    unregistered product is reverted. *)
Lemma stage_added_with_wallet_and_block_time_witness :
  (trace_since w1 (addStage env0 "P1" "Packaged" w1).2 =
     [(RpcAddStage, true); (RpcWait, true)] /\
   exists old,
     L.getProductHistory (ledger w1) "P1" = L.Ok old /\
     L.getProductHistory (ledger (addStage env0 "P1" "Packaged" w1).2) "P1" =
     L.Ok (old ++ [ {| L.stageName := "Packaged";
                       L.authenticator := wallet env0;
                       L.timestamp := block_timestamp env0 |} ])) /\
  (addStage env0 "P9" "Packaged" w1).1 =
    Throw (CallException (L.RequireFailed "Product does not exist")).
Proof.
  split.
  - apply (proj1 (proj2 (stage_added_with_wallet_and_block_time
                           env0 "P1" "Packaged" w1)) ("P1", "Packaged")).
    vm_compute. reflexivity.
  - apply (proj2 (proj2 (stage_added_with_wallet_and_block_time
                           env0 "P9" "Packaged" w1))
             (L.RequireFailed "Product does not exist")).
    + discriminate.
    + discriminate.
    + reflexivity.
    + vm_compute. reflexivity.
Defined.

(** X14 on the walk-through: the deployer makes the stranger an admin; a
    text that is no address is refused. *)
Lemma grant_admin_role_effect_witness :
  (exists account,
     parse_address env0 "0x70997970C51812dc3A010C7d01b50e0d17dc79C8"
       = Some account /\
     L.hasRole (ledger w0) (L.getRoleAdmin (ledger w0) L.ADMIN_ROLE)
       (wallet env0) = true /\
     L.hasRole
       (ledger (grantAdminRole env0
                  "0x70997970C51812dc3A010C7d01b50e0d17dc79C8" w0).2)
       L.ADMIN_ROLE account = true) /\
  (grantAdminRole
     {| wallet := deployer; block_timestamp := 1700000001;
        now := 1700000000000; host := utc;
        show_address := fun _ => "";
        parse_address := fun _ => None;
        fault := fun _ => None |} "not-an-address" w0).1 =
  Throw (Error ("Invalid Ethereum address: " +:+ "not-an-address")).
Proof.
  split.
  - destruct (proj2 (proj2 (proj2
                (grant_admin_role_effect env0
                   "0x70997970C51812dc3A010C7d01b50e0d17dc79C8" w0)))
                tt ltac:(vm_compute; reflexivity))
      as (account & H1 & H2 & H3 & _).
    exists account. auto.
  - apply (proj1 (proj2 (proj2
             (grant_admin_role_effect
                {| wallet := deployer; block_timestamp := 1700000001;
                   now := 1700000000000; host := utc;
                   show_address := fun _ => "";
                   parse_address := fun _ => None;
                   fault := fun _ => None |} "not-an-address" w0)))).
    reflexivity.
Defined.

Lemma consistent_genesis : consistent w0.
Proof. split; constructor. Defined.

(** X15 on the walk-through: a registration, a stage, a registration by a
    stranger and a second registration of P1. *)
Lemma commands_keep_table_consistent_witness :
  consistent w0 /\
  consistent
    (session w0 [(env0, CmdAddProduct "P1" "Aspirin" "B001");
                 (env0, CmdAddStage "P1" "Packaged");
                 (signed_by stranger env0, CmdAddProduct "P2" "Placebo" "B999");
                 (env0, CmdAddProduct "P1" "Aspirin" "B001")]).
Proof.
  split; [exact consistent_genesis|].
  exact (commands_keep_table_consistent _ w0 consistent_genesis).
Defined.

(** X16 on the walk-through: after the registration command P1 verifies. *)
Lemma consistent_rows_verify_authentic_witness :
  consistent (main env0 (CmdAddProduct "P1" "Aspirin" "B001") w0).2 /\
  exists row w',
    Store.select "P1"
      (table (main env0 (CmdAddProduct "P1" "Aspirin" "B001") w0).2) = [row] /\
    verifyProduct env0 "P1"
      (main env0 (CmdAddProduct "P1" "Aspirin" "B001") w0).2 =
    (Return {| productID := "P1";
               isAuthentic := true;
               databaseHash := Store.product_hash row;
               blockchainHash := Store.product_hash row;
               metadata := row |}, w').
Proof.
  assert (H : consistent (main env0 (CmdAddProduct "P1" "Aspirin" "B001") w0).2)
    by exact (main_consistent env0 _ w0 consistent_genesis).
  split; [exact H|].
  apply (consistent_rows_verify_authentic env0 "P1" _ H eq_refl eq_refl).
  vm_compute. discriminate.
Defined.

Lemma same_ledger st t1 t2 c1 c2 r1 r2 :
  ledger {| ledger := st; table := t1; console := c1; trace := r1 |} =
  ledger {| ledger := st; table := t2; console := c2; trace := r2 |}.
Proof. reflexivity. Defined.

(** X18 on two spellings of the same instants: four-digit years and the
    expanded six-digit form. *)
Lemma verdict_depends_on_instants_witness :
  Forall2 (same_instants (host env0))
    [ {| Store.product_id := "P1"; Store.product_type := "Aspirin";
         Store.batch_number := "B001";
         Store.manufacturing_date := "2023-11-14T22:13:20.000Z";
         Store.expiry_date := "2025-11-14T22:13:20.000Z";
         Store.product_hash := "" |} ]
    [ {| Store.product_id := "P1"; Store.product_type := "Aspirin";
         Store.batch_number := "B001";
         Store.manufacturing_date := "+002023-11-14T22:13:20.000Z";
         Store.expiry_date := "+002025-11-14T22:13:20.000Z";
         Store.product_hash := "" |} ] /\
  same_digests
    (verifyProduct env0 "P1"
       {| ledger := ledger w1;
          table :=
            [ {| Store.product_id := "P1"; Store.product_type := "Aspirin";
                 Store.batch_number := "B001";
                 Store.manufacturing_date := "2023-11-14T22:13:20.000Z";
                 Store.expiry_date := "2025-11-14T22:13:20.000Z";
                 Store.product_hash := "" |} ];
          console := []; trace := [] |}).1
    (verifyProduct env0 "P1"
       {| ledger := ledger w1;
          table :=
            [ {| Store.product_id := "P1"; Store.product_type := "Aspirin";
                 Store.batch_number := "B001";
                 Store.manufacturing_date := "+002023-11-14T22:13:20.000Z";
                 Store.expiry_date := "+002025-11-14T22:13:20.000Z";
                 Store.product_hash := "" |} ];
          console := []; trace := [] |}).1.
Proof.
  assert (H : Forall2 (same_instants (host env0))
    [ {| Store.product_id := "P1"; Store.product_type := "Aspirin";
         Store.batch_number := "B001";
         Store.manufacturing_date := "2023-11-14T22:13:20.000Z";
         Store.expiry_date := "2025-11-14T22:13:20.000Z";
         Store.product_hash := "" |} ]
    [ {| Store.product_id := "P1"; Store.product_type := "Aspirin";
         Store.batch_number := "B001";
         Store.manufacturing_date := "+002023-11-14T22:13:20.000Z";
         Store.expiry_date := "+002025-11-14T22:13:20.000Z";
         Store.product_hash := "" |} ]).
  { constructor; [|constructor].
    repeat split; vm_compute; reflexivity. }
  split; [exact H|].
  match goal with
  | |- same_digests (verifyProduct _ _ ?a).1 (verifyProduct _ _ ?b).1 =>
      exact (verdict_depends_on_instants env0 "P1" a b
               (same_ledger (ledger w1) _ _ [] [] [] []) H)
  end.
Defined.

(** X19 on the walk-through's clock: 14 November 2023 to 14 November 2025,
    731 days. *)
Lemma expiry_is_two_years_later_witness :
  fixed_offset (host env0) 0 /\
  Date_now env0 = Some 1700000000000 /\
  expiryDate env0 = Some 1763158400000 /\
  exists days,
    (days = 730 \/ days = 731) /\
    1763158400000 = 1700000000000 + days * JSDate.msPerDay.
Proof.
  assert (H1 : fixed_offset (host env0) 0) by (intros t b; reflexivity).
  assert (H2 : Date_now env0 = Some 1700000000000) by (vm_compute; reflexivity).
  assert (H3 : expiryDate env0 = Some 1763158400000) by (vm_compute; reflexivity).
  split; [exact H1|]. split; [exact H2|]. split; [exact H3|].
  exact (expiry_is_two_years_later env0 0 _ _ H1 H2 H3).
Defined.

(** X20 on the walk-through's deployment: the stranger tries to grant
    itself the role and to register a product. *)
Lemma no_role_without_deployer_grant_witness :
  Forall (fun tx : L.Msg * L.Call =>
            L.sender tx.1 = deployer -> Ledger.grants tx.2 = false)
    [({| L.sender := stranger; L.block_timestamp := 1700000001 |},
      L.CallGrantRole L.ADMIN_ROLE stranger);
     ({| L.sender := deployer; L.block_timestamp := 1700000002 |},
      L.CallAddProduct "P1" "0x01");
     ({| L.sender := stranger; L.block_timestamp := 1700000003 |},
      L.CallAddProduct "P2" "0x02")] /\
  (forall role account,
     L.hasRole
       (L.run (L.constructor
                 {| L.sender := deployer; L.block_timestamp := 1700000000 |})
          [({| L.sender := stranger; L.block_timestamp := 1700000001 |},
            L.CallGrantRole L.ADMIN_ROLE stranger);
           ({| L.sender := deployer; L.block_timestamp := 1700000002 |},
            L.CallAddProduct "P1" "0x01");
           ({| L.sender := stranger; L.block_timestamp := 1700000003 |},
            L.CallAddProduct "P2" "0x02")]) role account = true ->
     account = deployer).
Proof.
  assert (H : Forall (fun tx : L.Msg * L.Call =>
                        L.sender tx.1 = deployer -> Ledger.grants tx.2 = false)
                [({| L.sender := stranger; L.block_timestamp := 1700000001 |},
                  L.CallGrantRole L.ADMIN_ROLE stranger);
                 ({| L.sender := deployer; L.block_timestamp := 1700000002 |},
                  L.CallAddProduct "P1" "0x01");
                 ({| L.sender := stranger; L.block_timestamp := 1700000003 |},
                  L.CallAddProduct "P2" "0x02")]).
  { repeat constructor; cbn; intros; first [reflexivity|discriminate]. }
  split; [exact H|].
  exact (proj1 (no_role_without_deployer_grant
                  {| L.sender := deployer; L.block_timestamp := 1700000000 |}
                  _ H)).
Defined.

End FurtherWitnesses.
